(** * change_tempo_and_pitch_via_sample_rate.py: a shallow embedding

    The script reads a WAV file with Python's [wave] module and writes a
    copy whose header carries another sample rate.  This development
    embeds the script ([get_path_name], [change_sample_rate], [main]) and
    the parts of the Python runtime it runs on: string slicing and
    [rfind], [int()], [repr()], [struct.pack]/[unpack_from] for the
    formats used, and the [wave] module (CPython 3.13, the version named
    in the script's header: [_Chunk], [Wave_read], [Wave_write]).

    Python values are modelled as follows: [int] is [Z]; [str] is
    [string]; [bytes] is [list byte]; an exception is a value of [exn];
    the file system is a map from path names to file contents and the
    console is the list of printed texts.  The host is little-endian
    ([sys.byteorder == 'little']).  The file system holds regular,
    seekable files only, under names it accepts: a path names a file or
    nothing, a file of any name can be created, and writing never
    fails.  What the operating system may refuse on top of that (a path
    that names a directory, an output name longer than its limit, a
    directory that is missing or read-only, a full disk) is outside the
    model; the statements below that depend on the output file being
    opened bound the rate, so that the output name exceeds the input
    name by some 50 characters at most. *)

From Stdlib Require Import ZArith List String Ascii Bool Lia.
From Stdlib Require Import Strings.Byte Numbers.DecimalString.
From Stdlib Require Import DecimalZ DecimalPos.
Import ListNotations.
Local Open Scope string_scope.
Local Open Scope list_scope.
Local Open Scope Z_scope.

(** ** Python built-ins used by the script *)

Definition bytes := list byte.

(** Exceptions raised by the modelled code.  All of them derive from
    Python's [Exception]. *)
Inductive exn : Type :=
| FileNotFoundError (filename : string)
| OSError (msg : string)
| EOFError
| RuntimeError
| AttributeError (msg : string)
| Error (msg : string)            (* wave.Error *)
| struct_error (msg : string)     (* struct.error *)
| TypeError (msg : string).

(** The outcome of a computation that may raise. *)
Definition result (A : Type) : Type := (exn + A)%type.

Definition rbind {A B} (r : result A) (k : A -> result B) : result B :=
  match r with inl e => inl e | inr a => k a end.

(** A computation on a mutable object of type [St]: the object survives
    an exception in the state it was left in. *)
Definition M (St A : Type) : Type := St -> result A * St.

Definition ret {St A} (a : A) : M St A := fun s => (inr a, s).
Definition raise {St A} (e : exn) : M St A := fun s => (inl e, s).
Definition bind {St A B} (m : M St A) (k : A -> M St B) : M St B :=
  fun s => match m s with
           | (inl e, s') => (inl e, s')
           | (inr a, s') => k a s'
           end.
Definition get {St} : M St St := fun s => (inr s, s).
Definition modify {St} (f : St -> St) : M St unit := fun s => (inr tt, f s).
Definition lift {St A} (r : result A) : M St A := fun s => (r, s).

Declare Scope py_scope.
Delimit Scope py_scope with py.
Notation "x <- m ;; k" := (bind m (fun x => k))
  (at level 61, m at next level, right associativity) : py_scope.
Notation "m ;; k" := (bind m (fun _ => k))
  (at level 61, right associativity) : py_scope.

Module Py.

(** [len(s)] *)
Definition len (s : string) : Z := Z.of_nat (String.length s).

(** [s.rfind(c)] for a one-character needle [c]: the highest index at
    which [c] occurs, [-1] when it does not occur. *)
Fixpoint rfind (s : string) (c : ascii) : Z :=
  match s with
  | EmptyString => -1
  | String a s' =>
      let r := rfind s' c in
      if 0 <=? r then r + 1
      else if Ascii.eqb a c then 0 else -1
  end.

(** Index adjustment of a slice bound (step 1): a negative bound counts
    from the end, and the result is clamped to [0 .. len]. *)
Definition adjust_index (n i : Z) : Z :=
  let i := if i <? 0 then i + n else i in
  if i <? 0 then 0 else if n <? i then n else i.

(** [s[start:stop]]; [None] stands for an omitted bound. *)
Definition slice (s : string) (start stop : option Z) : string :=
  let n := len s in
  let lo := match start with Some i => adjust_index n i | None => 0 end in
  let hi := match stop with Some j => adjust_index n j | None => n end in
  substring (Z.to_nat lo) (Z.to_nat (hi - lo)) s.

(** [str(n)] for an [int], as an f-string field prints it. *)
Definition str_of_int (n : Z) : string :=
  NilZero.string_of_int (Z.to_int n).

(** [a + b] where [a] may be [None]: [None + str] raises [TypeError]. *)
Definition add_str (a : option string) (b : string) : result string :=
  match a with
  | Some a => inr (a ++ b)%string
  | None => inl (TypeError "unsupported operand type(s) for +: 'NoneType' and 'str'")
  end.

(** The characters (code points below 256) [int()] strips from both
    ends of its argument: the ASCII white space of C ([\t], [\n], [\v],
    [\f], [\r] and the space), and the two characters above 127 that
    are Unicode white space, which [int()] turns into spaces first.  The
    separators 28 to 31, for which [str.isspace] holds as well, are not
    stripped: [int()] raises [ValueError] on them. *)
Definition isspace (c : ascii) : bool :=
  let n := Z.of_nat (nat_of_ascii c) in
  ((9 <=? n) && (n <=? 13)) || (n =? 32) || (n =? 133) || (n =? 160).

Fixpoint lstrip (s : string) : string :=
  match s with
  | String c s' => if isspace c then lstrip s' else s
  | EmptyString => EmptyString
  end.

Fixpoint rstrip (s : string) : string :=
  match s with
  | String c s' =>
      match rstrip s' with
      | EmptyString => if isspace c then EmptyString else String c EmptyString
      | r => String c r
      end
  | EmptyString => EmptyString
  end.

Definition digit_value (c : ascii) : option Z :=
  let n := Z.of_nat (nat_of_ascii c) in
  if (48 <=? n) && (n <=? 57) then Some (n - 48) else None.

(** The digits of a base-10 literal: single underscores may separate
    digits.  [prev] tells whether the previous character was a digit;
    the result carries the value and the number of digits. *)
Fixpoint digits (s : string) (prev : bool) (acc : Z) (count : Z) : option (Z * Z) :=
  match s with
  | EmptyString => if prev then Some (acc, count) else None
  | String c s' =>
      match digit_value c with
      | Some d => digits s' true (10 * acc + d) (count + 1)
      | None =>
          if Ascii.eqb c "_"%char && prev then digits s' false acc count
          else None
      end
  end.

(** [int(s)] for a [str] in base 10; [None] stands for [ValueError].
    Strings of more than 4300 digits are refused
    ([sys.get_int_max_str_digits()]). *)
Definition int (s : string) : option Z :=
  let s := rstrip (lstrip s) in
  let '(neg, body) :=
    match s with
    | String "-"%char r => (true, r)
    | String "+"%char r => (false, r)
    | _ => (false, s)
    end in
  match digits body false 0 0 with
  | Some (v, count) =>
      if 4300 <? count then None else Some (if neg then - v else v)
  | None => None
  end.

Definition hex_digit (n : Z) : ascii :=
  ascii_of_nat (Z.to_nat (if n <? 10 then 48 + n else 87 + n)).

(** One character of [repr(s)] inside single or double quotes [q]. *)
Definition repr_char (q : ascii) (c : ascii) : string :=
  let n := Z.of_nat (nat_of_ascii c) in
  if Ascii.eqb c "\"%char then "\\"
  else if Ascii.eqb c q then String "\"%char (String q EmptyString)
  else if n =? 9 then "\t"
  else if n =? 10 then "\n"
  else if n =? 13 then "\r"
  else if (n <? 32) || (n =? 127)
       || ((128 <=? n) && (n <=? 160)) || (n =? 173)
  then String "\"%char (String "x"%char
         (String (hex_digit (n / 16)) (String (hex_digit (n mod 16)) EmptyString)))
  else String c EmptyString.

Definition dquote : ascii := ascii_of_nat 34.

Fixpoint mem_char (c : ascii) (s : string) : bool :=
  match s with
  | EmptyString => false
  | String a s' => Ascii.eqb a c || mem_char c s'
  end.

Fixpoint concat_map (f : ascii -> string) (s : string) : string :=
  match s with
  | EmptyString => EmptyString
  | String a s' => (f a ++ concat_map f s')%string
  end.

(** [repr(s)] for a [str] of Latin-1 characters: single quotes, unless
    the string holds a single quote and no double quote. *)
Definition repr (s : string) : string :=
  let q := if mem_char "'"%char s && negb (mem_char dquote s)
           then dquote else "'"%char in
  (String q (concat_map (repr_char q) s) ++ String q EmptyString)%string.

(** [str(e)] for an exception, as [f"{e}"] prints it. *)
Definition str_of_exn (e : exn) : string :=
  match e with
  | FileNotFoundError f =>
      ("[Errno 2] No such file or directory: " ++ repr f)%string
  | OSError msg => msg
  | EOFError => EmptyString
  | RuntimeError => EmptyString
  | AttributeError msg => msg
  | Error msg => msg
  | struct_error msg => msg
  | TypeError msg => msg
  end.

End Py.

(** ** The [struct] module, for the little-endian formats [wave] uses *)

Module struct.

(** Format characters: ['H'] (unsigned, 2 bytes) and ['L'] (unsigned,
    4 bytes), in standard size as the ['<'] prefix asks. *)
Inductive code : Type := H | L.

Definition size (c : code) : nat :=
  match c with H => 2%nat | L => 4%nat end.

Definition letter (c : code) : string :=
  match c with H => "H" | L => "L" end.

Fixpoint calcsize (f : list code) : nat :=
  match f with
  | [] => 0%nat
  | c :: f' => (size c + calcsize f')%nat
  end.

(** The unsigned value of a little-endian byte string. *)
Fixpoint le_value (bs : bytes) : Z :=
  match bs with
  | [] => 0
  | x :: r => Z.of_N (Byte.to_N x) + 256 * le_value r
  end.

Fixpoint unpack_fields (f : list code) (buf : bytes) : list Z :=
  match f with
  | [] => []
  | c :: f' =>
      le_value (firstn (size c) buf) :: unpack_fields f' (skipn (size c) buf)
  end.

(** [struct.unpack_from('<...', buf)]: [None] stands for [struct.error]
    (the buffer is too short). *)
Definition unpack_from (f : list code) (buf : bytes) : option (list Z) :=
  if (List.length buf <? calcsize f)%nat then None
  else Some (unpack_fields f buf).

Definition byte_of_Z (n : Z) : byte :=
  match Byte.of_N (Z.to_N n) with
  | Some x => x
  | None => Byte.x00
  end.

(** The [n] low-order bytes of [v], least significant first. *)
Fixpoint le_bytes (n : nat) (v : Z) : bytes :=
  match n with
  | O => []
  | S n' => byte_of_Z (v mod 256) :: le_bytes n' (v / 256)
  end.

(** One argument of [struct.pack]: an integer for a format character, or
    a 4-byte string for ['4s']. *)
Inductive arg : Type :=
| Int (c : code) (v : Z)
| S4 (s : bytes).

Definition pack_arg (a : arg) : result bytes :=
  match a with
  | Int c v =>
      let limit := 2 ^ (8 * Z.of_nat (size c)) in
      if (0 <=? v) && (v <? limit) then inr (le_bytes (size c) v)
      else inl (struct_error
                  ("'" ++ letter c ++ "' format requires 0 <= number <= "
                   ++ Py.str_of_int (limit - 1))%string)
  | S4 s => inr (firstn 4 (s ++ repeat Byte.x00 4))
  end.

(** [struct.pack('<...', args)]: the arguments are converted in order and
    the first one out of range raises. *)
Fixpoint pack (args : list arg) : result bytes :=
  match args with
  | [] => inr []
  | a :: rest =>
      rbind (pack_arg a) (fun x => rbind (pack rest) (fun y => inr (x ++ y)))
  end.

End struct.

(** ** Files *)

(** An open binary file: its content and the position of the next read
    or write. *)
Record File : Type := { f_data : bytes; f_pos : Z }.

(** The protocol [_Chunk] asks of the object it reads from: [read(size)],
    [seek(pos, whence)] and [tell()].  A file object and a [_Chunk]
    both provide it. *)
Class FileLike (F : Type) : Type := {
  fl_read : Z -> F -> bytes * F;
  fl_seek : Z -> Z -> F -> result F;
  fl_tell : F -> Z
}.

Definition file_read (size : Z) (f : File) : bytes * File :=
  let rest := skipn (Z.to_nat (f_pos f)) (f_data f) in
  let d := if size <? 0 then rest else firstn (Z.to_nat size) rest in
  (d, {| f_data := f_data f; f_pos := f_pos f + Z.of_nat (List.length d) |}).

Definition file_seek (pos whence : Z) (f : File) : result File :=
  let target :=
    if whence =? 1 then f_pos f + pos
    else if whence =? 2 then Z.of_nat (List.length (f_data f)) + pos
    else pos in
  if target <? 0 then inl (OSError "[Errno 22] Invalid argument")
  else inr {| f_data := f_data f; f_pos := target |}.

Definition file_tell (f : File) : Z := f_pos f.

(** [f.write(bs)]: the bytes overwrite the content from the current
    position on; a position past the end is filled with zero bytes. *)
Definition file_write (bs : bytes) (f : File) : File :=
  let p := Z.to_nat (f_pos f) in
  let before := firstn p (f_data f) in
  let gap := repeat Byte.x00 (p - List.length (f_data f)) in
  let after := skipn (p + List.length bs) (f_data f) in
  {| f_data := before ++ gap ++ bs ++ after;
     f_pos := f_pos f + Z.of_nat (List.length bs) |}.

#[export] Instance File_FileLike : FileLike File :=
  {| fl_read := file_read; fl_seek := file_seek; fl_tell := file_tell |}.

Fixpoint bytes_eqb (a b : bytes) : bool :=
  match a, b with
  | [], [] => true
  | x :: a', y :: b' => Byte.eqb x y && bytes_eqb a' b'
  | _, _ => false
  end.

Definition b_RIFF : bytes := Eval cbv in list_byte_of_string "RIFF".
Definition b_WAVE : bytes := Eval cbv in list_byte_of_string "WAVE".
Definition b_fmt : bytes := Eval cbv in list_byte_of_string "fmt ".
Definition b_data : bytes := Eval cbv in list_byte_of_string "data".

(** The world the script runs in: the file system, from path names to
    file contents, and the texts printed so far, one for each call of
    [print]. *)
Record World : Type := { fs : string -> option bytes; stdout : list string }.

(** [print(line)] *)
Definition print (line : string) : M World unit :=
  modify (fun w => {| fs := fs w; stdout := stdout w ++ [line] |}).

(** The content [data] reaches the file named [path]. *)
Definition store (path : string) (data : bytes) : M World unit :=
  modify (fun w =>
    {| fs := fun q => if String.eqb q path then Some data else fs w q;
       stdout := stdout w |}).

(** ** The [wave] module *)

Module wave.

Definition WAVE_FORMAT_PCM : Z := 1.
Definition WAVE_FORMAT_EXTENSIBLE : Z := 65534.
Definition KSDATAFORMAT_SUBTYPE_PCM : bytes :=
  [x01; x00; x00; x00; x00; x00; x10; x00;
   x80; x00; x00; xaa; x00; x38; x9b; x71]%byte.

(** *** class _Chunk *)

(** A chunk of a RIFF file, read through the file-like object [file]:
    the RIFF chunk reads from the file, the chunks inside it read from
    the RIFF chunk.  The object [file] is shared with whoever created the
    chunk; here the chunk carries it, and its owner takes it back from
    the chunk after each use. *)
Record _Chunk (F : Type) : Type := mk_Chunk {
  file : F;
  align : bool;
  chunkname : bytes;
  chunksize : Z;
  size_read : Z;
  offset : Z;
  seekable : bool
}.
Arguments mk_Chunk {F}.
Arguments file {F}.
Arguments align {F}.
Arguments chunkname {F}.
Arguments chunksize {F}.
Arguments size_read {F}.
Arguments offset {F}.
Arguments seekable {F}.

Definition chunk_with {F} (c : _Chunk F) (f : F) (sr : Z) : _Chunk F :=
  mk_Chunk f (align c) (chunkname c) (chunksize c) sr (offset c) (seekable c).

Section Chunk.
Context {F : Type} `{FileLike F}.

(** [_Chunk(file, bigendian=0)] *)
Definition Chunk_init (f : F) : result (_Chunk F) :=
  let '(name, f1) := fl_read 4 f in
  if (List.length name <? 4)%nat then inl EOFError
  else
    let '(raw, f2) := fl_read 4 f1 in
    match struct.unpack_from [struct.L] raw with
    | None => inl EOFError
    | Some fields =>
        inr (mk_Chunk f2 true name (nth 0 fields 0) 0 (fl_tell f2) true)
    end.

Definition chunk_read (size : Z) (c : _Chunk F) : bytes * _Chunk F :=
  if chunksize c <=? size_read c then ([], c)
  else
    let size := if size <? 0 then chunksize c - size_read c else size in
    let size :=
      if chunksize c - size_read c <? size then chunksize c - size_read c
      else size in
    let '(data, f1) := fl_read size (file c) in
    let sr := size_read c + Z.of_nat (List.length data) in
    if (sr =? chunksize c) && align c && Z.odd (chunksize c) then
      let '(dummy, f2) := fl_read 1 f1 in
      (data, chunk_with c f2 (sr + Z.of_nat (List.length dummy)))
    else (data, chunk_with c f1 sr).

Definition chunk_seek (pos whence : Z) (c : _Chunk F) : result (_Chunk F) :=
  if negb (seekable c) then inl (OSError "cannot seek")
  else
    let pos :=
      if whence =? 1 then pos + size_read c
      else if whence =? 2 then pos + chunksize c
      else pos in
    if (pos <? 0) || (chunksize c <? pos) then inl RuntimeError
    else
      rbind (fl_seek (offset c + pos) 0 (file c))
            (fun f' => inr (chunk_with c f' pos)).

Definition chunk_tell (c : _Chunk F) : Z := size_read c.

(** The loop of [skip] that reads the rest of the chunk when seeking is
    not possible.  Every round reads at least one byte or raises, so
    [chunksize - size_read] rounds are enough. *)
Fixpoint skip_by_reading (rounds : nat) (c : _Chunk F) : result (_Chunk F) :=
  match rounds with
  | O => inr c
  | S rounds' =>
      if size_read c <? chunksize c then
        let n := Z.min 8192 (chunksize c - size_read c) in
        let '(dummy, c') := chunk_read n c in
        match dummy with
        | [] => inl EOFError
        | _ => skip_by_reading rounds' c'
        end
      else inr c
  end.

Definition chunk_skip (c : _Chunk F) : result (_Chunk F) :=
  let by_reading :=
    skip_by_reading (Z.to_nat (chunksize c - size_read c)) c in
  if seekable c then
    let n := chunksize c - size_read c in
    let n := if align c && Z.odd (chunksize c) then n + 1 else n in
    match fl_seek n 1 (file c) with
    | inr f' => inr (chunk_with c f' (size_read c + n))
    | inl (OSError _) => by_reading
    | inl e => inl e
    end
  else by_reading.

End Chunk.

#[export] Instance Chunk_FileLike {F : Type} `{FileLike F} : FileLike (_Chunk F) :=
  {| fl_read := chunk_read; fl_seek := chunk_seek; fl_tell := chunk_tell |}.

Definition hex2 (x : byte) : string :=
  let n := Z.of_N (Byte.to_N x) in
  String (Py.hex_digit (n / 16)) (String (Py.hex_digit (n mod 16)) EmptyString).

Definition hex_of (bs : bytes) : string :=
  fold_right (fun x acc => (hex2 x ++ acc)%string) EmptyString bs.

(** [str(uuid.UUID(bytes_le=bs))] for 16 bytes [bs]. *)
Definition uuid_of_bytes_le (bs : bytes) : string :=
  (hex_of (rev (firstn 4 bs)) ++ "-"
   ++ hex_of (rev (firstn 2 (skipn 4 bs))) ++ "-"
   ++ hex_of (rev (firstn 2 (skipn 6 bs))) ++ "-"
   ++ hex_of (firstn 2 (skipn 8 bs)) ++ "-"
   ++ hex_of (skipn 10 bs))%string.

(** *** class Wave_read *)

Module Wave_read.

(** The attributes of a [Wave_read] object.  [_file] is the RIFF chunk;
    the data chunk reads through it, so after each use of the data chunk
    [_file] is taken from it again. *)
Record t : Type := mk {
  _file : _Chunk File;
  _fmt_chunk_read : bool;
  _data_chunk : option (_Chunk (_Chunk File));
  _nchannels : Z;
  _sampwidth : Z;
  _framerate : Z;
  _framesize : Z;
  _nframes : Z;
  _comptype : string;
  _compname : string;
  _soundpos : Z;
  _data_seek_needed : bool
}.

Definition set_file (v : _Chunk File) (s : t) : t :=
  mk v (_fmt_chunk_read s) (_data_chunk s) (_nchannels s) (_sampwidth s)
     (_framerate s) (_framesize s) (_nframes s) (_comptype s) (_compname s)
     (_soundpos s) (_data_seek_needed s).

Definition set_fmt_chunk_read (v : bool) (s : t) : t :=
  mk (_file s) v (_data_chunk s) (_nchannels s) (_sampwidth s)
     (_framerate s) (_framesize s) (_nframes s) (_comptype s) (_compname s)
     (_soundpos s) (_data_seek_needed s).

Definition set_data_chunk (v : _Chunk (_Chunk File)) (s : t) : t :=
  mk (file v) (_fmt_chunk_read s) (Some v) (_nchannels s) (_sampwidth s)
     (_framerate s) (_framesize s) (_nframes s) (_comptype s) (_compname s)
     (_soundpos s) (_data_seek_needed s).

Definition set_nframes (v : Z) (s : t) : t :=
  mk (_file s) (_fmt_chunk_read s) (_data_chunk s) (_nchannels s) (_sampwidth s)
     (_framerate s) (_framesize s) v (_comptype s) (_compname s)
     (_soundpos s) (_data_seek_needed s).

Definition set_soundpos (v : Z) (s : t) : t :=
  mk (_file s) (_fmt_chunk_read s) (_data_chunk s) (_nchannels s) (_sampwidth s)
     (_framerate s) (_framesize s) (_nframes s) (_comptype s) (_compname s)
     v (_data_seek_needed s).

Definition set_data_seek_needed (v : bool) (s : t) : t :=
  mk (_file s) (_fmt_chunk_read s) (_data_chunk s) (_nchannels s) (_sampwidth s)
     (_framerate s) (_framesize s) (_nframes s) (_comptype s) (_compname s)
     (_soundpos s) v.

(** The attributes [_read_fmt_chunk] assigns. *)
Definition set_fmt (nchannels sampwidth framerate : Z) (s : t) : t :=
  mk (_file s) (_fmt_chunk_read s) (_data_chunk s) nchannels sampwidth
     framerate (nchannels * sampwidth) (_nframes s) "NONE" "not compressed"
     (_soundpos s) (_data_seek_needed s).

(** [_read_fmt_chunk(chunk)]: returns the object and the chunk as the
    reads have left it.  An exception leaves [initfp], and the object
    under construction is dropped, so the attributes are assigned at the
    end. *)
Definition _read_fmt_chunk (chunk : _Chunk (_Chunk File)) (self : t)
  : result (t * _Chunk (_Chunk File)) :=
  let '(raw, chunk) := chunk_read 14 chunk in
  match struct.unpack_from [struct.H; struct.H; struct.L; struct.L; struct.H] raw with
  | None => inl EOFError
  | Some fields =>
      let wFormatTag := nth 0 fields 0 in
      let nchannels := nth 1 fields 0 in
      let framerate := nth 2 fields 0 in
      if negb (wFormatTag =? WAVE_FORMAT_PCM)
         && negb (wFormatTag =? WAVE_FORMAT_EXTENSIBLE)
      then inl (Error ("unknown format: " ++ Py.str_of_int wFormatTag))
      else
        let '(raw, chunk) := chunk_read 2 chunk in
        match struct.unpack_from [struct.H] raw with
        | None => inl EOFError
        | Some fields =>
            let sampwidth := nth 0 fields 0 in
            let extensible : result (_Chunk (_Chunk File)) :=
              if wFormatTag =? WAVE_FORMAT_EXTENSIBLE then
                let '(raw, chunk) := chunk_read 8 chunk in
                match struct.unpack_from [struct.H; struct.H; struct.L] raw with
                | None => inl EOFError
                | Some _ =>
                    let '(SubFormat, chunk) := chunk_read 16 chunk in
                    if (List.length SubFormat <? 16)%nat then inl EOFError
                    else if negb (bytes_eqb SubFormat KSDATAFORMAT_SUBTYPE_PCM)
                    then inl (Error ("unknown extended format: "
                                     ++ uuid_of_bytes_le SubFormat))
                    else inr chunk
                end
              else inr chunk in
            rbind extensible (fun chunk =>
              let sampwidth := (sampwidth + 7) / 8 in
              if sampwidth =? 0 then inl (Error "bad sample width")
              else if nchannels =? 0 then inl (Error "bad # of channels")
              else inr (set_fmt nchannels sampwidth framerate self, chunk))
        end
  end.

(** The end of [initfp], after the loop over the chunks. *)
Definition initfp_end (self : t) : result t :=
  match _data_chunk self with
  | Some _ =>
      if negb (_fmt_chunk_read self)
      then inl (Error "fmt chunk and/or data chunk missing")
      else inr self
  | None => inl (Error "fmt chunk and/or data chunk missing")
  end.

(** The loop [while 1] of [initfp].  Every round reads the 8 bytes of a
    chunk header from the file or leaves the loop, so one round per byte
    of the file is more than enough; [None] says that the rounds given
    did not suffice. *)
Fixpoint initfp_loop (rounds : nat) (self : t) : option (result t) :=
  match rounds with
  | O => None
  | S rounds' =>
      let self := set_data_seek_needed true self in
      match Chunk_init (_file self) with
      | inl EOFError => Some (initfp_end self)
      | inl e => Some (inl e)
      | inr chunk =>
          let chunkname := chunkname chunk in
          if bytes_eqb chunkname b_fmt then
            match _read_fmt_chunk chunk self with
            | inl e => Some (inl e)
            | inr (self, chunk) =>
                let self := set_fmt_chunk_read true self in
                match chunk_skip chunk with
                | inl e => Some (inl e)
                | inr chunk => initfp_loop rounds' (set_file (file chunk) self)
                end
            end
          else if bytes_eqb chunkname b_data then
            if negb (_fmt_chunk_read self)
            then Some (inl (Error "data chunk before fmt chunk"))
            else
              let self := set_data_chunk chunk self in
              let self := set_nframes (chunksize chunk / _framesize self) self in
              let self := set_data_seek_needed false self in
              Some (initfp_end self)
          else
            match chunk_skip chunk with
            | inl e => Some (inl e)
            | inr chunk => initfp_loop rounds' (set_file (file chunk) self)
            end
      end
  end.

(** [initfp(file)] *)
Definition initfp (f : File) : result t :=
  rbind (Chunk_init f) (fun riff =>
    if negb (bytes_eqb (chunkname riff) b_RIFF)
    then inl (Error "file does not start with RIFF id")
    else
      let '(form, riff) := chunk_read 4 riff in
      if negb (bytes_eqb form b_WAVE) then inl (Error "not a WAVE file")
      else
        let self :=
          mk riff false None 0 0 0 0 0 EmptyString EmptyString 0 true in
        match initfp_loop (S (List.length (f_data f))) self with
        | Some r => r
        | None => inl RuntimeError
        end).

Definition getparams (self : t) : Z * Z * Z * Z * string * string :=
  (_nchannels self, _sampwidth self, _framerate self, _nframes self,
   _comptype self, _compname self).

(** [readframes(nframes)] *)
Definition readframes (nframes : Z) : M t bytes :=
  fun self =>
    match _data_chunk self with
    | None =>
        (inl (AttributeError "'NoneType' object has no attribute 'read'"), self)
    | Some chunk =>
        let positioned : result (_Chunk (_Chunk File)) :=
          if _data_seek_needed self then
            rbind (chunk_seek 0 0 chunk) (fun chunk =>
              let pos := _soundpos self * _framesize self in
              if pos =? 0 then inr chunk else chunk_seek pos 0 chunk)
          else inr chunk in
        match positioned with
        | inl e => (inl e, self)
        | inr chunk =>
            let self := set_data_seek_needed false (set_data_chunk chunk self) in
            if nframes =? 0 then (inr [], self)
            else
              let '(data, chunk) := chunk_read (nframes * _framesize self) chunk in
              let self := set_data_chunk chunk self in
              let self :=
                set_soundpos
                  (_soundpos self
                   + Z.of_nat (List.length data)
                     / (_nchannels self * _sampwidth self)) self in
              (inr data, self)
        end
    end.

End Wave_read.

(** *** class Wave_write *)

Module Wave_write.

(** The attributes of a [Wave_write] object; [_file] is the file object
    opened for writing. *)
Record t : Type := mk {
  _file : File;
  _nchannels : Z;
  _sampwidth : Z;
  _framerate : Z;
  _nframes : Z;
  _nframeswritten : Z;
  _datawritten : Z;
  _datalength : Z;
  _headerwritten : bool;
  _form_length_pos : Z;
  _data_length_pos : Z;
  _comptype : string;
  _compname : string
}.

Definition set_file (v : File) (s : t) : t :=
  mk v (_nchannels s) (_sampwidth s) (_framerate s) (_nframes s)
     (_nframeswritten s) (_datawritten s) (_datalength s) (_headerwritten s)
     (_form_length_pos s) (_data_length_pos s) (_comptype s) (_compname s).

Definition set_nchannels (v : Z) (s : t) : t :=
  mk (_file s) v (_sampwidth s) (_framerate s) (_nframes s) (_nframeswritten
     s) (_datawritten s) (_datalength s) (_headerwritten s) (_form_length_pos
     s) (_data_length_pos s) (_comptype s) (_compname s).

Definition set_sampwidth (v : Z) (s : t) : t :=
  mk (_file s) (_nchannels s) v (_framerate s) (_nframes s) (_nframeswritten
     s) (_datawritten s) (_datalength s) (_headerwritten s) (_form_length_pos
     s) (_data_length_pos s) (_comptype s) (_compname s).

Definition set_framerate (v : Z) (s : t) : t :=
  mk (_file s) (_nchannels s) (_sampwidth s) v (_nframes s) (_nframeswritten
     s) (_datawritten s) (_datalength s) (_headerwritten s) (_form_length_pos
     s) (_data_length_pos s) (_comptype s) (_compname s).

Definition set_nframes (v : Z) (s : t) : t :=
  mk (_file s) (_nchannels s) (_sampwidth s) (_framerate s) v
     (_nframeswritten s) (_datawritten s) (_datalength s) (_headerwritten s)
     (_form_length_pos s) (_data_length_pos s) (_comptype s) (_compname s).

Definition set_nframeswritten (v : Z) (s : t) : t :=
  mk (_file s) (_nchannels s) (_sampwidth s) (_framerate s) (_nframes s) v
     (_datawritten s) (_datalength s) (_headerwritten s) (_form_length_pos s)
     (_data_length_pos s) (_comptype s) (_compname s).

Definition set_datawritten (v : Z) (s : t) : t :=
  mk (_file s) (_nchannels s) (_sampwidth s) (_framerate s) (_nframes s)
     (_nframeswritten s) v (_datalength s) (_headerwritten s) (_form_length_pos
     s) (_data_length_pos s) (_comptype s) (_compname s).

Definition set_datalength (v : Z) (s : t) : t :=
  mk (_file s) (_nchannels s) (_sampwidth s) (_framerate s) (_nframes s)
     (_nframeswritten s) (_datawritten s) v (_headerwritten s)
     (_form_length_pos s) (_data_length_pos s) (_comptype s) (_compname s).

Definition set_headerwritten (v : bool) (s : t) : t :=
  mk (_file s) (_nchannels s) (_sampwidth s) (_framerate s) (_nframes s)
     (_nframeswritten s) (_datawritten s) (_datalength s) v (_form_length_pos
     s) (_data_length_pos s) (_comptype s) (_compname s).

Definition set_form_length_pos (v : Z) (s : t) : t :=
  mk (_file s) (_nchannels s) (_sampwidth s) (_framerate s) (_nframes s)
     (_nframeswritten s) (_datawritten s) (_datalength s) (_headerwritten s) v
     (_data_length_pos s) (_comptype s) (_compname s).

Definition set_data_length_pos (v : Z) (s : t) : t :=
  mk (_file s) (_nchannels s) (_sampwidth s) (_framerate s) (_nframes s)
     (_nframeswritten s) (_datawritten s) (_datalength s) (_headerwritten s)
     (_form_length_pos s) v (_comptype s) (_compname s).

Definition set_comptype (v : string) (s : t) : t :=
  mk (_file s) (_nchannels s) (_sampwidth s) (_framerate s) (_nframes s)
     (_nframeswritten s) (_datawritten s) (_datalength s) (_headerwritten s)
     (_form_length_pos s) (_data_length_pos s) v (_compname s).

Definition set_compname (v : string) (s : t) : t :=
  mk (_file s) (_nchannels s) (_sampwidth s) (_framerate s) (_nframes s)
     (_nframeswritten s) (_datawritten s) (_datalength s) (_headerwritten s)
     (_form_length_pos s) (_data_length_pos s) (_comptype s) v.

Local Open Scope py_scope.

(** [initfp(file)] *)
Definition initfp (f : File) : t :=
  mk f 0 0 0 0 0 0 0 false 0 0 EmptyString EmptyString.

Definition check_not_written : M t unit :=
  self <- get ;;
  if negb (_datawritten self =? 0)
  then raise (Error "cannot change parameters after starting to write")
  else ret tt.

Definition setnchannels (nchannels : Z) : M t unit :=
  check_not_written ;;
  if nchannels <? 1 then raise (Error "bad # of channels")
  else modify (set_nchannels nchannels).

Definition setsampwidth (sampwidth : Z) : M t unit :=
  check_not_written ;;
  if (sampwidth <? 1) || (4 <? sampwidth) then raise (Error "bad sample width")
  else modify (set_sampwidth sampwidth).

Definition setframerate (framerate : Z) : M t unit :=
  check_not_written ;;
  if framerate <=? 0 then raise (Error "bad frame rate")
  else modify (set_framerate framerate).

Definition setnframes (nframes : Z) : M t unit :=
  check_not_written ;;
  modify (set_nframes nframes).

Definition setcomptype (comptype compname : string) : M t unit :=
  check_not_written ;;
  if negb (String.eqb comptype "NONE")
  then raise (Error "unsupported compression type")
  else modify (fun s => set_compname compname (set_comptype comptype s)).

(** [setparams((nchannels, sampwidth, framerate, nframes, comptype, compname))] *)
Definition setparams (params : Z * Z * Z * Z * string * string) : M t unit :=
  let '(nchannels, sampwidth, framerate, nframes, comptype, compname) := params in
  check_not_written ;;
  setnchannels nchannels ;;
  setsampwidth sampwidth ;;
  setframerate framerate ;;
  setnframes nframes ;;
  setcomptype comptype compname.

Definition write (bs : bytes) : M t unit :=
  modify (fun s => set_file (file_write bs (_file s)) s).

Definition _write_header (initlength : Z) : M t unit :=
  write b_RIFF ;;
  self <- get ;;
  (if _nframes self =? 0
   then modify (set_nframes (initlength / (_nchannels self * _sampwidth self)))
   else ret tt) ;;
  modify (fun s => set_datalength (_nframes s * _nchannels s * _sampwidth s) s) ;;
  modify (fun s => set_form_length_pos (file_tell (_file s)) s) ;;
  self <- get ;;
  header <- lift (struct.pack
    [struct.Int struct.L (36 + _datalength self);
     struct.S4 b_WAVE; struct.S4 b_fmt;
     struct.Int struct.L 16;
     struct.Int struct.H WAVE_FORMAT_PCM;
     struct.Int struct.H (_nchannels self);
     struct.Int struct.L (_framerate self);
     struct.Int struct.L (_nchannels self * _framerate self * _sampwidth self);
     struct.Int struct.H (_nchannels self * _sampwidth self);
     struct.Int struct.H (_sampwidth self * 8);
     struct.S4 b_data]) ;;
  write header ;;
  modify (fun s => set_data_length_pos (file_tell (_file s)) s) ;;
  length_field <- lift (struct.pack [struct.Int struct.L (_datalength self)]) ;;
  write length_field ;;
  modify (set_headerwritten true).

Definition _ensure_header_written (datasize : Z) : M t unit :=
  self <- get ;;
  if negb (_headerwritten self) then
    if _nchannels self =? 0 then raise (Error "# channels not specified")
    else if _sampwidth self =? 0 then raise (Error "sample width not specified")
    else if _framerate self =? 0 then raise (Error "sampling rate not specified")
    else _write_header datasize
  else ret tt.

Definition seek (pos : Z) : M t unit :=
  self <- get ;;
  f <- lift (file_seek pos 0 (_file self)) ;;
  modify (set_file f).

Definition _patchheader : M t unit :=
  self <- get ;;
  if _datawritten self =? _datalength self then ret tt
  else
    let curpos := file_tell (_file self) in
    seek (_form_length_pos self) ;;
    field <- lift (struct.pack [struct.Int struct.L (36 + _datawritten self)]) ;;
    write field ;;
    seek (_data_length_pos self) ;;
    field <- lift (struct.pack [struct.Int struct.L (_datawritten self)]) ;;
    write field ;;
    seek curpos ;;
    modify (fun s => set_datalength (_datawritten s) s).

Definition writeframesraw (data : bytes) : M t unit :=
  _ensure_header_written (Z.of_nat (List.length data)) ;;
  self <- get ;;
  let nframes := Z.of_nat (List.length data) / (_sampwidth self * _nchannels self) in
  write data ;;
  modify (fun s => set_datawritten (_datawritten s + Z.of_nat (List.length data)) s) ;;
  modify (fun s => set_nframeswritten (_nframeswritten s + nframes) s).

Definition writeframes (data : bytes) : M t unit :=
  writeframesraw data ;;
  self <- get ;;
  if negb (_datalength self =? _datawritten self) then _patchheader
  else ret tt.

(** The [try] part of [close()].  The [finally] part closes the file
    whatever happens; its effect, the content reaching the file system,
    is with the caller that holds the file system. *)
Definition close : M t unit :=
  _ensure_header_written 0 ;;
  self <- get ;;
  if negb (_datalength self =? _datawritten self) then _patchheader
  else ret tt.

End Wave_write.

Local Open Scope py_scope.

(** [wave.open(f, 'rb')]: [Wave_read(f)] opens the file named [f] for
    reading and runs [initfp] on it.  A name under which the file system
    holds no file raises [FileNotFoundError]; the model has regular
    files only, so the other errors of [open] (a directory, a name that
    is too long, a permission) do not occur in it. *)
Definition open_rb (f : string) : M World Wave_read.t :=
  w <- get ;;
  match fs w f with
  | None => raise (FileNotFoundError f)
  | Some data => lift (Wave_read.initfp {| f_data := data; f_pos := 0 |})
  end.

(** [wave.open(f, 'wb')]: [Wave_write(f)] opens the file named [f] for
    writing, which creates it or empties it.  The file system of the
    model accepts every name; a name the operating system refuses (one
    that is too long, or in a directory that does not exist) makes the
    real [open] raise [OSError] and is outside the model. *)
Definition open_wb (f : string) : M World Wave_write.t :=
  store f [] ;;
  ret (Wave_write.initfp {| f_data := []; f_pos := 0 |}).

(** [with out_wav: body], for the [Wave_write] object [out_wav] that
    writes the file named [f].  [__exit__] calls [close()] whether the
    body raised or not; the file is closed in its [finally] part, and its
    content is then in the file system.  An exception of [close()] takes
    the place of the one of the body. *)
Definition with_Wave_write {A} (f : string) (out_wav : Wave_write.t)
    (body : M Wave_write.t A) : M World A :=
  let '(r, out_wav) := body out_wav in
  let '(closed, out_wav) := Wave_write.close out_wav in
  store f (f_data (Wave_write._file out_wav)) ;;
  match closed with
  | inl e => raise e
  | inr _ => lift r
  end.

End wave.

(** ** The script *)

Definition get_path_name (path_name_wav : string) : option string * string :=
  let end_of_path :=
    Z.max (Py.rfind path_name_wav "/"%char) (Py.rfind path_name_wav "\"%char) in
  let name := Py.slice path_name_wav (Some (end_of_path + 1)) (Some (-4)) in
  let path :=
    if end_of_path >? -1
    then Some (Py.slice path_name_wav None (Some (end_of_path + 1)))
    else None in
  (path, name).

Local Open Scope py_scope.

(** The name given to the output file, between [path] and ['.wav']. *)
Definition output_name (input_wav_name : string) (old_sample_rate new_sample_rate : Z)
  : string :=
  (input_wav_name ++ "--sample_rate_changed__" ++ Py.str_of_int old_sample_rate
   ++ "_to_" ++ Py.str_of_int new_sample_rate)%string.

(** The body of the [try] statement of [change_sample_rate]. *)
Definition change_sample_rate_try (input_wav : string) (new_sample_rate : Z)
  : M World unit :=
  in_wav <- wave.open_rb input_wav ;;
  let params := wave.Wave_read.getparams in_wav in
  let '(num_channels, sample_width, old_sample_rate, num_frames, params4, params5) :=
    params in
  let '(path, input_wav_name) := get_path_name input_wav in
  let output_wav_name := output_name input_wav_name old_sample_rate new_sample_rate in
  path_and_name <- lift (Py.add_str path output_wav_name) ;;
  let output_wav := (path_and_name ++ ".wav")%string in
  out_wav <- wave.open_wb output_wav ;;
  wave.with_Wave_write output_wav out_wav
    (wave.Wave_write.setparams
       (num_channels, sample_width, new_sample_rate, num_frames, params4, params5) ;;
     frames <- lift (fst (wave.Wave_read.readframes num_frames in_wav)) ;;
     wave.Wave_write.writeframes frames) ;;
  print ("Sample rate changed from " ++ Py.str_of_int old_sample_rate ++ " Hz to "
         ++ Py.str_of_int new_sample_rate ++ " Hz and saved as " ++ output_wav).

(** [change_sample_rate(input_wav, new_sample_rate)]: every exception of
    the body is caught and printed, and the function returns. *)
Definition change_sample_rate (input_wav : string) (new_sample_rate : Z)
  : World -> World :=
  fun w =>
    match change_sample_rate_try input_wav new_sample_rate w with
    | (inl e, w') => snd (print ("Error: " ++ Py.str_of_exn e) w')
    | (inr _, w') => w'
    end.

(** [main()], for the command line [argv]; the result is the exit status
    of the process ([sys.exit(1)] gives 1, returning from [main] gives 0)
    and the world it leaves. *)
Definition main (argv : list string) (w : World) : Z * World :=
  if negb (Z.of_nat (List.length argv) =? 3) then
    (1, snd (print "Usage: python change_tempo_and_pitch_via_sample_rate <input_wav> <new_sample_rate>" w))
  else
    let input_wav := nth 1 argv EmptyString in
    match Py.int (nth 2 argv EmptyString) with
    | None => (1, snd (print "Error: The sample rate must be an integer." w))
    | Some new_sample_rate => (0, change_sample_rate input_wav new_sample_rate w)
    end.

(** ** Vocabulary of the statements *)

(** A path separator, as [get_path_name] looks for it. *)
Definition is_sep (c : ascii) : bool :=
  Ascii.eqb c "/"%char || Ascii.eqb c "\"%char.

(** [e] is the index of the last separator of [p], or [-1] when [p] has
    none. *)
Definition last_sep_at (p : string) (e : Z) : Prop :=
  -1 <= e
  /\ (0 <= e -> exists c, String.get (Z.to_nat e) p = Some c /\ is_sep c = true)
  /\ (forall i c, e < Z.of_nat i -> String.get i p = Some c -> is_sep c = false).

(** [p] holds a separator. *)
Definition has_sep (p : string) : Prop :=
  exists i c, String.get i p = Some c /\ is_sep c = true.

(** The file object [builtins.open] returns for a file of content
    [data]. *)
Definition opened (data : bytes) : File := {| f_data := data; f_pos := 0 |}.

(** The header [Wave_write] gives a file of [datalength] bytes of frames:
    the 44 bytes in front of the frames. *)
Definition wav_header (nchannels sampwidth framerate datalength : Z) : bytes :=
  b_RIFF ++ struct.le_bytes 4 (36 + datalength) ++ b_WAVE ++ b_fmt
  ++ struct.le_bytes 4 16 ++ struct.le_bytes 2 wave.WAVE_FORMAT_PCM
  ++ struct.le_bytes 2 nchannels ++ struct.le_bytes 4 framerate
  ++ struct.le_bytes 4 (nchannels * framerate * sampwidth)
  ++ struct.le_bytes 2 (nchannels * sampwidth)
  ++ struct.le_bytes 2 (sampwidth * 8) ++ b_data
  ++ struct.le_bytes 4 datalength.

(** The data length [_write_header] puts in the header before the frames
    are written, for [nf] frames announced and [len] bytes handed to the
    first [writeframes]. *)
Definition initial_datalength (nch sw nf len : Z) : Z :=
  (if nf =? 0 then len / (nch * sw) else nf) * nch * sw.

(** The [Wave_read] object [initfp] builds from a file [bs] that starts
    with [wav_header nch sw rate len]. *)
Definition written_riff (bs : bytes) (len : Z) : wave._Chunk File :=
  wave.mk_Chunk {| f_data := bs; f_pos := 44 |} true b_RIFF (36 + len) 36 8 true.

Definition written_reader (bs : bytes) (nch sw rate len : Z) : wave.Wave_read.t :=
  wave.Wave_read.mk (written_riff bs len) true
    (Some (wave.mk_Chunk (written_riff bs len) true b_data len 0 36 true))
    nch sw rate (nch * sw) (len / (nch * sw)) "NONE" "not compressed" 0 false.

(** What [_read_fmt_chunk] guarantees of the attributes it assigns. *)
Definition fmt_ok (r : wave.Wave_read.t) : Prop :=
  1 <= wave.Wave_read._nchannels r < 65536
  /\ 1 <= wave.Wave_read._sampwidth r <= 8192
  /\ 0 <= wave.Wave_read._framerate r < 4294967296
  /\ wave.Wave_read._framesize r
     = wave.Wave_read._nchannels r * wave.Wave_read._sampwidth r
  /\ wave.Wave_read._comptype r = "NONE"
  /\ wave.Wave_read._compname r = "not compressed".

(** The state of a [Wave_read] object inside the loop of [initfp]. *)
Definition loop_inv (self : wave.Wave_read.t) : Prop :=
  wave.Wave_read._data_chunk self = None
  /\ wave.Wave_read._soundpos self = 0
  /\ (wave.Wave_read._fmt_chunk_read self = true -> fmt_ok self).

(** The state of a [Wave_read] object that [initfp] has built. *)
Definition reader_ok (r : wave.Wave_read.t) : Prop :=
  fmt_ok r
  /\ wave.Wave_read._soundpos r = 0
  /\ wave.Wave_read._data_seek_needed r = false
  /\ exists c,
       wave.Wave_read._data_chunk r = Some c
       /\ wave.size_read c = 0
       /\ 0 <= wave.chunksize c < 4294967296
       /\ wave.Wave_read._nframes r = wave.chunksize c / wave.Wave_read._framesize r.

(** The RIFF chunk of a [Wave_read] object and the file under it agree
    on the position. *)
Definition riff_inv (c : wave._Chunk File) : Prop :=
  wave.seekable c = true
  /\ 0 <= wave.offset c
  /\ 0 <= wave.size_read c
  /\ f_pos (wave.file c) = wave.offset c + wave.size_read c.

(** The RIFF chunk [c'] is [c] after some reads or a seek forward. *)
Definition riff_le (c c' : wave._Chunk File) : Prop :=
  f_data (wave.file c') = f_data (wave.file c)
  /\ wave.offset c' = wave.offset c
  /\ wave.chunksize c' = wave.chunksize c
  /\ wave.size_read c <= wave.size_read c'.

(** A chunk inside the RIFF chunk: it has read at most its size, and one
    byte more when the size is odd. *)
Definition sub_inv (ch : wave._Chunk (wave._Chunk File)) : Prop :=
  riff_inv (wave.file ch)
  /\ wave.seekable ch = true
  /\ wave.align ch = true
  /\ 0 <= wave.size_read ch
  /\ wave.size_read ch
     <= wave.chunksize ch + (if Z.odd (wave.chunksize ch) then 1 else 0).

(** The bytes of the file that lie after the position of the RIFF
    chunk. *)
Definition remaining (c : wave._Chunk File) : Z :=
  Z.of_nat (List.length (f_data (wave.file c))) - f_pos (wave.file c).

(** The position of a [Wave_read] object inside the loop of [initfp]:
    the 4 bytes of the form type are read, and the 8 + 16 bytes of a
    format chunk once one has been read. *)
Definition loop_pos (self : wave.Wave_read.t) : Prop :=
  riff_inv (wave.Wave_read._file self)
  /\ 4 <= wave.size_read (wave.Wave_read._file self)
  /\ wave.chunksize (wave.Wave_read._file self) < 4294967296
  /\ (wave.Wave_read._fmt_chunk_read self = true ->
      28 <= wave.size_read (wave.Wave_read._file self)).

(** The position of the data chunk of a [Wave_read] object [initfp] has
    built: at least 36 bytes into the RIFF chunk. *)
Definition reader_pos (r : wave.Wave_read.t) : Prop :=
  exists c,
    wave.Wave_read._data_chunk r = Some c
    /\ sub_inv c
    /\ wave.size_read c = 0
    /\ 36 <= wave.size_read (wave.file c)
    /\ wave.chunksize (wave.file c) < 4294967296.

(** The frames [change_sample_rate] reads from an opened WAV file:
    [in_wav.readframes(in_wav.getnframes())]. *)
Definition frames_of (r : wave.Wave_read.t) : result bytes :=
  fst (wave.Wave_read.readframes (wave.Wave_read._nframes r) r).

(** The parameters and the frames [wave] reads from a file of content
    [bs]. *)
Definition read_params (bs : bytes) : result (Z * Z * Z * Z * string * string) :=
  rbind (wave.Wave_read.initfp (opened bs))
        (fun r => inr (wave.Wave_read.getparams r)).

Definition read_frames (bs : bytes) : result bytes :=
  rbind (wave.Wave_read.initfp (opened bs)) frames_of.

(** The name [change_sample_rate] gives the output file. *)
Definition output_path (input_wav : string) (old_sample_rate new_sample_rate : Z)
  : result string :=
  let '(path, input_wav_name) := get_path_name input_wav in
  rbind (Py.add_str path (output_name input_wav_name old_sample_rate new_sample_rate))
        (fun s => inr (s ++ ".wav")%string).

(** The line printed after a successful run. *)
Definition success_line (old_sample_rate new_sample_rate : Z) (output_wav : string)
  : string :=
  ("Sample rate changed from " ++ Py.str_of_int old_sample_rate ++ " Hz to "
   ++ Py.str_of_int new_sample_rate ++ " Hz and saved as " ++ output_wav)%string.

(** The fields of the tuple [getparams()] returns. *)
Definition params_nchannels (p : Z * Z * Z * Z * string * string) : Z :=
  let '(nchannels, _, _, _, _, _) := p in nchannels.
Definition params_sampwidth (p : Z * Z * Z * Z * string * string) : Z :=
  let '(_, sampwidth, _, _, _, _) := p in sampwidth.
Definition params_framerate (p : Z * Z * Z * Z * string * string) : Z :=
  let '(_, _, framerate, _, _, _) := p in framerate.
Definition params_nframes (p : Z * Z * Z * Z * string * string) : Z :=
  let '(_, _, _, nframes, _, _) := p in nframes.

(** A valid WAV input for [change_sample_rate]: [wave] reads the file
    [bs] as the object [r] with the frames [data]; the frames are as many
    bytes as the header announces (the invariant of the data model:
    frame count x channels x sample width); and the parameters are some
    [Wave_write] writes again: samples of at most 4 bytes and a block
    align that fits its 16-bit field. *)
Record valid_wav (bs : bytes) (r : wave.Wave_read.t) (data : bytes) : Prop := {
  valid_reads : wave.Wave_read.initfp (opened bs) = inr r;
  valid_frames : frames_of r = inr data;
  valid_complete :
    Z.of_nat (List.length data)
    = wave.Wave_read._nframes r * wave.Wave_read._framesize r;
  valid_width : wave.Wave_read._sampwidth r <= 4;
  valid_align :
    wave.Wave_read._nchannels r * wave.Wave_read._sampwidth r < 65536
}.

(** A mono, 16-bit file of 4 frames at 48000 Hz. *)
Definition sample_frames : bytes := [x01; x02; x03; x04; x05; x06; x07; x08]%byte.
Definition sample_wav : bytes := wav_header 1 2 48000 8 ++ sample_frames.

(** A stereo, 16-bit file of 2 frames at 44100 Hz. *)
Definition stereo_wav : bytes := wav_header 2 2 44100 8 ++ sample_frames.

(** The file of the scenario of the specification: mono, 16-bit,
    48000 Hz, 1000 frames. *)
Definition scenario_frames : bytes := repeat x2a%byte 2000.
Definition scenario_wav : bytes := wav_header 1 2 48000 2000 ++ scenario_frames.

(** [sample_wav] without its last 5 bytes: the data chunk announces 8
    bytes and 3 are there. *)
Definition truncated_wav : bytes := firstn 47 sample_wav.

(** A file that is not a RIFF file. *)
Definition junk_file : bytes := Eval cbv in list_byte_of_string "JUNKJUNKJUNK".

(** A world with one file and nothing printed. *)
Definition one_file (path : string) (content : bytes) : World :=
  {| fs := fun q => if String.eqb q path then Some content else None;
     stdout := [] |}.

(** ** Vocabulary of the further properties *)

(** The statements of the [with] block of [change_sample_rate] that
    writes the output, for the opened input [in_wav]. *)
Definition copy_frames (in_wav : wave.Wave_read.t) (new_sample_rate : Z)
  : M wave.Wave_write.t unit :=
  (wave.Wave_write.setparams
     (wave.Wave_read._nchannels in_wav, wave.Wave_read._sampwidth in_wav,
      new_sample_rate, wave.Wave_read._nframes in_wav,
      wave.Wave_read._comptype in_wav, wave.Wave_read._compname in_wav) ;;
   frames <- lift (fst (wave.Wave_read.readframes
                          (wave.Wave_read._nframes in_wav) in_wav)) ;;
   wave.Wave_write.writeframes frames)%py.

(** What the [with] block on the output file leaves: the outcome of the
    block with its [close()], and the content of the output file. *)
Definition written (in_wav : wave.Wave_read.t) (new_sample_rate : Z)
  : result unit * bytes :=
  let '(r, out_wav) :=
    copy_frames in_wav new_sample_rate (wave.Wave_write.initfp (opened [])) in
  let '(closed, out_wav) := wave.Wave_write.close out_wav in
  (match closed with inl e => inl e | inr _ => r end,
   f_data (wave.Wave_write._file out_wav)).

(** The fields of the header [Wave_write] packs fit their 16 and 32
    bits, for a file of [nf] frames. *)
Definition header_fits (nch sw rate nf : Z) : Prop :=
  nch * sw < 65536
  /\ nch * rate * sw < 4294967296
  /\ 36 + nf * (nch * sw) < 4294967296.

(** The file system [w] with the content [data] in the file [path]. *)
Definition with_file (path : string) (data : bytes) (w : World) : World :=
  snd (store path data (snd (store path [] w))).

(** A mono 16-bit file with a [LIST] chunk between the format chunk and
    the data chunk. *)
Definition list_chunk_wav : bytes :=
  b_RIFF ++ struct.le_bytes 4 56 ++ skipn 8 (firstn 36 (wav_header 1 2 48000 8))
  ++ [x4c; x49; x53; x54]%byte ++ struct.le_bytes 4 4 ++ [x61; x62; x63; x64]%byte
  ++ b_data ++ struct.le_bytes 4 8 ++ sample_frames.

(** A mono file with samples of 8 bytes (64 bits), one frame. *)
Definition wide_wav : bytes := wav_header 1 8 48000 8 ++ sample_frames.

(** The line a run prints at its end: the success line, or the line of
    the [except] clause for the exception [e]. *)
Definition run_line (res : result unit) (old_sample_rate new_sample_rate : Z)
    (output_wav : string) : string :=
  match res with
  | inl e => ("Error: " ++ Py.str_of_exn e)%string
  | inr _ => success_line old_sample_rate new_sample_rate output_wav
  end.

(** The value of the decimal digits [d] read after the value [acc], as
    [int()] accumulates it. *)
Fixpoint uint_value (d : Decimal.uint) (acc : Z) : Z :=
  match d with
  | Decimal.Nil => acc
  | Decimal.D0 l => uint_value l (10 * acc + 0)
  | Decimal.D1 l => uint_value l (10 * acc + 1)
  | Decimal.D2 l => uint_value l (10 * acc + 2)
  | Decimal.D3 l => uint_value l (10 * acc + 3)
  | Decimal.D4 l => uint_value l (10 * acc + 4)
  | Decimal.D5 l => uint_value l (10 * acc + 5)
  | Decimal.D6 l => uint_value l (10 * acc + 6)
  | Decimal.D7 l => uint_value l (10 * acc + 7)
  | Decimal.D8 l => uint_value l (10 * acc + 8)
  | Decimal.D9 l => uint_value l (10 * acc + 9)
  end.

(** * Facts *)

(** ** Strings: [rfind] and slices *)

Lemma rfind_range s c : -1 <= Py.rfind s c < Py.len s.
Proof.
  unfold Py.len. induction s as [|a s IH]; simpl Py.rfind.
  - simpl. lia.
  - change (String.length (String a s)) with (S (String.length s)).
    destruct (Z.leb_spec 0 (Py.rfind s c)); [lia|].
    destruct (Ascii.eqb a c); lia.
Qed.

Lemma rfind_get s c :
  0 <= Py.rfind s c -> String.get (Z.to_nat (Py.rfind s c)) s = Some c.
Proof.
  induction s as [|a s IH]; simpl Py.rfind; [lia|].
  destruct (Z.leb_spec 0 (Py.rfind s c)) as [Hr|Hr]; intros H.
  - replace (Z.to_nat (Py.rfind s c + 1)) with (S (Z.to_nat (Py.rfind s c))) by lia.
    simpl. auto.
  - destruct (Ascii.eqb_spec a c) as [->|]; [reflexivity|lia].
Qed.

Lemma rfind_after s c i :
  Py.rfind s c < Z.of_nat i -> String.get i s <> Some c.
Proof.
  revert i. induction s as [|a s IH]; intros i; simpl Py.rfind.
  - destruct i; simpl; discriminate.
  - destruct (Z.leb_spec 0 (Py.rfind s c)) as [Hr|Hr]; intros H.
    + destruct i as [|i]; [lia|]. simpl. apply IH. lia.
    + destruct i as [|i]; simpl.
      * destruct (Ascii.eqb_spec a c); [lia|congruence].
      * apply IH. pose proof (rfind_range s c). lia.
Qed.

Lemma is_sep_cases c :
  is_sep c = true <-> c = "/"%char \/ c = "\"%char.
Proof.
  unfold is_sep. rewrite orb_true_iff, !Ascii.eqb_eq. tauto.
Qed.

(** The index [get_path_name] computes is the index of the last
    separator. *)
Lemma end_of_path_last_sep p :
  last_sep_at p (Z.max (Py.rfind p "/"%char) (Py.rfind p "\"%char)).
Proof.
  pose proof (rfind_range p "/"%char) as R1.
  pose proof (rfind_range p "\"%char) as R2.
  repeat split.
  - lia.
  - intros H.
    destruct (Z.max_spec (Py.rfind p "/"%char) (Py.rfind p "\"%char))
      as [[_ E]|[_ E]]; rewrite E in *.
    + exists "\"%char. split; [apply rfind_get; lia|reflexivity].
    + exists "/"%char. split; [apply rfind_get; lia|reflexivity].
  - intros i c H G.
    destruct (is_sep c) eqn:E; [|reflexivity].
    apply is_sep_cases in E. destruct E as [->| ->].
    + exfalso. apply (rfind_after p "/"%char i); [lia|assumption].
    + exfalso. apply (rfind_after p "\"%char i); [lia|assumption].
Qed.

Lemma last_sep_at_unique p e1 e2 :
  last_sep_at p e1 -> last_sep_at p e2 -> e1 = e2.
Proof.
  intros (L1 & G1 & A1) (L2 & G2 & A2).
  destruct (Z.lt_trichotomy e1 e2) as [H|[H|H]]; [|assumption|].
  - destruct G2 as (c & Hc & Hs); [lia|].
    rewrite (A1 (Z.to_nat e2) c) in Hs; [discriminate|lia|assumption].
  - destruct G1 as (c & Hc & Hs); [lia|].
    rewrite (A2 (Z.to_nat e1) c) in Hs; [discriminate|lia|assumption].
Qed.

Lemma get_lt_length s i c : String.get i s = Some c -> (i < String.length s)%nat.
Proof.
  revert i. induction s as [|a s IH]; intros [|i]; simpl; try discriminate.
  - lia.
  - intros H. apply IH in H. lia.
Qed.

Lemma last_sep_at_lt_len p e : last_sep_at p e -> e < Py.len p.
Proof.
  intros (L & G & _). unfold Py.len.
  destruct (Z.leb_spec 0 e) as [H|H]; [|lia].
  destruct (G H) as (c & Hc & _). apply get_lt_length in Hc. lia.
Qed.

Ltac case_ltb :=
  repeat match goal with
         | |- context [Z.ltb ?a ?b] => destruct (Z.ltb_spec a b)
         | |- context [Z.leb ?a ?b] => destruct (Z.leb_spec a b)
         | |- context [Z.eqb ?a ?b] => destruct (Z.eqb_spec a b)
         end.

Lemma adjust_index_inside n i : 0 <= i <= n -> Py.adjust_index n i = i.
Proof.
  intros H. unfold Py.adjust_index. cbv zeta.
  destruct (Z.ltb_spec i 0); [lia|]. case_ltb; lia.
Qed.

Lemma adjust_index_minus_4 n : 0 <= n -> Py.adjust_index n (-4) = Z.max 0 (n - 4).
Proof.
  intros H. unfold Py.adjust_index. cbv zeta.
  change (-4 <? 0) with true. cbv iota. case_ltb; lia.
Qed.

Lemma substring_0_all s : substring 0 (String.length s) s = s.
Proof. induction s; simpl; congruence. Qed.

Lemma substring_split s n m :
  (substring 0 n s ++ substring n m s)%string = substring 0 (n + m) s.
Proof.
  revert n m. induction s as [|a s IH]; intros n m.
  - destruct n, m; reflexivity.
  - destruct n as [|n]; simpl.
    + destruct m; reflexivity.
    + rewrite IH. reflexivity.
Qed.

Lemma substring_0_append a b :
  substring 0 (String.length a) (a ++ b)%string = a.
Proof.
  induction a as [|c a IH]; simpl.
  - destruct b; reflexivity.
  - congruence.
Qed.

Lemma length_append a b :
  String.length (a ++ b)%string = (String.length a + String.length b)%nat.
Proof. induction a; simpl; congruence. Qed.

Lemma append_assoc a b c : (a ++ (b ++ c))%string = ((a ++ b) ++ c)%string.
Proof. induction a; simpl; congruence. Qed.

Lemma get_append_right a b i :
  String.get (String.length a + i) (a ++ b)%string = String.get i b.
Proof. induction a; simpl; auto. Qed.

Lemma get_substring s n m i :
  (i < m)%nat -> String.get i (substring n m s) = String.get (n + i) s.
Proof.
  revert n m i. induction s as [|a s IH]; intros n m i H.
  - destruct n, m, i; reflexivity.
  - destruct n as [|n].
    + destruct m as [|m]; [lia|]. simpl substring.
      destruct i as [|i]; [reflexivity|].
      simpl. rewrite (IH 0%nat m i) by lia. reflexivity.
    + simpl. apply IH. assumption.
Qed.

Lemma get_substring_none s n m i :
  (m <= i)%nat -> String.get i (substring n m s) = None.
Proof.
  revert n m i. induction s as [|a s IH]; intros n m i H.
  - destruct n, m; destruct i; reflexivity.
  - destruct n as [|n].
    + destruct m as [|m]; [destruct i; reflexivity|].
      destruct i as [|i]; [lia|]. simpl. apply IH. lia.
    + simpl. apply IH. assumption.
Qed.

(** ** get_path_name *)

Lemma get_path_name_eq p e :
  last_sep_at p e ->
  get_path_name p =
    (if 0 <=? e then Some (substring 0 (Z.to_nat (e + 1)) p) else None,
     substring (Z.to_nat (e + 1)) (Z.to_nat (Py.len p - 4 - (e + 1))) p).
Proof.
  intros L.
  pose proof (last_sep_at_unique _ _ _ (end_of_path_last_sep p) L) as E.
  pose proof (last_sep_at_lt_len _ _ L) as Hlt.
  destruct L as (Hge & _).
  unfold get_path_name. rewrite E. unfold Py.slice.
  assert (0 <= Py.len p) by (unfold Py.len; lia).
  rewrite adjust_index_inside by lia.
  rewrite adjust_index_minus_4 by assumption.
  rewrite Z.sub_0_r.
  replace (Z.to_nat (Z.max 0 (Py.len p - 4) - (e + 1)))
    with (Z.to_nat (Py.len p - 4 - (e + 1))) by lia.
  destruct (Z.gtb_spec e (-1)); destruct (Z.leb_spec 0 e); try lia; reflexivity.
Qed.

Lemma no_sep_in_dot_wav stem i c :
  (String.length stem <= i)%nat ->
  String.get i (stem ++ ".wav")%string = Some c -> is_sep c = false.
Proof.
  intros Hi.
  replace i with (String.length stem + (i - String.length stem))%nat by lia.
  rewrite get_append_right.
  destruct (i - String.length stem)%nat as [|[|[|[|j]]]]; simpl;
    intros G; inversion G; reflexivity.
Qed.

Lemma has_sep_last_sep_nonneg p e : has_sep p -> last_sep_at p e -> 0 <= e.
Proof.
  intros (i & c & Hc & Hs) (Hge & _ & A).
  destruct (Z.leb_spec 0 e); [assumption|].
  rewrite (A i c) in Hs; [discriminate|lia|assumption].
Qed.

(** The output name is never the name of the input: it is longer. *)
Lemma length_substring_le s n m : (String.length (substring n m s) <= m)%nat.
Proof.
  revert n m. induction s as [|a s IH]; intros n m.
  - destruct n, m; simpl; lia.
  - destruct n as [|n]; simpl.
    + destruct m as [|m]; simpl; [lia|]. specialize (IH 0%nat m). lia.
    + apply IH.
Qed.

Lemma length_substring s n m :
  (n + m <= String.length s)%nat -> String.length (substring n m s) = m.
Proof.
  revert n m. induction s as [|a s IH]; intros n m H.
  - simpl in H. destruct n, m; simpl; lia.
  - destruct n as [|n]; simpl.
    + destruct m as [|m]; simpl; [reflexivity|].
      rewrite (IH 0%nat m); [reflexivity|simpl in H; lia].
    + apply IH. simpl in H. lia.
Qed.

(** C10.  Whatever the string [p], the name [get_path_name] returns is
    the substring of [p] that starts after the last separator (at the
    start of the string when there is none) and stops four characters
    before the end: with [n] the length of [p] and [e] the index of the
    last separator, it is made of the [n - 4 - (e + 1)] characters from
    index [e + 1] on, and is empty when fewer than four characters
    follow the separator.  No test on the extension is made. *)
Theorem get_path_name_drops_last_four p :
  exists e,
    last_sep_at p e
    /\ snd (get_path_name p)
       = substring (Z.to_nat (e + 1))
           (String.length p - 4 - Z.to_nat (e + 1)) p
    /\ String.length (snd (get_path_name p))
       = (String.length p - 4 - Z.to_nat (e + 1))%nat
    /\ (forall i,
          (i < String.length p - 4 - Z.to_nat (e + 1))%nat ->
          String.get i (snd (get_path_name p))
          = String.get (Z.to_nat (e + 1) + i) p).
Proof.
  pose proof (end_of_path_last_sep p) as L.
  pose proof (last_sep_at_lt_len _ _ L) as Hlt.
  exists (Z.max (Py.rfind p "/"%char) (Py.rfind p "\"%char)).
  set (e := Z.max (Py.rfind p "/"%char) (Py.rfind p "\"%char)) in *.
  assert (He : -1 <= e) by (destruct L as (He & _); exact He).
  assert (Hname : snd (get_path_name p)
                  = substring (Z.to_nat (e + 1))
                      (String.length p - 4 - Z.to_nat (e + 1)) p).
  { rewrite (get_path_name_eq p e L). cbn [snd]. f_equal.
    unfold Py.len. lia. }
  unfold Py.len in Hlt.
  split; [exact L|]. split; [exact Hname|]. rewrite Hname. split.
  - apply length_substring. lia.
  - intros i Hi. apply get_substring. exact Hi.
Qed.

Example get_path_name_examples :
  get_path_name "/home/folder/input.wav" = (Some "/home/folder/", "input")
  /\ get_path_name "C:\Folder\input.wav" = (Some "C:\Folder\", "input")
  /\ get_path_name "input.wav" = (None, "input")
  /\ get_path_name "dir/track.flac" = (Some "dir/", "track.")
  /\ get_path_name "a/b" = (Some "a/", EmptyString).
Proof. repeat split; reflexivity. Qed.

(** C9.  For a string [p] that ends in [.wav] and holds a separator,
    [get_path_name p] is a pair [(path, name)] where [path] is the prefix
    of [p] up to and including its last separator and
    [path + name + ".wav"] is [p]; for a string without separator the
    path returned is [None]. *)
Theorem get_path_name_splits p :
  (forall stem,
      p = (stem ++ ".wav")%string -> has_sep p ->
      exists path name e,
        get_path_name p = (Some path, name)
        /\ last_sep_at p e /\ 0 <= e
        /\ path = substring 0 (Z.to_nat (e + 1)) p
        /\ String.length path = Z.to_nat (e + 1)
        /\ String.get (Z.to_nat e) path = String.get (Z.to_nat e) p
        /\ (path ++ name ++ ".wav")%string = p)
  /\ (~ has_sep p -> fst (get_path_name p) = None).
Proof.
  pose proof (end_of_path_last_sep p) as L.
  set (e := Z.max (Py.rfind p "/"%char) (Py.rfind p "\"%char)) in *.
  split.
  - intros stem Hp Hs.
    pose proof (has_sep_last_sep_nonneg _ _ Hs L) as He.
    assert (Hlt : (Z.to_nat e < String.length stem)%nat).
    { destruct L as (_ & G & _). destruct (G He) as (c & Hc & Hsep).
      destruct (Nat.lt_ge_cases (Z.to_nat e) (String.length stem)) as [|Hge];
        [assumption|].
      rewrite Hp in Hc. rewrite (no_sep_in_dot_wav _ _ _ Hge Hc) in Hsep.
      discriminate. }
    assert (Hlen : Py.len p = Z.of_nat (String.length stem) + 4).
    { unfold Py.len. rewrite Hp, length_append. simpl. lia. }
    exists (substring 0 (Z.to_nat (e + 1)) p),
      (substring (Z.to_nat (e + 1)) (Z.to_nat (Py.len p - 4 - (e + 1))) p), e.
    rewrite (get_path_name_eq p e L).
    destruct (Z.leb_spec 0 e); [|lia].
    split; [reflexivity|]. split; [exact L|]. split; [exact He|].
    split; [reflexivity|]. split; [|split].
    + apply length_substring. unfold Py.len in Hlen. lia.
    + rewrite get_substring by lia. reflexivity.
    + rewrite append_assoc, substring_split.
      replace (Z.to_nat (e + 1) + Z.to_nat (Py.len p - 4 - (e + 1)))%nat
        with (String.length stem) by lia.
      rewrite Hp at 1. rewrite substring_0_append. symmetry. assumption.
  - intros Hn. rewrite (get_path_name_eq p e L). simpl.
    destruct (Z.leb_spec 0 e) as [He|]; [|reflexivity].
    exfalso. apply Hn. destruct L as (_ & G & _).
    destruct (G He) as (c & Hc & Hsep). exists (Z.to_nat e), c. auto.
Qed.

Lemma get_path_name_splits_witness :
  (exists path name e,
      get_path_name "/home/folder/input.wav" = (Some path, name)
      /\ last_sep_at "/home/folder/input.wav" e /\ 0 <= e
      /\ path = substring 0 (Z.to_nat (e + 1)) "/home/folder/input.wav"
      /\ String.length path = Z.to_nat (e + 1)
      /\ String.get (Z.to_nat e) path = String.get (Z.to_nat e) "/home/folder/input.wav"
      /\ (path ++ name ++ ".wav")%string = "/home/folder/input.wav")
  /\ fst (get_path_name "input.wav") = None.
Proof.
  split.
  - apply (proj1 (get_path_name_splits "/home/folder/input.wav") "/home/folder/input").
    + reflexivity.
    + exists 0%nat, "/"%char. split; reflexivity.
  - apply (proj2 (get_path_name_splits "input.wav")).
    intros (i & c & Hc & Hs).
    do 9 (destruct i as [|i]; [inversion Hc; subst c; discriminate Hs|]).
    discriminate Hc.
Defined.

(** ** struct: packing and unpacking are inverse *)

Lemma to_N_byte_of_Z n :
  0 <= n < 256 -> Z.of_N (Byte.to_N (struct.byte_of_Z n)) = n.
Proof.
  intros H. unfold struct.byte_of_Z.
  destruct (Byte.of_N (Z.to_N n)) as [x|] eqn:E.
  - apply Byte.to_of_N in E. rewrite E. lia.
  - apply Byte.of_N_None_iff in E. lia.
Qed.

Lemma le_bytes_length n v : List.length (struct.le_bytes n v) = n.
Proof. revert v. induction n; intros v; simpl; auto. Qed.

Lemma le_value_le_bytes n v :
  0 <= v < 256 ^ Z.of_nat n -> struct.le_value (struct.le_bytes n v) = v.
Proof.
  revert v. induction n as [|n IH]; intros v H.
  - simpl in *. lia.
  - rewrite Nat2Z.inj_succ, Z.pow_succ_r in H by lia.
    cbn [struct.le_value struct.le_bytes].
    rewrite to_N_byte_of_Z by (apply Z.mod_pos_bound; lia).
    rewrite IH.
    + pose proof (Z.div_mod v 256 ltac:(lia)). lia.
    + split; [apply Z.div_pos; lia|apply Z.div_lt_upper_bound; lia].
Qed.

Lemma le_value_bound bs :
  0 <= struct.le_value bs < 256 ^ Z.of_nat (List.length bs).
Proof.
  induction bs as [|x bs IH].
  - simpl. lia.
  - change (List.length (x :: bs)) with (S (List.length bs)).
    rewrite Nat2Z.inj_succ, Z.pow_succ_r by lia.
    cbn [struct.le_value].
    pose proof (Byte.to_N_bounded x). lia.
Qed.

Lemma le_bytes_2 v :
  0 <= v < 65536 ->
  exists b0 b1, struct.le_bytes 2 v = [b0; b1] /\ struct.le_value [b0; b1] = v.
Proof.
  intros H. pose proof (le_value_le_bytes 2 v H) as E.
  simpl struct.le_bytes in *. eauto.
Qed.

Lemma le_bytes_4 v :
  0 <= v < 4294967296 ->
  exists b0 b1 b2 b3,
    struct.le_bytes 4 v = [b0; b1; b2; b3]
    /\ struct.le_value [b0; b1; b2; b3] = v.
Proof.
  intros H. pose proof (le_value_le_bytes 4 v H) as E.
  simpl struct.le_bytes in *. eauto 6.
Qed.

Lemma pack_arg_H v :
  0 <= v < 65536 ->
  struct.pack_arg (struct.Int struct.H v) = inr (struct.le_bytes 2 v).
Proof.
  intros H. unfold struct.pack_arg.
  change (2 ^ (8 * Z.of_nat (struct.size struct.H))) with 65536.
  destruct (Z.leb_spec 0 v); [|lia]. destruct (Z.ltb_spec v 65536); [|lia].
  reflexivity.
Qed.

Lemma pack_arg_L v :
  0 <= v < 4294967296 ->
  struct.pack_arg (struct.Int struct.L v) = inr (struct.le_bytes 4 v).
Proof.
  intros H. unfold struct.pack_arg.
  change (2 ^ (8 * Z.of_nat (struct.size struct.L))) with 4294967296.
  destruct (Z.leb_spec 0 v); [|lia]. destruct (Z.ltb_spec v 4294967296); [|lia].
  reflexivity.
Qed.

Lemma pack_arg_L_out_of_range v :
  4294967296 <= v ->
  struct.pack_arg (struct.Int struct.L v)
  = inl (struct_error "'L' format requires 0 <= number <= 4294967295").
Proof.
  intros H. unfold struct.pack_arg.
  change (2 ^ (8 * Z.of_nat (struct.size struct.L))) with 4294967296.
  destruct (Z.leb_spec 0 v); [|lia]. destruct (Z.ltb_spec v 4294967296); [lia|].
  reflexivity.
Qed.

(** ** Tactics for running the model on symbolic input *)

Import wave.

(** Settle one comparison of the goal that [lia] decides. *)
Ltac decide_cmp :=
  match goal with
  | |- context [Z.ltb ?a ?b] =>
      first [ replace (Z.ltb a b) with true by (symmetry; apply Z.ltb_lt; lia)
            | replace (Z.ltb a b) with false by (symmetry; apply Z.ltb_ge; lia) ]
  | |- context [Z.leb ?a ?b] =>
      first [ replace (Z.leb a b) with true by (symmetry; apply Z.leb_le; lia)
            | replace (Z.leb a b) with false by (symmetry; apply Z.leb_gt; lia) ]
  | |- context [Z.eqb ?a ?b] =>
      first [ replace (Z.eqb a b) with true by (symmetry; apply Z.eqb_eq; lia)
            | replace (Z.eqb a b) with false by (symmetry; apply Z.eqb_neq; lia) ]
  end.

(** Evaluate the arithmetic of the goal whose arguments are literals; the
    other arithmetic is left as it stands. *)
Ltac is_pos_lit p :=
  lazymatch p with
  | xH => idtac
  | xO ?q => is_pos_lit q
  | xI ?q => is_pos_lit q
  end.
Ltac is_Z_lit z :=
  lazymatch z with
  | Z0 => idtac
  | Zpos ?p => is_pos_lit p
  | Zneg ?p => is_pos_lit p
  end.
Ltac is_nat_lit n :=
  lazymatch n with
  | O => idtac
  | S ?m => is_nat_lit m
  end.
Ltac fold_consts :=
  repeat match goal with
    | |- context [Z.to_nat ?z] =>
        is_Z_lit z; let v := eval compute in (Z.to_nat z) in
        change (Z.to_nat z) with v
    | |- context [Z.of_nat ?n] =>
        is_nat_lit n; let v := eval compute in (Z.of_nat n) in
        change (Z.of_nat n) with v
    | |- context [Z.add ?a ?b] =>
        is_Z_lit a; is_Z_lit b; let v := eval compute in (Z.add a b) in
        change (Z.add a b) with v
    | |- context [Z.sub ?a ?b] =>
        is_Z_lit a; is_Z_lit b; let v := eval compute in (Z.sub a b) in
        change (Z.sub a b) with v
    | |- context [Z.odd ?a] =>
        is_Z_lit a; let v := eval compute in (Z.odd a) in
        change (Z.odd a) with v
    end.

(** Replace the fields of a packed header by their values. *)
Ltac rewrite_values :=
  repeat match goal with
    | H : struct.le_value _ = _ |- _ => rewrite H
    end.

Ltac blocked_cbn :=
  cbn -[struct.le_value Z.add Z.sub Z.mul Z.div Z.ltb Z.leb Z.eqb Z.odd
        Z.to_nat Z.of_nat Wave_read.initfp_loop].

(** One step of a run of the reader on a file given by its bytes. *)
Ltac step :=
  unfold Chunk_init, chunk_read, chunk_seek, chunk_tell, chunk_with,
    file_read, file_seek, file_tell, struct.unpack_from;
  blocked_cbn; rewrite_values; fold_consts; repeat decide_cmp.


(** ** Wave_write: the file a successful run writes *)

Lemma setparams_ok f nch sw rate nf cn :
  1 <= nch -> 1 <= sw <= 4 -> 0 < rate ->
  Wave_write.setparams (nch, sw, rate, nf, "NONE", cn) (Wave_write.initfp f)
  = (inr tt, Wave_write.mk f nch sw rate nf 0 0 0 false 0 0 "NONE" cn).
Proof.
  intros.
  unfold Wave_write.setparams, Wave_write.setnchannels, Wave_write.setsampwidth,
    Wave_write.setframerate, Wave_write.setnframes, Wave_write.setcomptype,
    Wave_write.check_not_written, Wave_write.initfp.
  unfold bind, get, ret, raise, modify. cbn.
  repeat (decide_cmp; cbn). reflexivity.
Qed.

(** The header [_write_header] packs, when every field is in range. *)
Lemma pack_header_ok nch sw rate dl :
  1 <= nch -> 1 <= sw <= 4 -> 0 < rate ->
  nch * sw < 65536 -> nch * rate * sw < 4294967296 ->
  0 <= dl -> 36 + dl < 4294967296 ->
  struct.pack
    [struct.Int struct.L (36 + dl);
     struct.S4 b_WAVE; struct.S4 b_fmt;
     struct.Int struct.L 16;
     struct.Int struct.H WAVE_FORMAT_PCM;
     struct.Int struct.H nch;
     struct.Int struct.L rate;
     struct.Int struct.L (nch * rate * sw);
     struct.Int struct.H (nch * sw);
     struct.Int struct.H (sw * 8);
     struct.S4 b_data]
  = inr (struct.le_bytes 4 (36 + dl) ++ b_WAVE ++ b_fmt
  ++ struct.le_bytes 4 16 ++ struct.le_bytes 2 WAVE_FORMAT_PCM
  ++ struct.le_bytes 2 nch ++ struct.le_bytes 4 rate
  ++ struct.le_bytes 4 (nch * rate * sw)
  ++ struct.le_bytes 2 (nch * sw)
  ++ struct.le_bytes 2 (sw * 8) ++ b_data).
Proof.
  intros. cbn [struct.pack].
  rewrite !pack_arg_L, !pack_arg_H by (unfold WAVE_FORMAT_PCM; nia).
  reflexivity.
Qed.

(** Writing at the end of a file appends. *)
Lemma file_write_at_end bs d :
  file_write bs {| f_data := d; f_pos := Z.of_nat (List.length d) |}
  = {| f_data := d ++ bs; f_pos := Z.of_nat (List.length (d ++ bs)) |}.
Proof.
  unfold file_write. cbn [f_data f_pos].
  rewrite Nat2Z.id, firstn_all, Nat.sub_diag.
  rewrite skipn_all2 by lia. cbn [repeat]. rewrite app_nil_r.
  rewrite length_app, Nat2Z.inj_add. reflexivity.
Qed.

Lemma file_write_empty bs :
  file_write bs {| f_data := []; f_pos := 0 |}
  = {| f_data := bs; f_pos := Z.of_nat (List.length bs) |}.
Proof. apply (file_write_at_end bs []). Qed.

Lemma file_write_append bs d p :
  p = Z.of_nat (List.length d) ->
  file_write bs {| f_data := d; f_pos := p |}
  = {| f_data := d ++ bs; f_pos := p + Z.of_nat (List.length bs) |}.
Proof.
  intros ->. rewrite file_write_at_end, length_app, Nat2Z.inj_add. reflexivity.
Qed.

Lemma wav_header_length nch sw rate dl :
  List.length (wav_header nch sw rate dl) = 44%nat.
Proof. reflexivity. Qed.

(** [_write_header] on an object whose parameters are set: the 44 bytes
    of the header, with the data length known at that time. *)
Lemma write_header_ok nch sw rate nf cn len :
  1 <= nch -> 1 <= sw <= 4 -> 0 < rate ->
  nch * sw < 65536 -> nch * rate * sw < 4294967296 ->
  0 <= initial_datalength nch sw nf len ->
  36 + initial_datalength nch sw nf len < 4294967296 ->
  Wave_write._write_header len
    (Wave_write.mk {| f_data := []; f_pos := 0 |} nch sw rate nf 0 0 0 false 0 0 "NONE" cn)
  = (inr tt,
     Wave_write.mk
       {| f_data := wav_header nch sw rate (initial_datalength nch sw nf len);
          f_pos := 44 |}
       nch sw rate (if nf =? 0 then len / (nch * sw) else nf) 0 0
       (initial_datalength nch sw nf len) true 4 40 "NONE" cn).
Proof.
  intros Hn Hs Hr Ha Hb Hd0 Hd.
  unfold initial_datalength in *.
  unfold Wave_write._write_header, Wave_write.write.
  unfold bind, get, ret, raise, modify, lift.
  rewrite file_write_empty.
  cbn -[struct.pack file_write Z.mul Z.div Z.add wav_header].
  destruct (nf =? 0);
    cbn -[struct.pack file_write Z.mul Z.div Z.add wav_header];
    rewrite pack_header_ok by assumption;
    cbn [struct.pack rbind]; rewrite pack_arg_L by lia;
    cbn -[struct.pack file_write Z.mul Z.div Z.add wav_header];
    reflexivity.
Qed.

Lemma file_seek_set p f :
  0 <= p -> file_seek p 0 f = inr {| f_data := f_data f; f_pos := p |}.
Proof.
  intros H. unfold file_seek. cbn [Z.eqb].
  destruct (Z.ltb_spec p 0); [lia|reflexivity].
Qed.

(** [_patchheader] overwrites the two length fields of the header. *)
Lemma patch_header nch sw rate dl0 dl data :
  f_data
    (file_write (struct.le_bytes 4 dl)
       {| f_data :=
            f_data (file_write (struct.le_bytes 4 (36 + dl))
                      {| f_data := wav_header nch sw rate dl0 ++ data; f_pos := 4 |});
          f_pos := 40 |})
  = wav_header nch sw rate dl ++ data.
Proof.
  unfold file_write, wav_header.
  cbn -[Z.mul Z.div Z.add Z.modulo struct.byte_of_Z].
  reflexivity.
Qed.

(** [writeframes(data)] on an object whose parameters are set: the file
    is the header for the length of [data], then [data], whether the
    header had to be patched or not. *)
Lemma writeframes_ok nch sw rate nf cn data :
  let len := Z.of_nat (List.length data) in
  1 <= nch -> 1 <= sw <= 4 -> 0 < rate ->
  nch * sw < 65536 -> nch * rate * sw < 4294967296 ->
  0 <= initial_datalength nch sw nf len ->
  36 + initial_datalength nch sw nf len < 4294967296 ->
  36 + len < 4294967296 ->
  exists s,
    Wave_write.writeframes data
      (Wave_write.mk {| f_data := []; f_pos := 0 |} nch sw rate nf 0 0 0 false 0 0 "NONE" cn)
    = (inr tt, s)
    /\ f_data (Wave_write._file s) = wav_header nch sw rate len ++ data
    /\ Wave_write._headerwritten s = true
    /\ Wave_write._datalength s = len
    /\ Wave_write._datawritten s = len.
Proof.
  intros len Hn Hs Hr Ha Hb Hd0 Hd Hl.
  unfold Wave_write.writeframes, Wave_write.writeframesraw,
    Wave_write._ensure_header_written.
  unfold bind at 1 2 3. unfold get at 1.
  cbn [Wave_write._headerwritten Wave_write._nchannels Wave_write._sampwidth
       Wave_write._framerate negb].
  destruct (Z.eqb_spec nch 0); [lia|].
  destruct (Z.eqb_spec sw 0); [lia|].
  destruct (Z.eqb_spec rate 0); [lia|].
  fold len. rewrite write_header_ok by assumption.
  unfold Wave_write.write, bind, get, modify, ret.
  cbn -[Z.mul Z.div Z.add file_write wav_header initial_datalength Wave_write._patchheader].
  rewrite file_write_append by reflexivity.
  rewrite !Z.add_0_l. fold len.
  destruct (Z.eqb_spec (initial_datalength nch sw nf len) len) as [E|E].
  - cbn [negb]. eexists. split; [reflexivity|].
    cbn -[Z.mul Z.div Z.add file_write wav_header initial_datalength].
    rewrite E. auto.
  - cbn -[Z.mul Z.div Z.add file_write wav_header initial_datalength struct.pack].
    unfold Wave_write._patchheader, Wave_write.seek, Wave_write.write,
      bind, get, modify, ret, lift.
    cbn -[Z.mul Z.div Z.add file_write wav_header initial_datalength struct.pack].
    destruct (Z.eqb_spec len (initial_datalength nch sw nf len)); [congruence|].
    cbn [struct.pack rbind]. rewrite !pack_arg_L by lia.
    rewrite ?file_seek_set by lia.
    cbn -[Z.mul Z.div Z.add file_write wav_header initial_datalength
          struct.le_bytes].
    rewrite ?file_seek_set by lia.
    cbn -[Z.mul Z.div Z.add file_write wav_header initial_datalength
          struct.le_bytes].
    eexists. split; [reflexivity|].
    cbn -[Z.mul Z.div Z.add file_write wav_header initial_datalength struct.le_bytes].
    split; [|auto].
    fold len. rewrite !app_nil_r. rewrite patch_header. reflexivity.
Qed.

(** ** Wave_read: reading back what Wave_write has written *)

(** One round of the loop of [initfp]. *)
Lemma initfp_loop_S n self :
  Wave_read.initfp_loop (S n) self =
      let self := Wave_read.set_data_seek_needed true self in
      match Chunk_init (Wave_read._file self) with
      | inl EOFError => Some (Wave_read.initfp_end self)
      | inl e => Some (inl e)
      | inr chunk =>
          let chunkname := chunkname chunk in
          if bytes_eqb chunkname b_fmt then
            match Wave_read._read_fmt_chunk chunk self with
            | inl e => Some (inl e)
            | inr (self, chunk) =>
                let self := Wave_read.set_fmt_chunk_read true self in
                match chunk_skip chunk with
                | inl e => Some (inl e)
                | inr chunk => Wave_read.initfp_loop n (Wave_read.set_file (file chunk) self)
                end
            end
          else if bytes_eqb chunkname b_data then
            if negb (Wave_read._fmt_chunk_read self)
            then Some (inl (Error "data chunk before fmt chunk"))
            else
              let self := Wave_read.set_data_chunk chunk self in
              let self := Wave_read.set_nframes (chunksize chunk / Wave_read._framesize self) self in
              let self := Wave_read.set_data_seek_needed false self in
              Some (Wave_read.initfp_end self)
          else
            match chunk_skip chunk with
            | inl e => Some (inl e)
            | inr chunk => Wave_read.initfp_loop n (Wave_read.set_file (file chunk) self)
            end
      end.
Proof. reflexivity. Qed.

(** [initfp] on a file [Wave_write] has written. *)
Lemma initfp_written nch sw rate data :
  let len := Z.of_nat (List.length data) in
  1 <= nch -> 1 <= sw <= 4 -> 0 < rate ->
  nch * sw < 65536 -> nch * rate * sw < 4294967296 ->
  36 + len < 4294967296 ->
  Wave_read.initfp {| f_data := wav_header nch sw rate len ++ data; f_pos := 0 |}
  = inr (written_reader (wav_header nch sw rate len ++ data) nch sw rate len).
Proof.
  intros len Hn Hs Hr Ha Hb Hl.
  unfold written_reader, written_riff, wav_header.
  destruct (le_bytes_4 (36 + len)) as (a0 & a1 & a2 & a3 & -> & Va); [lia|].
  destruct (le_bytes_4 16) as (c0 & c1 & c2 & c3 & -> & Vc); [lia|].
  destruct (le_bytes_2 WAVE_FORMAT_PCM) as (d0 & d1 & -> & Vd); [unfold WAVE_FORMAT_PCM; lia|].
  destruct (le_bytes_2 nch) as (e0 & e1 & -> & Ve); [lia|].
  destruct (le_bytes_4 rate) as (f0 & f1 & f2 & f3 & -> & Vf); [nia|].
  destruct (le_bytes_4 (nch * rate * sw)) as (g0 & g1 & g2 & g3 & -> & Vg); [nia|].
  destruct (le_bytes_2 (nch * sw)) as (h0 & h1 & -> & Vh); [nia|].
  destruct (le_bytes_2 (sw * 8)) as (i0 & i1 & -> & Vi); [nia|].
  destruct (le_bytes_4 len) as (j0 & j1 & j2 & j3 & -> & Vj); [lia|].
  unfold Wave_read.initfp.
  repeat (progress step). rewrite initfp_loop_S. repeat (progress step).
  unfold Wave_read._read_fmt_chunk, WAVE_FORMAT_PCM, WAVE_FORMAT_EXTENSIBLE in *.
  repeat (progress step).
  replace ((sw * 8 + 7) / 8) with sw by (apply Z.div_unique with 7; lia).
  repeat (progress step). unfold chunk_skip.  repeat (progress step).
  rewrite initfp_loop_S. repeat (progress step).
  assert (Hpad : (36 =? 36 + len) && true && Z.odd (36 + len) = false).
  { destruct (Z.eqb_spec 36 (36 + len)) as [E|E]; [|reflexivity].
    replace len with 0 by lia. reflexivity. }
  rewrite Hpad. repeat (progress step).
  unfold Wave_read.initfp_end. repeat (progress step).
  reflexivity.
Qed.

Ltac case_if :=
  match goal with
  | |- context [if ?c then _ else _] => destruct c
  end.

(** What a read inside a chunk returns is what the read of the object
    under it returns. *)
Lemma fst_chunk_read {F : Type} `{FileLike F} size (c : _Chunk F) :
  size_read c < chunksize c ->
  0 <= size <= chunksize c - size_read c ->
  fst (chunk_read size c) = fst (fl_read size (file c)).
Proof.
  intros Hlt Hsize. unfold chunk_read.
  repeat decide_cmp.
  destruct (fl_read size (file c)) as [d f1]. cbn [fst].
  case_if; [destruct (fl_read 1 f1)|]; reflexivity.
Qed.

Lemma fst_chunk_read_done {F : Type} `{FileLike F} size (c : _Chunk F) :
  chunksize c <= size_read c -> fst (chunk_read size c) = [].
Proof.
  intros Hle. unfold chunk_read. repeat decide_cmp. reflexivity.
Qed.

(** [readframes(n)] on an object [initfp] has built returns what the
    data chunk reads. *)
Lemma fst_readframes n self c :
  Wave_read._data_chunk self = Some c ->
  Wave_read._data_seek_needed self = false ->
  fst (Wave_read.readframes n self)
  = inr (if n =? 0 then [] else fst (chunk_read (n * Wave_read._framesize self) c)).
Proof.
  intros Hc Hs. unfold Wave_read.readframes. rewrite Hc, Hs.
  destruct (n =? 0); [reflexivity|].
  cbn [Wave_read._framesize Wave_read.set_data_seek_needed Wave_read.set_data_chunk].
  destruct (chunk_read (n * Wave_read._framesize self) c). reflexivity.
Qed.

(** The frames read back from a file [Wave_write] has written. *)
Lemma readframes_written bs nch sw rate data :
  let len := Z.of_nat (List.length data) in
  1 <= nch -> 1 <= sw ->
  skipn 44 bs = data ->
  fst (Wave_read.readframes (len / (nch * sw)) (written_reader bs nch sw rate len))
  = inr (firstn (Z.to_nat (len / (nch * sw) * (nch * sw))) data).
Proof.
  intros len Hn Hs Hd.
  assert (Hfs : 0 < nch * sw) by nia.
  assert (Hlen : 0 <= len) by (unfold len; lia).
  pose proof (Z.mul_div_le len (nch * sw) Hfs) as Hle.
  pose proof (Z.div_pos len (nch * sw) Hlen Hfs) as Hnf.
  erewrite fst_readframes by reflexivity.
  cbn [Wave_read._framesize written_reader].
  destruct (Z.eqb_spec (len / (nch * sw)) 0) as [E|E].
  - rewrite E. reflexivity.
  - assert (0 < len).
    { destruct (Z.eq_dec len 0) as [E0|]; [|lia].
      rewrite E0 in E. rewrite Z.div_0_l in E; lia. }
    rewrite fst_chunk_read by (cbn [size_read chunksize]; lia).
    cbn [file fl_read Chunk_FileLike].
    rewrite fst_chunk_read by (unfold written_riff; cbn [size_read chunksize]; lia).
    unfold written_riff. cbn [file fl_read File_FileLike].
    unfold file_read. cbn [f_pos f_data fst].
    repeat decide_cmp.
    change (Z.to_nat 44) with 44%nat. rewrite Hd. reflexivity.
Qed.

(** ** Wave_read: what initfp guarantees *)

Lemma le_value_lt bs n :
  (List.length bs <= n)%nat -> 0 <= struct.le_value bs < 256 ^ Z.of_nat n.
Proof.
  intros H. pose proof (le_value_bound bs) as B.
  assert (256 ^ Z.of_nat (List.length bs) <= 256 ^ Z.of_nat n)
    by (apply Z.pow_le_mono_r; lia).
  lia.
Qed.

Lemma Chunk_init_ok {F : Type} `{FileLike F} (f : F) c :
  Chunk_init f = inr c ->
  size_read c = 0 /\ 0 <= chunksize c < 4294967296.
Proof.
  unfold Chunk_init.
  destruct (fl_read 4 f) as [name f1].
  destruct (List.length name <? 4)%nat; [discriminate|].
  destruct (fl_read 4 f1) as [raw f2].
  unfold struct.unpack_from.
  destruct (List.length raw <? struct.calcsize [struct.L])%nat; [discriminate|].
  intros E. inversion E; subst c; clear E. cbn [size_read chunksize].
  split; [reflexivity|].
  cbn [struct.unpack_fields nth struct.size].
  apply (le_value_lt _ 4). apply (firstn_le_length 4 raw).
Qed.

Lemma _read_fmt_chunk_ok chunk self self' chunk' :
  Wave_read._read_fmt_chunk chunk self = inr (self', chunk') ->
  fmt_ok self'
  /\ Wave_read._data_chunk self' = Wave_read._data_chunk self
  /\ Wave_read._soundpos self' = Wave_read._soundpos self.
Proof.
  unfold Wave_read._read_fmt_chunk.
  destruct (chunk_read 14 chunk) as [raw c1].
  unfold struct.unpack_from at 1.
  destruct (List.length raw <? _)%nat; [discriminate|].
  cbn [struct.unpack_fields nth struct.size].
  set (tag := struct.le_value (firstn 2 raw)).
  set (nch := struct.le_value (firstn 2 (skipn 2 raw))).
  set (rate := struct.le_value (firstn 4 (skipn 2 (skipn 2 raw)))).
  assert (0 <= nch < 65536) by (apply (le_value_lt _ 2), firstn_le_length).
  assert (0 <= rate < 4294967296) by (apply (le_value_lt _ 4), firstn_le_length).
  clearbody tag nch rate.
  destruct (negb (tag =? WAVE_FORMAT_PCM) && negb (tag =? WAVE_FORMAT_EXTENSIBLE));
    [discriminate|].
  destruct (chunk_read 2 c1) as [raw2 c2].
  unfold struct.unpack_from at 1.
  destruct (List.length raw2 <? _)%nat; [discriminate|].
  cbn [struct.unpack_fields nth struct.size].
  set (bits := struct.le_value (firstn 2 raw2)).
  assert (0 <= bits < 65536) by (apply (le_value_lt _ 2), firstn_le_length).
  clearbody bits.
  match goal with |- rbind ?e _ = _ -> _ => destruct e as [err|c3] end;
    [discriminate|].
  cbn [rbind].
  destruct (Z.eqb_spec ((bits + 7) / 8) 0) as [|Hsw]; [discriminate|].
  destruct (Z.eqb_spec nch 0) as [|Hnch]; [discriminate|].
  intros E. inversion E; subst self' chunk'; clear E.
  assert (0 <= (bits + 7) / 8 <= 8192).
  { split; [apply Z.div_pos; lia|].
    apply Z.lt_succ_r, Z.div_lt_upper_bound; lia. }
  unfold fmt_ok. cbn. repeat split; try lia.
Qed.

Lemma initfp_end_ok self r :
  Wave_read.initfp_end self = inr r ->
  r = self /\ Wave_read._fmt_chunk_read self = true
  /\ exists c, Wave_read._data_chunk self = Some c.
Proof.
  unfold Wave_read.initfp_end.
  destruct (Wave_read._data_chunk self) as [c|]; [|discriminate].
  destruct (Wave_read._fmt_chunk_read self); [|discriminate].
  cbn. intros E. inversion E. eauto.
Qed.

Lemma initfp_loop_ok rounds self r :
  loop_inv self ->
  Wave_read.initfp_loop rounds self = Some (inr r) -> reader_ok r.
Proof.
  revert self. induction rounds as [|rounds IH]; intros self Inv; [discriminate|].
  rewrite initfp_loop_S. cbv zeta.
  destruct (Chunk_init _) as [e|chunk] eqn:Hc.
  - destruct e; intros E; inversion E as [E'].
    apply initfp_end_ok in E'. destruct E' as (_ & _ & c & Hd).
    destruct Inv as (Hnone & _). cbn in Hd. congruence.
  - apply Chunk_init_ok in Hc. destruct Hc as (Hsr & Hsize).
    destruct (bytes_eqb (chunkname chunk) b_fmt).
    + destruct (Wave_read._read_fmt_chunk _ _) as [e|[self1 chunk1]] eqn:Hf;
        [discriminate|].
      apply _read_fmt_chunk_ok in Hf. destruct Hf as (Hfmt & Hdc & Hsp).
      destruct (chunk_skip chunk1) as [e|chunk2]; [discriminate|].
      apply IH. destruct Inv as (Hnone & Hpos & _).
      split; [|split].
      * cbn in *. congruence.
      * cbn in *. congruence.
      * intros _. exact Hfmt.
    + destruct (bytes_eqb (chunkname chunk) b_data).
      * destruct (Wave_read._fmt_chunk_read _) eqn:Hread; [|discriminate].
        cbn [negb]. intros E. inversion E as [E']. clear E.
        apply initfp_end_ok in E'. destruct E' as (-> & _ & _).
        destruct Inv as (Hnone & Hpos & Hfmt).
        specialize (Hfmt Hread).
        split; [exact Hfmt|]. split; [exact Hpos|]. split; [reflexivity|].
        exists chunk. cbn. auto.
      * destruct (chunk_skip chunk) as [e|chunk2]; [discriminate|].
        apply IH. exact Inv.
Qed.

Lemma initfp_ok f r : Wave_read.initfp f = inr r -> reader_ok r.
Proof.
  unfold Wave_read.initfp.
  destruct (Chunk_init f) as [e|riff]; [discriminate|]. cbn [rbind].
  destruct (negb _); [discriminate|].
  destruct (chunk_read 4 riff) as [form riff'].
  destruct (negb _); [discriminate|].
  destruct (Wave_read.initfp_loop _ _) as [[e|r']|] eqn:Hloop; try discriminate.
  intros E. inversion E; subst r'.
  apply initfp_loop_ok in Hloop; [assumption|].
  split; [reflexivity|]. split; [reflexivity|]. cbn. discriminate.
Qed.

(** ** Reads return no more than they are asked for *)

Lemma file_read_length size f :
  0 <= size -> Z.of_nat (List.length (fst (file_read size f))) <= size.
Proof.
  intros H. unfold file_read. destruct (Z.ltb_spec size 0); [lia|].
  cbn [fst]. pose proof (firstn_le_length (Z.to_nat size) (skipn (Z.to_nat (f_pos f)) (f_data f))).
  lia.
Qed.

Lemma chunk_read_length {F : Type} `{FileLike F} :
  (forall size (f : F), 0 <= size -> Z.of_nat (List.length (fst (fl_read size f))) <= size) ->
  forall size (c : _Chunk F),
    0 <= size -> Z.of_nat (List.length (fst (chunk_read size c))) <= size.
Proof.
  intros Hread size c Hsize. unfold chunk_read.
  destruct (Z.leb_spec (chunksize c) (size_read c)); [cbn; lia|].
  destruct (Z.ltb_spec size 0); [lia|].
  destruct (Z.ltb_spec (chunksize c - size_read c) size) as [Hlt|Hge].
  - specialize (Hread (chunksize c - size_read c) (file c)).
    destruct (fl_read (chunksize c - size_read c) (file c)) as [d f1].
    cbn [fst] in *.
    case_if; [destruct (fl_read 1 f1)|]; cbn [fst]; lia.
  - specialize (Hread size (file c)).
    destruct (fl_read size (file c)) as [d f1].
    cbn [fst] in *.
    case_if; [destruct (fl_read 1 f1)|]; cbn [fst]; lia.
Qed.

Lemma data_chunk_read_length size (c : _Chunk (_Chunk File)) :
  0 <= size -> Z.of_nat (List.length (fst (chunk_read size c))) <= size.
Proof.
  apply chunk_read_length. intros n f Hn.
  apply (chunk_read_length (F := File)); [|assumption].
  intros n' f' Hn'. apply file_read_length. assumption.
Qed.

(** The frames read from an opened file are at most [nframes] frames. *)
Lemma frames_of_ok r :
  reader_ok r ->
  exists data,
    frames_of r = inr data
    /\ Z.of_nat (List.length data)
       <= Wave_read._nframes r * Wave_read._framesize r
    /\ (Wave_read._nframes r = 0 -> data = []).
Proof.
  intros (Hfmt & _ & Hseek & c & Hc & Hsr & Hsize & Hnf).
  destruct Hfmt as (Hn & Hs & _ & Hfs & _).
  unfold frames_of. rewrite (fst_readframes _ _ c Hc Hseek).
  eexists. split; [reflexivity|].
  assert (0 < Wave_read._framesize r) by nia.
  assert (0 <= Wave_read._nframes r) by (rewrite Hnf; apply Z.div_pos; lia).
  destruct (Z.eqb_spec (Wave_read._nframes r) 0) as [E|E].
  - cbn. split; [nia|reflexivity].
  - split; [|contradiction]. apply data_chunk_read_length. nia.
Qed.

(** ** A run of change_sample_rate that succeeds *)

Lemma close_written s :
  Wave_write._headerwritten s = true ->
  Wave_write._datalength s = Wave_write._datawritten s ->
  Wave_write.close s = (inr tt, s).
Proof.
  intros Hh Hd. unfold Wave_write.close, Wave_write._ensure_header_written.
  unfold bind, get, ret. rewrite Hh. cbn [negb]. rewrite Hd, Z.eqb_refl.
  reflexivity.
Qed.

Lemma output_path_eq input_wav old new out :
  output_path input_wav old new = inr out ->
  exists path,
    get_path_name input_wav = (Some path, snd (get_path_name input_wav))
    /\ out = ((path ++ output_name (snd (get_path_name input_wav)) old new) ++ ".wav")%string.
Proof.
  unfold output_path. destruct (get_path_name input_wav) as [[path|] name];
    cbn; [|discriminate].
  intros E. inversion E. eauto.
Qed.

Lemma change_sample_rate_try_ok w input_wav new_sample_rate bs r out :
  fs w input_wav = Some bs ->
  Wave_read.initfp (opened bs) = inr r ->
  output_path input_wav (Wave_read._framerate r) new_sample_rate = inr out ->
  Wave_read._sampwidth r <= 4 ->
  Wave_read._nchannels r * Wave_read._sampwidth r < 65536 ->
  36 + Wave_read._nframes r * Wave_read._framesize r < 4294967296 ->
  0 < new_sample_rate ->
  Wave_read._nchannels r * new_sample_rate * Wave_read._sampwidth r < 4294967296 ->
  exists data w',
    frames_of r = inr data
    /\ change_sample_rate_try input_wav new_sample_rate w = (inr tt, w')
    /\ (forall q,
          fs w' q
          = if String.eqb q out
            then Some (wav_header (Wave_read._nchannels r) (Wave_read._sampwidth r)
                         new_sample_rate (Z.of_nat (List.length data)) ++ data)
            else fs w q)
    /\ stdout w'
       = stdout w ++ [success_line (Wave_read._framerate r) new_sample_rate out].
Proof.
  intros Hfs Hopen Hout Hsw Halign Hsize Hrate Hbyte.
  pose proof (initfp_ok _ _ Hopen) as Hok.
  destruct (frames_of_ok r Hok) as (data & Hdata & Hlen & Hzero).
  destruct Hok as ((Hn & Hs & _ & Hfsz & Hct & Hcn) & _).
  destruct (output_path_eq _ _ _ _ Hout) as (path & Hpath & Eout).
  exists data.
  set (len := Z.of_nat (List.length data)) in *.
  assert (Hlen0 : 0 <= len) by (unfold len; lia).
  assert (Hnf : 0 <= Wave_read._nframes r) by nia.
  assert (Hinit : initial_datalength (Wave_read._nchannels r) (Wave_read._sampwidth r)
                    (Wave_read._nframes r) len
                  = Wave_read._nframes r * Wave_read._framesize r).
  { unfold initial_datalength.
    destruct (Z.eqb_spec (Wave_read._nframes r) 0) as [E|E].
    - unfold len. rewrite (Hzero E), E. reflexivity.
    - rewrite Hfsz. ring. }
  destruct (writeframes_ok (Wave_read._nchannels r) (Wave_read._sampwidth r)
              new_sample_rate (Wave_read._nframes r) (Wave_read._compname r) data)
    as (s & Hwrite & Hfile & Hhead & Hdl & Hdw); fold len; try lia.
  assert (Hbody :
    (Wave_write.setparams
       (Wave_read._nchannels r, Wave_read._sampwidth r, new_sample_rate,
        Wave_read._nframes r, Wave_read._comptype r, Wave_read._compname r) ;;
     frames <- lift (fst (Wave_read.readframes (Wave_read._nframes r) r)) ;;
     Wave_write.writeframes frames)%py
      (Wave_write.initfp {| f_data := []; f_pos := 0 |}) = (inr tt, s)).
  { rewrite Hct. unfold bind at 1. rewrite setparams_ok by lia.
    unfold bind at 1. fold (frames_of r). rewrite Hdata. unfold lift.
    exact Hwrite. }
  assert (Hclose : Wave_write.close s = (inr tt, s))
    by (apply close_written; congruence).
  unfold change_sample_rate_try, Wave_read.getparams.
  unfold bind at 1. unfold open_rb. unfold bind at 1. unfold get at 1.
  rewrite Hfs. unfold lift at 1. unfold opened in Hopen. rewrite Hopen.
  cbv beta iota zeta. rewrite Hpath. cbv beta iota zeta.
  unfold bind at 1. unfold lift at 1. cbn [Py.add_str]. rewrite <- Eout.
  unfold bind at 1. unfold open_wb. unfold bind at 1.
  unfold store at 1. unfold modify at 1. unfold ret at 1.
  unfold bind at 1. unfold with_Wave_write.
  rewrite Hbody, Hclose, Hfile.
  cbv [bind store modify ret lift print]. cbn [fs stdout].
  eexists. split; [exact Hdata|]. split; [reflexivity|].
  cbn [fs stdout]. split; [|reflexivity].
  intros q. destruct (String.eqb q out); reflexivity.
Qed.

Lemma bytes_eqb_eq a b : bytes_eqb a b = true <-> a = b.
Proof.
  revert b. induction a as [|x a IH]; intros [|y b]; cbn; split;
    try discriminate; try reflexivity.
  - rewrite andb_true_iff. intros [Hxy Hab].
    apply Byte.byte_dec_bl in Hxy. apply IH in Hab. congruence.
  - intros E. inversion E; subst. rewrite andb_true_iff. split.
    + apply Byte.byte_dec_lb. reflexivity.
    + apply IH. reflexivity.
Qed.

(** The rounds [chunk_skip] gives the loop that skips by reading are
    enough: when the loop returns, the chunk is read to its end. *)
Lemma skip_by_reading_enough {F : Type} `{FileLike F} rounds (c c' : _Chunk F) :
  chunksize c - size_read c <= Z.of_nat rounds ->
  skip_by_reading rounds c = inr c' ->
  chunksize c' <= size_read c'.
Proof.
  revert c. induction rounds as [|rounds IH]; intros c Hrounds; cbn [skip_by_reading].
  - intros E; inversion E; subst c'. lia.
  - destruct (Z.ltb_spec (size_read c) (chunksize c)) as [Hlt|Hge].
    2:{ intros E; inversion E; subst c'. lia. }
    destruct (chunk_read _ c) as [dummy c1] eqn:Hread.
    destruct dummy as [|x dummy]; [discriminate|].
    apply IH.
    revert Hread. unfold chunk_read.
    destruct (Z.leb_spec (chunksize c) (size_read c)); [lia|].
    destruct (fl_read _ (file c)) as [d f1].
    case_if.
    + destruct (fl_read 1 f1) as [d2 f2].
      intros E; inversion E; subst d c1. cbn [chunk_with chunksize size_read].
      cbn [List.length]. lia.
    + intros E; inversion E; subst d c1. cbn [chunk_with chunksize size_read].
      cbn [List.length]. lia.
Qed.

(** ** Positions: the loop of initfp ends, and the data chunk lies at
    least 36 bytes into the RIFF chunk *)

Lemma file_read_spec k f d f' :
  file_read k f = (d, f') ->
  f_data f' = f_data f
  /\ f_pos f' = f_pos f + Z.of_nat (List.length d)
  /\ (0 <= f_pos f ->
      Z.of_nat (List.length d)
      <= Z.max 0 (Z.of_nat (List.length (f_data f)) - f_pos f))
  /\ (0 <= k -> Z.of_nat (List.length d) <= k).
Proof.
  unfold file_read. intros E. inversion E; subst d f'; clear E.
  cbn [f_data f_pos]. split; [reflexivity|]. split; [reflexivity|].
  pose proof (length_skipn (Z.to_nat (f_pos f)) (f_data f)) as Hs.
  destruct (Z.ltb_spec k 0).
  - split; [intros; lia|lia].
  - pose proof (firstn_le_length (Z.to_nat k)
                  (skipn (Z.to_nat (f_pos f)) (f_data f))) as H1.
    rewrite length_firstn. split; intros; lia.
Qed.

Lemma riff_read n c d c' :
  riff_inv c ->
  chunk_read n c = (d, c') ->
  riff_inv c' /\ riff_le c c'
  /\ wave.size_read c + Z.of_nat (List.length d) <= wave.size_read c'
  /\ Z.of_nat (List.length d) <= Z.max 0 (remaining c)
  /\ Z.of_nat (List.length d) <= Z.max 0 (chunksize c - size_read c)
  /\ (0 <= n -> Z.of_nat (List.length d) <= n).
Proof.
  intros (Hseek & Hoff & Hsr & Hpos). unfold chunk_read, remaining.
  destruct (Z.leb_spec (chunksize c) (size_read c)).
  { intros E; inversion E; subst d c'. cbn [List.length].
    unfold riff_inv, riff_le. repeat split; try assumption; lia. }
  set (size := if chunksize c - size_read c <? (if n <? 0 then chunksize c - size_read c else n)
               then chunksize c - size_read c
               else (if n <? 0 then chunksize c - size_read c else n)).
  assert (Hsize : 0 <= size <= chunksize c - size_read c /\ (0 <= n -> size <= n)).
  { unfold size. destruct (Z.ltb_spec n 0); case_ltb; lia. }
  cbn [fl_read File_FileLike].
  destruct (file_read size (file c)) as [data f1] eqn:E1.
  apply file_read_spec in E1. destruct E1 as (Hd1 & Hp1 & Hl1 & Hk1).
  specialize (Hl1 ltac:(lia)). specialize (Hk1 ltac:(lia)).
  destruct ((size_read c + Z.of_nat (List.length data) =? chunksize c)
            && align c && Z.odd (chunksize c)).
  - destruct (file_read 1 f1) as [dummy f2] eqn:E2.
    apply file_read_spec in E2. destruct E2 as (Hd2 & Hp2 & _ & _).
    intros E; inversion E; subst d c'; clear E.
    unfold riff_inv, riff_le, chunk_with. cbn [file size_read offset seekable chunksize].
    repeat split; try assumption; try congruence; lia.
  - intros E; inversion E; subst d c'; clear E.
    unfold riff_inv, riff_le, chunk_with. cbn [file size_read offset seekable chunksize].
    repeat split; try assumption; try congruence; lia.
Qed.

Lemma riff_le_refl c : riff_le c c.
Proof. unfold riff_le. repeat split; lia. Qed.

Lemma riff_le_trans a b c : riff_le a b -> riff_le b c -> riff_le a c.
Proof.
  unfold riff_le. intros (A1 & A2 & A3 & A4) (B1 & B2 & B3 & B4).
  repeat split; try congruence; lia.
Qed.

Lemma riff_le_remaining c c' :
  riff_inv c -> riff_inv c' -> riff_le c c' ->
  remaining c' <= remaining c - (size_read c' - size_read c).
Proof.
  unfold riff_inv, riff_le, remaining.
  intros (_ & _ & _ & P) (_ & _ & _ & P') (D & O & _ & S).
  rewrite D, P, P', O. lia.
Qed.

Lemma sub_read n ch d ch' :
  sub_inv ch ->
  chunk_read n ch = (d, ch') ->
  sub_inv ch' /\ riff_le (file ch) (file ch')
  /\ chunksize ch' = chunksize ch
  /\ size_read (file ch) + Z.of_nat (List.length d) <= size_read (file ch')
  /\ Z.of_nat (List.length d) <= Z.max 0 (chunksize (file ch) - size_read (file ch))
  /\ (0 <= n -> Z.of_nat (List.length d) <= n).
Proof.
  intros (Hriff & Hseek & Halign & Hsr0 & Hsr). unfold chunk_read at 1.
  destruct (Z.leb_spec (chunksize ch) (size_read ch)).
  { intros E; inversion E; subst d ch'. cbn [List.length].
    split; [unfold sub_inv; auto|]. split; [apply riff_le_refl|].
    repeat split; lia. }
  set (size := if chunksize ch - size_read ch <? (if n <? 0 then chunksize ch - size_read ch else n)
               then chunksize ch - size_read ch
               else (if n <? 0 then chunksize ch - size_read ch else n)).
  assert (Hsize : 0 <= size <= chunksize ch - size_read ch /\ (0 <= n -> size <= n)).
  { unfold size. destruct (Z.ltb_spec n 0); case_ltb; lia. }
  cbn [fl_read Chunk_FileLike].
  destruct (chunk_read size (file ch)) as [data f1] eqn:E1.
  apply (riff_read _ _ _ _ Hriff) in E1.
  destruct E1 as (Hinv1 & Hle1 & Hs1 & _ & Hc1 & Hk1).
  specialize (Hk1 ltac:(lia)).
  rewrite Halign.
  destruct (Z.eqb_spec (size_read ch + Z.of_nat (List.length data)) (chunksize ch)) as [He|He];
    cbn [andb].
  - destruct (Z.odd (chunksize ch)) eqn:Hodd.
    + destruct (chunk_read 1 f1) as [dummy f2] eqn:E2.
      apply (riff_read _ _ _ _ Hinv1) in E2.
      destruct E2 as (Hinv2 & Hle2 & _ & _ & _ & Hk2).
      specialize (Hk2 ltac:(lia)).
      intros E; inversion E; subst d ch'; clear E.
      unfold chunk_with. cbn [file size_read chunksize].
      pose proof (riff_le_trans _ _ _ Hle1 Hle2) as Hle.
      destruct Hle2 as (_ & _ & _ & Hmono).
      split.
      { unfold sub_inv. cbn [file size_read offset seekable chunksize align].
        rewrite Hodd. split; [exact Hinv2|]. split; [assumption|].
        split; [assumption|]. split; lia. }
      split; [exact Hle|]. split; [reflexivity|]. split; [lia|]. split; lia.
    + intros E; inversion E; subst d ch'; clear E.
      unfold chunk_with. cbn [file size_read chunksize].
      split.
      { unfold sub_inv. cbn [file size_read offset seekable chunksize align].
        rewrite Hodd. split; [exact Hinv1|]. split; [assumption|].
        split; [assumption|]. split; lia. }
      split; [exact Hle1|]. split; [reflexivity|]. split; [lia|]. split; lia.
  - intros E; inversion E; subst d ch'; clear E.
    unfold chunk_with. cbn [file size_read chunksize].
    split.
    { unfold sub_inv. cbn [file size_read offset seekable chunksize align].
      split; [exact Hinv1|]. split; [assumption|].
      split; [assumption|]. split; [lia|].
      destruct (Z.odd (chunksize ch)); lia. }
    split; [exact Hle1|]. split; [reflexivity|]. split; [lia|]. split; lia.
Qed.

Lemma sub_skip ch ch' :
  sub_inv ch ->
  chunk_skip ch = inr ch' ->
  riff_inv (file ch') /\ riff_le (file ch) (file ch').
Proof.
  intros (Hriff & Hseek & Halign & Hsr0 & Hsr). unfold chunk_skip.
  rewrite Hseek, Halign. cbn [andb].
  set (n := if Z.odd (chunksize ch) then chunksize ch - size_read ch + 1
            else chunksize ch - size_read ch).
  assert (Hn : 0 <= n) by (unfold n; destruct (Z.odd (chunksize ch)); lia).
  cbn [fl_seek Chunk_FileLike]. unfold chunk_seek.
  destruct Hriff as (Hs & Hoff & Hsr1 & Hpos). rewrite Hs. cbn [negb].
  change (1 =? 1) with true. cbv iota.
  destruct (Z.ltb_spec (n + size_read (file ch)) 0); [lia|]. cbn [orb].
  destruct (Z.ltb_spec (chunksize (file ch)) (n + size_read (file ch)));
    [discriminate|].
  cbn [fl_seek File_FileLike]. unfold file_seek.
  change (0 =? 1) with false. change (0 =? 2) with false. cbv iota.
  destruct (Z.ltb_spec (offset (file ch) + (n + size_read (file ch))) 0); [lia|].
  cbn [rbind]. intros E; inversion E; subst ch'; clear E.
  unfold riff_inv, riff_le, chunk_with.
  cbn [file size_read offset seekable chunksize f_data f_pos].
  repeat split; try assumption; lia.
Qed.

Lemma sub_init c ch :
  riff_inv c ->
  Chunk_init c = inr ch ->
  sub_inv ch /\ riff_le c (file ch)
  /\ size_read ch = 0
  /\ size_read c + 8 <= size_read (file ch)
  /\ 4 <= remaining c.
Proof.
  intros Hriff. unfold Chunk_init.
  cbn [fl_read Chunk_FileLike].
  destruct (chunk_read 4 c) as [name f1] eqn:E1.
  apply (riff_read _ _ _ _ Hriff) in E1.
  destruct E1 as (Hinv1 & Hle1 & Hs1 & Hrem1 & _).
  destruct (Nat.ltb_spec (List.length name) 4); [discriminate|].
  destruct (chunk_read 4 f1) as [raw f2] eqn:E2.
  apply (riff_read _ _ _ _ Hinv1) in E2.
  destruct E2 as (Hinv2 & Hle2 & Hs2 & _).
  unfold struct.unpack_from. cbn [struct.calcsize struct.size].
  destruct (Nat.ltb_spec (List.length raw) (4 + 0)); [discriminate|].
  intros E; inversion E; subst ch; clear E.
  unfold sub_inv. cbn [file size_read offset seekable chunksize align].
  cbn [struct.unpack_fields nth struct.size].
  match goal with
  | |- context [struct.le_value ?x] =>
      pose proof (le_value_lt x 4 (firstn_le_length 4 raw)) as Hv;
      generalize dependent (struct.le_value x); intros v Hv
  end.
  split.
  { split; [assumption|]. split; [reflexivity|]. split; [reflexivity|].
    split; [lia|]. destruct (Z.odd v); lia. }
  split; [apply (riff_le_trans _ _ _ Hle1 Hle2)|].
  split; [reflexivity|]. split; lia.
Qed.

Lemma sub_read_fmt chunk self self' chunk' :
  sub_inv chunk ->
  Wave_read._read_fmt_chunk chunk self = inr (self', chunk') ->
  sub_inv chunk' /\ riff_le (file chunk) (file chunk')
  /\ size_read (file chunk) + 16 <= size_read (file chunk')
  /\ Wave_read._file self' = Wave_read._file self
  /\ Wave_read._fmt_chunk_read self' = Wave_read._fmt_chunk_read self.
Proof.
  intros Hinv. unfold Wave_read._read_fmt_chunk.
  destruct (chunk_read 14 chunk) as [raw c1] eqn:E1.
  apply (sub_read _ _ _ _ Hinv) in E1.
  destruct E1 as (Hinv1 & Hle1 & _ & Hs1 & _).
  unfold struct.unpack_from at 1. cbn [struct.calcsize struct.size].
  destruct (Nat.ltb_spec (List.length raw) (2 + (2 + (4 + (4 + (2 + 0))))));
    [discriminate|].
  destruct (negb _ && negb _); [discriminate|].
  destruct (chunk_read 2 c1) as [raw2 c2] eqn:E2.
  apply (sub_read _ _ _ _ Hinv1) in E2.
  destruct E2 as (Hinv2 & Hle2 & _ & Hs2 & _).
  unfold struct.unpack_from at 1. cbn [struct.calcsize struct.size].
  destruct (Nat.ltb_spec (List.length raw2) (2 + 0)); [discriminate|].
  pose proof (riff_le_trans _ _ _ Hle1 Hle2) as Hle12.
  match goal with
  | |- rbind ?e _ = _ -> _ =>
      assert (Hext : forall c3, e = inr c3 ->
                sub_inv c3 /\ riff_le (file c2) (file c3));
      [|destruct e as [err|c3]; [discriminate|]]
  end.
  { intros c3. destruct (_ =? WAVE_FORMAT_EXTENSIBLE).
    - destruct (chunk_read 8 c2) as [raw3 c2'] eqn:E3.
      apply (sub_read _ _ _ _ Hinv2) in E3.
      destruct E3 as (Hinv3 & Hle3 & _).
      destruct (struct.unpack_from _ raw3); [|discriminate].
      destruct (chunk_read 16 c2') as [sub c2''] eqn:E4.
      apply (sub_read _ _ _ _ Hinv3) in E4.
      destruct E4 as (Hinv4 & Hle4 & _).
      destruct (Nat.ltb (List.length sub) 16); [discriminate|].
      destruct (negb _); [discriminate|].
      intros E; inversion E; subst c3.
      split; [assumption|]. apply (riff_le_trans _ _ _ Hle3 Hle4).
    - intros E; inversion E; subst c3. split; [assumption|apply riff_le_refl]. }
  destruct (Hext c3 eq_refl) as (Hinv3 & Hle3).
  cbn [rbind].
  destruct (_ =? 0); [discriminate|]. destruct (_ =? 0); [discriminate|].
  intros E; inversion E; subst self' chunk'; clear E.
  split; [assumption|].
  split; [apply (riff_le_trans _ _ _ Hle12 Hle3)|].
  destruct Hle3 as (_ & _ & _ & Hm3).
  split; [lia|]. split; reflexivity.
Qed.

(** One round of the loop of [initfp] leaves the loop, or goes on at
    least 4 bytes further in the file. *)
Lemma initfp_loop_total rounds self :
  riff_inv (Wave_read._file self) ->
  remaining (Wave_read._file self) < 4 * (Z.of_nat rounds + 1) ->
  Wave_read.initfp_loop (S rounds) self <> None.
Proof.
  revert self. induction rounds as [|rounds IH]; intros self Hriff Hrem;
    rewrite initfp_loop_S; cbv zeta;
    change (Wave_read._file (Wave_read.set_data_seek_needed true self))
      with (Wave_read._file self);
    (destruct (Chunk_init (Wave_read._file self)) as [e|chunk] eqn:Hc;
     [destruct e; discriminate|]);
    destruct (sub_init _ _ Hriff Hc) as (Hsub & Hle & Hsr & H8 & Hr4).
  - lia.
  - assert (Hnext : forall (chunk' : _Chunk (_Chunk File)) self',
              riff_inv (file chunk') -> riff_le (file chunk) (file chunk') ->
              Wave_read.initfp_loop (S rounds)
                (Wave_read.set_file (file chunk') self') <> None).
    { intros chunk' self' Hinv' Hle'. apply IH.
      - exact Hinv'.
      - cbn [Wave_read._file Wave_read.set_file].
        pose proof (riff_le_trans _ _ _ Hle Hle') as Hle2.
        pose proof (riff_le_remaining _ _ Hriff Hinv' Hle2).
        destruct Hle' as (_ & _ & _ & Hm'). lia. }
    destruct (bytes_eqb (chunkname chunk) b_fmt).
    + destruct (Wave_read._read_fmt_chunk _ _) as [e|[self1 chunk1]] eqn:Hf;
        [discriminate|].
      destruct (sub_read_fmt _ _ _ _ Hsub Hf) as (Hsub1 & Hle1 & _).
      destruct (chunk_skip chunk1) as [e|chunk2] eqn:Hs; [discriminate|].
      destruct (sub_skip _ _ Hsub1 Hs) as (Hinv2 & Hle2).
      apply Hnext; [assumption|]. apply (riff_le_trans _ _ _ Hle1 Hle2).
    + destruct (bytes_eqb (chunkname chunk) b_data).
      * destruct (negb _); discriminate.
      * destruct (chunk_skip chunk) as [e|chunk2] eqn:Hs; [discriminate|].
        destruct (sub_skip _ _ Hsub Hs) as (Hinv2 & Hle2).
        apply Hnext; assumption.
Qed.

(** The data chunk of the object the loop builds lies at least 36 bytes
    into the RIFF chunk. *)
Lemma initfp_loop_pos rounds self r :
  loop_inv self -> loop_pos self ->
  Wave_read.initfp_loop rounds self = Some (inr r) -> reader_pos r.
Proof.
  revert self. induction rounds as [|rounds IH]; intros self Inv Hpos;
    [discriminate|].
  rewrite initfp_loop_S. cbv zeta.
  destruct Hpos as (Hriff & H4 & Hsz & Hfmt).
  change (Wave_read._file (Wave_read.set_data_seek_needed true self))
    with (Wave_read._file self).
  destruct (Chunk_init (Wave_read._file self)) as [e|chunk] eqn:Hc.
  { destruct e; intros E; inversion E as [E'].
    apply initfp_end_ok in E'. destruct E' as (_ & _ & c & Hd).
    destruct Inv as (Hnone & _). cbn in Hd. congruence. }
  destruct (sub_init _ _ Hriff Hc) as (Hsub & Hle & Hsr & H8 & _).
  assert (Hnext : forall (chunk' : _Chunk (_Chunk File)) self',
            loop_inv (Wave_read.set_file (file chunk') self') ->
            riff_inv (file chunk') -> riff_le (file chunk) (file chunk') ->
            (Wave_read._fmt_chunk_read self' = true ->
             28 <= size_read (file chunk')) ->
            Wave_read.initfp_loop rounds (Wave_read.set_file (file chunk') self')
            = Some (inr r) -> reader_pos r).
  { intros chunk' self' Inv' Hinv' Hle' H28. apply IH; [exact Inv'|].
    pose proof (riff_le_trans _ _ _ Hle Hle') as (_ & _ & Hcs & Hm).
    split; [exact Hinv'|]. cbn [Wave_read._file Wave_read.set_file].
    split; [lia|]. split; [lia|]. exact H28. }
  destruct (bytes_eqb (chunkname chunk) b_fmt).
  - destruct (Wave_read._read_fmt_chunk _ _) as [e|[self1 chunk1]] eqn:Hf;
      [discriminate|].
    destruct (sub_read_fmt _ _ _ _ Hsub Hf) as (Hsub1 & Hle1 & H16 & _).
    apply _read_fmt_chunk_ok in Hf. destruct Hf as (Hfmt1 & Hdc & Hsp).
    destruct (chunk_skip chunk1) as [e|chunk2] eqn:Hs; [discriminate|].
    destruct (sub_skip _ _ Hsub1 Hs) as (Hinv2 & Hle2).
    apply Hnext.
    + destruct Inv as (Hnone & Hpos & _).
      split; [|split].
      * cbn in *. congruence.
      * cbn in *. congruence.
      * intros _. exact Hfmt1.
    + assumption.
    + apply (riff_le_trans _ _ _ Hle1 Hle2).
    + intros _. destruct Hle2 as (_ & _ & _ & Hm2). lia.
  - destruct (bytes_eqb (chunkname chunk) b_data).
    + destruct (Wave_read._fmt_chunk_read _) eqn:Hread; [|discriminate].
      cbn [negb]. intros E. inversion E as [E']. clear E.
      apply initfp_end_ok in E'. destruct E' as (-> & _ & _).
      exists chunk. cbn [Wave_read._data_chunk Wave_read.set_data_seek_needed
                         Wave_read.set_nframes Wave_read.set_data_chunk].
      split; [reflexivity|]. split; [assumption|]. split; [assumption|].
      specialize (Hfmt eq_refl).
      destruct Hle as (_ & _ & Hcs & _). split; lia.
    + destruct (chunk_skip chunk) as [e|chunk2] eqn:Hs; [discriminate|].
      destruct (sub_skip _ _ Hsub Hs) as (Hinv2 & Hle2).
      apply Hnext.
      * exact Inv.
      * assumption.
      * assumption.
      * intros Hread. cbn in Hread. specialize (Hfmt Hread).
        destruct Hle2 as (_ & _ & _ & Hm2). lia.
Qed.

(** The state in which [initfp] enters its loop. *)
Lemma initfp_enters_loop f riff form riff' :
  0 <= f_pos f ->
  Chunk_init f = inr riff ->
  chunk_read 4 riff = (form, riff') ->
  bytes_eqb form b_WAVE = true ->
  riff_inv riff' /\ 4 <= size_read riff' /\ chunksize riff' < 4294967296
  /\ f_data (file riff') = f_data f
  /\ 12 <= f_pos (file riff').
Proof.
  intros Hpos Hinit Hread Hform.
  assert (Hriff : riff_inv riff /\ chunksize riff < 4294967296
                  /\ f_data (file riff) = f_data f /\ offset riff = f_pos f + 8
                  /\ size_read riff = 0).
  { revert Hinit. unfold Chunk_init. cbn [fl_read fl_tell File_FileLike].
    destruct (file_read 4 f) as [name f1] eqn:E1.
    apply file_read_spec in E1. destruct E1 as (Hd1 & Hp1 & _ & Hk1).
    specialize (Hk1 ltac:(lia)).
    destruct (Nat.ltb_spec (List.length name) 4); [discriminate|].
    destruct (file_read 4 f1) as [raw f2] eqn:E2.
    apply file_read_spec in E2. destruct E2 as (Hd2 & Hp2 & _ & Hk2).
    specialize (Hk2 ltac:(lia)).
    unfold struct.unpack_from. cbn [struct.calcsize struct.size].
    destruct (Nat.ltb_spec (List.length raw) (4 + 0)); [discriminate|].
    intros E; inversion E; subst riff; clear E.
    unfold riff_inv, file_tell.
    cbn [file size_read offset seekable chunksize struct.unpack_fields nth struct.size].
    match goal with
    | |- context [struct.le_value ?x] =>
        pose proof (le_value_lt x 4 (firstn_le_length 4 raw)) as Hv;
        generalize dependent (struct.le_value x); intros v Hv
    end.
    repeat split; try lia; congruence. }
  destruct Hriff as (Hinv & Hsz & Hdata & Hoff & Hsr).
  destruct (riff_read _ _ _ _ Hinv Hread) as (Hinv' & Hle & Hs & _).
  apply bytes_eqb_eq in Hform. subst form. cbn [List.length b_WAVE] in Hs.
  destruct Hle as (Hd & Ho & Hc & _).
  split; [exact Hinv'|]. split; [lia|]. split; [lia|]. split; [congruence|].
  destruct Hinv' as (_ & _ & _ & Hp). lia.
Qed.

(** [initfp] never runs out of rounds: the value it gives for that case
    is never returned on that account. *)
Lemma initfp_rounds_suffice f riff form riff' self :
  0 <= f_pos f ->
  Chunk_init f = inr riff ->
  chunk_read 4 riff = (form, riff') ->
  bytes_eqb form b_WAVE = true ->
  Wave_read._file self = riff' ->
  Wave_read.initfp_loop (S (List.length (f_data f))) self <> None.
Proof.
  intros Hpos Hinit Hread Hform Hself.
  destruct (initfp_enters_loop _ _ _ _ Hpos Hinit Hread Hform)
    as (Hinv & _ & _ & Hdata & H12).
  apply initfp_loop_total.
  - rewrite Hself. exact Hinv.
  - rewrite Hself. unfold remaining. rewrite Hdata. lia.
Qed.

Lemma initfp_pos bs r : Wave_read.initfp (opened bs) = inr r -> reader_pos r.
Proof.
  unfold Wave_read.initfp.
  destruct (Chunk_init (opened bs)) as [e|riff] eqn:Hinit; [discriminate|].
  cbn [rbind].
  destruct (negb _); [discriminate|].
  destruct (chunk_read 4 riff) as [form riff'] eqn:Hread.
  destruct (bytes_eqb form b_WAVE) eqn:Hform; [|discriminate]. cbn [negb].
  destruct (Wave_read.initfp_loop _ _) as [[e|r']|] eqn:Hloop; try discriminate.
  intros E. inversion E; subst r'.
  destruct (initfp_enters_loop (opened bs) _ _ _ ltac:(cbn; lia) Hinit Hread Hform)
    as (Hinv & H4 & Hsz & _).
  apply initfp_loop_pos in Hloop; [assumption| |].
  - split; [reflexivity|]. split; [reflexivity|]. cbn. discriminate.
  - split; [exact Hinv|]. cbn [Wave_read._file Wave_read._fmt_chunk_read].
    split; [lia|]. split; [lia|]. discriminate.
Qed.

(** The frames read from an opened file fit, with the 36 bytes in front
    of them, in the 32 bits of the RIFF size. *)
Lemma frames_of_size bs r data :
  Wave_read.initfp (opened bs) = inr r ->
  frames_of r = inr data ->
  36 + Z.of_nat (List.length data) < 4294967296.
Proof.
  intros Hopen Hdata.
  pose proof (initfp_ok _ _ Hopen) as (_ & _ & Hseek & c0 & Hc0 & _).
  destruct (initfp_pos _ _ Hopen) as (c & Hc & Hsub & Hsr & H36 & Hsz).
  unfold frames_of in Hdata. rewrite (fst_readframes _ _ c Hc Hseek) in Hdata.
  inversion Hdata as [Hd]. clear Hdata.
  destruct (_ =? 0); [cbn; lia|].
  destruct (chunk_read _ c) as [d c'] eqn:E.
  destruct (sub_read _ _ _ _ Hsub E) as (_ & _ & _ & _ & Hlen & _).
  cbn [fst]. lia.
Qed.

(** ** The output file of a successful run, read again *)

Lemma output_path_has_sep input_wav old new :
  has_sep input_wav -> exists out, output_path input_wav old new = inr out.
Proof.
  intros Hs. pose proof (end_of_path_last_sep input_wav) as L.
  pose proof (has_sep_last_sep_nonneg _ _ Hs L) as He.
  unfold output_path. rewrite (get_path_name_eq _ _ L).
  destruct (Z.leb_spec 0 (Z.max (Py.rfind input_wav "/"%char) (Py.rfind input_wav "\"%char)));
    [|lia].
  cbn. eauto.
Qed.

Lemma read_written_file nch sw rate data :
  let len := Z.of_nat (List.length data) in
  1 <= nch -> 1 <= sw <= 4 -> 0 < rate ->
  nch * sw < 65536 -> nch * rate * sw < 4294967296 ->
  36 + len < 4294967296 ->
  read_params (wav_header nch sw rate len ++ data)
  = inr (nch, sw, rate, len / (nch * sw), "NONE", "not compressed")
  /\ read_frames (wav_header nch sw rate len ++ data)
     = inr (firstn (Z.to_nat (len / (nch * sw) * (nch * sw))) data).
Proof.
  intros len Hn Hs Hr Ha Hb Hl.
  unfold read_params, read_frames, opened.
  pose proof (initfp_written nch sw rate data Hn Hs Hr Ha Hb Hl) as Hinit.
  cbv zeta in Hinit. fold len in Hinit. rewrite Hinit. cbn [rbind]. split; [reflexivity|].
  unfold frames_of. cbn [written_reader Wave_read._nframes].
  apply readframes_written; [lia|lia|reflexivity].
Qed.

(** A run on a valid input, named with a directory, for a rate that fits
    the header: the output file is written and [wave] reads from it the
    parameters of the input with the new rate and the frames of the
    input. *)
Lemma change_sample_rate_valid w input_wav new_sample_rate bs r data :
  fs w input_wav = Some bs ->
  valid_wav bs r data ->
  has_sep input_wav ->
  0 < new_sample_rate ->
  Wave_read._nchannels r * new_sample_rate * Wave_read._sampwidth r < 4294967296 ->
  exists out out_bs,
    output_path input_wav (Wave_read._framerate r) new_sample_rate = inr out
    /\ fs (change_sample_rate input_wav new_sample_rate w) out = Some out_bs
    /\ stdout (change_sample_rate input_wav new_sample_rate w)
       = stdout w ++ [success_line (Wave_read._framerate r) new_sample_rate out]
    /\ read_params out_bs
       = inr (Wave_read._nchannels r, Wave_read._sampwidth r, new_sample_rate,
              Wave_read._nframes r, "NONE", "not compressed")
    /\ read_frames out_bs = inr data.
Proof.
  intros Hfs [Hreads Hframes Hcomplete Hwidth Halign] Hsep Hrate Hbyte.
  pose proof (frames_of_size _ _ _ Hreads Hframes) as Hsize.
  rewrite Hcomplete in Hsize.
  destruct (output_path_has_sep input_wav (Wave_read._framerate r) new_sample_rate Hsep)
    as (out & Hout).
  destruct (change_sample_rate_try_ok w input_wav new_sample_rate bs r out
              Hfs Hreads Hout Hwidth Halign Hsize Hrate Hbyte)
    as (data' & w' & Hdata' & Htry & Hfs' & Hstdout).
  assert (data' = data) by congruence. subst data'.
  pose proof (initfp_ok _ _ Hreads) as ((Hn & Hs & _ & Hfsz & _) & _).
  exists out. eexists.
  unfold change_sample_rate. rewrite Htry.
  split; [exact Hout|]. split; [rewrite Hfs', String.eqb_refl; reflexivity|].
  split; [exact Hstdout|].
  destruct (read_written_file (Wave_read._nchannels r) (Wave_read._sampwidth r)
              new_sample_rate data) as (Hp & Hf); try lia.
  rewrite Hp, Hf, Hcomplete, Hfsz.
  assert (0 < Wave_read._nchannels r * Wave_read._sampwidth r) by nia.
  rewrite Z.div_mul by lia.
  split; [reflexivity|].
  rewrite <- Hfsz, <- Hcomplete, Nat2Z.id, firstn_all. reflexivity.
Qed.

(** The output file is never the input file: its name is longer.  (The
    [Wave_read] object of the model keeps the content the input file had
    when it was opened; opening the output file for writing does not
    touch it.) *)
Lemma output_path_differs input_wav old new out :
  output_path input_wav old new = inr out -> out <> input_wav.
Proof.
  intros Hout Heq.
  assert (Hlen : (String.length input_wav < String.length out)%nat);
    [|rewrite Heq in Hlen; lia].
  pose proof (end_of_path_last_sep input_wav) as L.
  pose proof (last_sep_at_lt_len _ _ L) as Hlt.
  revert Hout. unfold output_path. rewrite (get_path_name_eq _ _ L).
  set (e := Z.max (Py.rfind input_wav "/"%char) (Py.rfind input_wav "\"%char)) in *.
  destruct (Z.leb_spec 0 e) as [He|He]; [|discriminate].
  cbn [Py.add_str rbind]. intros E. inversion E; subst out; clear E.
  unfold output_name, Py.len in *. rewrite !length_append.
  rewrite !length_substring by lia.
  cbn [String.length]. lia.
Qed.

(** ** Runs that fail *)

(** A file that does not start with [RIFF] is refused by [initfp]: with
    [Error] when it holds the 8 bytes of a chunk header, with [EOFError]
    when it is shorter. *)
Lemma initfp_not_riff bs :
  firstn 4 bs <> b_RIFF ->
  Wave_read.initfp (opened bs)
  = inl (if (8 <=? List.length bs)%nat
         then Error "file does not start with RIFF id"
         else EOFError).
Proof.
  intros Hne. unfold Wave_read.initfp, Chunk_init, opened.
  cbn [fl_read File_FileLike]. unfold file_read. cbn [f_pos f_data].
  change (4 <? 0) with false. cbv iota.
  change (Z.to_nat 0) with 0%nat. change (Z.to_nat 4) with 4%nat.
  cbn [skipn].
  rewrite !length_firstn, length_skipn.
  destruct (Nat.ltb_spec (Nat.min 4 (List.length bs)) 4) as [H4|H4].
  - destruct (Nat.leb_spec 8 (List.length bs)); [lia|reflexivity].
  - replace (Z.to_nat (0 + Z.of_nat (Nat.min 4 (List.length bs)))) with 4%nat by lia.
    unfold struct.unpack_from. rewrite length_firstn, length_skipn.
    cbn [struct.calcsize struct.size].
    destruct (Nat.ltb_spec (Nat.min 4 (List.length bs - 4)) (4 + 0)) as [H8|H8].
    + destruct (Nat.leb_spec 8 (List.length bs)); [lia|reflexivity].
    + destruct (Nat.leb_spec 8 (List.length bs)); [|lia].
      cbn [rbind chunkname].
      destruct (bytes_eqb (firstn 4 bs) b_RIFF) eqn:E.
      * apply bytes_eqb_eq in E. contradiction.
      * reflexivity.
Qed.

(** [setparams] with a rate that is not positive raises, and leaves an
    object on which [close()] raises as well: nothing is written. *)
Lemma setparams_close_bad_rate f nch sw rate nf ct cn (k : M Wave_write.t unit) :
  1 <= nch -> rate <= 0 ->
  exists e s,
    (Wave_write.setparams (nch, sw, rate, nf, ct, cn) ;; k)%py
      (Wave_write.initfp f) = (inl e, s)
    /\ Wave_write._file s = f
    /\ exists e',
         Wave_write.close s = (inl e', s)
         /\ (1 <= sw <= 4 -> e' = Error "sampling rate not specified").
Proof.
  intros Hn Hr.
  unfold Wave_write.setparams, Wave_write.setnchannels, Wave_write.setsampwidth,
    Wave_write.setframerate, Wave_write.check_not_written, Wave_write.initfp,
    Wave_write.close, Wave_write._ensure_header_written.
  unfold bind, get, ret, raise, modify.
  cbn -[Z.ltb Z.leb Z.eqb].
  change (0 =? 0) with true. cbn -[Z.ltb Z.leb Z.eqb].
  destruct (Z.ltb_spec nch 1); [lia|].
  cbn -[Z.ltb Z.leb Z.eqb].
  destruct (Z.ltb_spec sw 1); cbn -[Z.ltb Z.leb Z.eqb].
  - do 2 eexists. split; [reflexivity|]. split; [reflexivity|].
    cbn -[Z.ltb Z.leb Z.eqb].
    destruct (Z.eqb_spec nch 0); [lia|].
    eexists. split; [reflexivity|]. lia.
  - destruct (Z.ltb_spec 4 sw); cbn -[Z.ltb Z.leb Z.eqb].
    + do 2 eexists. split; [reflexivity|]. split; [reflexivity|].
      cbn -[Z.ltb Z.leb Z.eqb].
      destruct (Z.eqb_spec nch 0); [lia|].
      eexists. split; [reflexivity|]. lia.
    + destruct (Z.leb_spec rate 0); [|lia]. cbn -[Z.ltb Z.leb Z.eqb].
      do 2 eexists. split; [reflexivity|]. split; [reflexivity|].
      cbn -[Z.ltb Z.leb Z.eqb].
      destruct (Z.eqb_spec nch 0); [lia|].
      destruct (Z.eqb_spec sw 0); [lia|].
      eexists. split; [reflexivity|]. reflexivity.
Qed.

Lemma has_sep_path input_wav :
  has_sep input_wav ->
  exists path, get_path_name input_wav = (Some path, snd (get_path_name input_wav)).
Proof.
  intros Hs. pose proof (end_of_path_last_sep input_wav) as L.
  pose proof (has_sep_last_sep_nonneg _ _ Hs L) as He.
  rewrite (get_path_name_eq _ _ L).
  destruct (Z.leb_spec 0 (Z.max (Py.rfind input_wav "/"%char) (Py.rfind input_wav "\"%char)));
    [|lia].
  cbn. eauto.
Qed.

Lemma change_sample_rate_try_bad_rate w input_wav new_sample_rate :
  new_sample_rate <= 0 ->
  exists e w1,
    change_sample_rate_try input_wav new_sample_rate w = (inl e, w1)
    /\ stdout w1 = stdout w
    /\ (forall q, fs w1 q = fs w q \/ fs w1 q = Some [])
    /\ (forall bs r,
          fs w input_wav = Some bs ->
          Wave_read.initfp (opened bs) = inr r ->
          has_sep input_wav ->
          Wave_read._sampwidth r <= 4 ->
          e = Error "sampling rate not specified").
Proof.
  intros Hrate.
  unfold change_sample_rate_try.
  unfold bind at 1. unfold open_rb. unfold bind at 1. unfold get at 1.
  destruct (fs w input_wav) as [bs|] eqn:Hfs.
  2:{ exists (FileNotFoundError input_wav), w. cbn.
      split; [reflexivity|]. split; [reflexivity|]. split; [auto|].
      intros; discriminate. }
  unfold lift at 1. fold (opened bs).
  destruct (Wave_read.initfp (opened bs)) as [e|r] eqn:Hopen.
  { exists e, w. split; [reflexivity|]. split; [reflexivity|]. split; [auto|].
    intros bs' r' E. inversion E; subst. congruence. }
  pose proof (initfp_ok _ _ Hopen) as ((Hn & Hs & _) & _).
  unfold Wave_read.getparams. cbv beta iota zeta.
  destruct (get_path_name input_wav) as [[path|] name] eqn:Hpath.
  2:{ eexists _, w. cbn. split; [reflexivity|]. split; [reflexivity|].
      split; [auto|]. intros _ _ _ _ Hsep _.
      destruct (has_sep_path _ Hsep) as (p & Hp). congruence. }
  unfold bind at 1. unfold lift at 1. cbn [Py.add_str].
  unfold bind at 1. unfold open_wb. unfold bind at 1.
  unfold store at 1. unfold modify at 1. unfold ret at 1.
  unfold bind at 1. unfold with_Wave_write.
  match goal with
  | |- context [(Wave_write.setparams ?p ;; ?k)%py (Wave_write.initfp ?f)] =>
      destruct (setparams_close_bad_rate f
                  (Wave_read._nchannels r) (Wave_read._sampwidth r) new_sample_rate
                  (Wave_read._nframes r) (Wave_read._comptype r) (Wave_read._compname r)
                  k ltac:(lia) Hrate)
        as (e & s & Hbody & Hfile & e' & Hclose & He')
  end.
  rewrite Hbody, Hclose, Hfile.
  cbv [bind store modify ret lift raise]. cbn [fs stdout f_data].
  exists e'. eexists. split; [reflexivity|]. cbn [fs stdout].
  split; [reflexivity|]. split.
  - intros q. destruct (String.eqb q _); auto.
  - intros bs' r' E1 E2 _ Hw. inversion E1; subst bs'.
    assert (r' = r) by congruence. subst r'. apply He'. lia.
Qed.

(** * The claims *)

Ltac sample_valid :=
  constructor; [vm_compute; reflexivity | vm_compute; reflexivity
               | vm_compute; reflexivity | cbn; lia | cbn; lia].

Ltac sep_at n c := exists n, c; split; reflexivity.

(** C1 (amended).  For a valid WAV input file ([valid_wav]: read by
    [wave] with all the frames its header announces, samples of at most
    4 bytes, block align below 2^16) named by a path with a directory
    part, and a positive new sample rate for which
    channels x rate x sample width fits the 32-bit byte-rate field of the
    header, the run writes the output file, and the frames [wave] reads
    from it are byte for byte the frames it reads from the input. *)
Theorem frames_copied_verbatim w input_wav new_sample_rate bs r data :
  fs w input_wav = Some bs ->
  valid_wav bs r data ->
  has_sep input_wav ->
  0 < new_sample_rate ->
  Wave_read._nchannels r * new_sample_rate * Wave_read._sampwidth r < 4294967296 ->
  exists out out_bs,
    output_path input_wav (Wave_read._framerate r) new_sample_rate = inr out
    /\ fs (change_sample_rate input_wav new_sample_rate w) out = Some out_bs
    /\ read_frames bs = inr data
    /\ read_frames out_bs = inr data.
Proof.
  intros Hfs Hvalid Hsep Hrate Hbyte.
  destruct (change_sample_rate_valid w input_wav new_sample_rate bs r data
              Hfs Hvalid Hsep Hrate Hbyte)
    as (out & out_bs & Hout & Hfile & _ & _ & Hframes).
  exists out, out_bs. repeat split; try assumption.
  unfold read_frames. rewrite (valid_reads _ _ _ Hvalid). cbn [rbind].
  exact (valid_frames _ _ _ Hvalid).
Qed.

Lemma frames_copied_verbatim_witness :
  valid_wav sample_wav (written_reader sample_wav 1 2 48000 8) sample_frames
  /\ has_sep "dir/input.wav"
  /\ exists out out_bs,
       output_path "dir/input.wav" 48000 50400 = inr out
       /\ fs (change_sample_rate "dir/input.wav" 50400
                (one_file "dir/input.wav" sample_wav)) out = Some out_bs
       /\ read_frames sample_wav = inr sample_frames
       /\ read_frames out_bs = inr sample_frames.
Proof.
  split; [sample_valid|]. split; [sep_at 3%nat "/"%char|].
  apply (frames_copied_verbatim (one_file "dir/input.wav" sample_wav)
           "dir/input.wav" 50400 sample_wav
           (written_reader sample_wav 1 2 48000 8) sample_frames).
  - reflexivity.
  - sample_valid.
  - sep_at 3%nat "/"%char.
  - lia.
  - cbn. lia.
Defined.

(** C1 as stated fails: the input is valid and the new rate positive,
    but the rate 2^32 does not fit the header.  [struct.pack] raises
    after [RIFF] has been written, [close()] raises again, and the output
    file holds [RIFFRIFF]: it has no frames. *)
Lemma frames_lost_rate_too_large :
  let w' := change_sample_rate "dir/input.wav" 4294967296
              (one_file "dir/input.wav" sample_wav) in
  valid_wav sample_wav (written_reader sample_wav 1 2 48000 8) sample_frames
  /\ 0 < 4294967296
  /\ output_path "dir/input.wav" 48000 4294967296
     = inr "dir/input--sample_rate_changed__48000_to_4294967296.wav"
  /\ fs w' "dir/input--sample_rate_changed__48000_to_4294967296.wav"
     = Some (b_RIFF ++ b_RIFF)
  /\ stdout w' = ["Error: 'L' format requires 0 <= number <= 4294967295"]
  /\ read_frames sample_wav = inr sample_frames
  /\ ~ (exists out_bs,
          fs w' "dir/input--sample_rate_changed__48000_to_4294967296.wav"
          = Some out_bs
          /\ read_frames out_bs = read_frames sample_wav).
Proof.
  cbv zeta.
  split; [sample_valid|]. split; [lia|].
  split; [vm_compute; reflexivity|]. split; [vm_compute; reflexivity|].
  split; [vm_compute; reflexivity|]. split; [vm_compute; reflexivity|].
  intros (out_bs & Hfile & Hframes).
  vm_compute in Hfile. inversion Hfile; subst out_bs.
  vm_compute in Hframes. discriminate Hframes.
Qed.

(** C2 (amended).  Under the same conditions the sample rate [wave]
    reads from the header of the output file is the new rate. *)
Theorem sample_rate_substituted w input_wav new_sample_rate bs r data :
  fs w input_wav = Some bs ->
  valid_wav bs r data ->
  has_sep input_wav ->
  0 < new_sample_rate ->
  Wave_read._nchannels r * new_sample_rate * Wave_read._sampwidth r < 4294967296 ->
  exists out out_bs params,
    output_path input_wav (Wave_read._framerate r) new_sample_rate = inr out
    /\ fs (change_sample_rate input_wav new_sample_rate w) out = Some out_bs
    /\ read_params out_bs = inr params
    /\ params_framerate params = new_sample_rate.
Proof.
  intros Hfs Hvalid Hsep Hrate Hbyte.
  destruct (change_sample_rate_valid w input_wav new_sample_rate bs r data
              Hfs Hvalid Hsep Hrate Hbyte)
    as (out & out_bs & Hout & Hfile & _ & Hparams & _).
  exists out, out_bs. eexists. repeat split; try eassumption. reflexivity.
Qed.

Lemma sample_rate_substituted_witness :
  valid_wav sample_wav (written_reader sample_wav 1 2 48000 8) sample_frames
  /\ has_sep "dir/input.wav"
  /\ exists out out_bs params,
       output_path "dir/input.wav" 48000 50400 = inr out
       /\ fs (change_sample_rate "dir/input.wav" 50400
                (one_file "dir/input.wav" sample_wav)) out = Some out_bs
       /\ read_params out_bs = inr params
       /\ params_framerate params = 50400.
Proof.
  split; [sample_valid|]. split; [sep_at 3%nat "/"%char|].
  apply (sample_rate_substituted (one_file "dir/input.wav" sample_wav)
           "dir/input.wav" 50400 sample_wav
           (written_reader sample_wav 1 2 48000 8) sample_frames).
  - reflexivity.
  - sample_valid.
  - sep_at 3%nat "/"%char.
  - lia.
  - cbn. lia.
Defined.

(** C2 as stated fails: 5000000000 is a positive integer, and no header
    is written for it; the output file has no sample-rate field. *)
Lemma sample_rate_not_written_rate_too_large :
  let w' := change_sample_rate "dir/input.wav" 5000000000
              (one_file "dir/input.wav" sample_wav) in
  valid_wav sample_wav (written_reader sample_wav 1 2 48000 8) sample_frames
  /\ 0 < 5000000000
  /\ output_path "dir/input.wav" 48000 5000000000
     = inr "dir/input--sample_rate_changed__48000_to_5000000000.wav"
  /\ fs w' "dir/input--sample_rate_changed__48000_to_5000000000.wav"
     = Some (b_RIFF ++ b_RIFF)
  /\ ~ (exists out_bs params,
          fs w' "dir/input--sample_rate_changed__48000_to_5000000000.wav"
          = Some out_bs
          /\ read_params out_bs = inr params
          /\ params_framerate params = 5000000000).
Proof.
  cbv zeta.
  split; [sample_valid|]. split; [lia|].
  split; [vm_compute; reflexivity|]. split; [vm_compute; reflexivity|].
  intros (out_bs & params & Hfile & Hparams & _).
  vm_compute in Hfile. inversion Hfile; subst out_bs.
  vm_compute in Hparams. discriminate Hparams.
Qed.

(** C3 (amended).  Under the same conditions the channel count, the
    sample width and the frame count [wave] reads from the output file
    are those it reads from the input file. *)
Theorem other_fields_preserved w input_wav new_sample_rate bs r data :
  fs w input_wav = Some bs ->
  valid_wav bs r data ->
  has_sep input_wav ->
  0 < new_sample_rate ->
  Wave_read._nchannels r * new_sample_rate * Wave_read._sampwidth r < 4294967296 ->
  exists out out_bs params_in params_out,
    output_path input_wav (Wave_read._framerate r) new_sample_rate = inr out
    /\ fs (change_sample_rate input_wav new_sample_rate w) out = Some out_bs
    /\ read_params bs = inr params_in
    /\ read_params out_bs = inr params_out
    /\ params_nchannels params_out = params_nchannels params_in
    /\ params_sampwidth params_out = params_sampwidth params_in
    /\ params_nframes params_out = params_nframes params_in.
Proof.
  intros Hfs Hvalid Hsep Hrate Hbyte.
  destruct (change_sample_rate_valid w input_wav new_sample_rate bs r data
              Hfs Hvalid Hsep Hrate Hbyte)
    as (out & out_bs & Hout & Hfile & _ & Hparams & _).
  exists out, out_bs. do 2 eexists.
  split; [exact Hout|]. split; [exact Hfile|].
  split; [unfold read_params; rewrite (valid_reads _ _ _ Hvalid); reflexivity|].
  split; [exact Hparams|]. repeat split.
Qed.

Lemma other_fields_preserved_witness :
  valid_wav stereo_wav (written_reader stereo_wav 2 2 44100 8) sample_frames
  /\ has_sep "C:\Folder\input.wav"
  /\ exists out out_bs params_in params_out,
       output_path "C:\Folder\input.wav" 44100 48000 = inr out
       /\ fs (change_sample_rate "C:\Folder\input.wav" 48000
                (one_file "C:\Folder\input.wav" stereo_wav)) out = Some out_bs
       /\ read_params stereo_wav = inr params_in
       /\ read_params out_bs = inr params_out
       /\ params_nchannels params_out = params_nchannels params_in
       /\ params_sampwidth params_out = params_sampwidth params_in
       /\ params_nframes params_out = params_nframes params_in.
Proof.
  split; [sample_valid|]. split; [sep_at 2%nat "\"%char|].
  apply (other_fields_preserved (one_file "C:\Folder\input.wav" stereo_wav)
           "C:\Folder\input.wav" 48000 stereo_wav
           (written_reader stereo_wav 2 2 44100 8) sample_frames).
  - reflexivity.
  - sample_valid.
  - sep_at 2%nat "\"%char.
  - lia.
  - cbn. lia.
Defined.

(** C3 as stated fails: for the valid stereo input and the rate 2^30 the
    byte rate 2 x 2^30 x 2 does not fit its 32-bit field; no header is
    written and the output file has no fields to compare. *)
Lemma fields_lost_byte_rate_too_large :
  let w' := change_sample_rate "C:\Folder\input.wav" 1073741824
              (one_file "C:\Folder\input.wav" stereo_wav) in
  valid_wav stereo_wav (written_reader stereo_wav 2 2 44100 8) sample_frames
  /\ read_params stereo_wav = inr (2, 2, 44100, 2, "NONE", "not compressed")
  /\ output_path "C:\Folder\input.wav" 44100 1073741824
     = inr "C:\Folder\input--sample_rate_changed__44100_to_1073741824.wav"
  /\ fs w' "C:\Folder\input--sample_rate_changed__44100_to_1073741824.wav"
     = Some (b_RIFF ++ b_RIFF)
  /\ ~ (exists out_bs params_out,
          fs w' "C:\Folder\input--sample_rate_changed__44100_to_1073741824.wav"
          = Some out_bs
          /\ read_params out_bs = inr params_out
          /\ params_nchannels params_out = 2).
Proof.
  cbv zeta.
  split; [sample_valid|]. split; [vm_compute; reflexivity|].
  split; [vm_compute; reflexivity|]. split; [vm_compute; reflexivity|].
  intros (out_bs & params & Hfile & Hparams & _).
  vm_compute in Hfile. inversion Hfile; subst out_bs.
  vm_compute in Hparams. discriminate Hparams.
Qed.

(** C4 (the code departs from the claim).  The file of the scenario,
    given as [input.wav] without a directory: [get_path_name] returns
    [None] for the path, [None + str] raises [TypeError], and no output
    file is written.  With a directory in front the same file gives the
    output name the claim describes. *)
Theorem bare_file_name_fails :
  let w' := change_sample_rate "input.wav" 50400 (one_file "input.wav" scenario_wav) in
  read_params scenario_wav = inr (1, 2, 48000, 1000, "NONE", "not compressed")
  /\ get_path_name "input.wav" = (None, "input")
  /\ output_path "input.wav" 48000 50400
     = inl (TypeError "unsupported operand type(s) for +: 'NoneType' and 'str'")
  /\ stdout w' = ["Error: unsupported operand type(s) for +: 'NoneType' and 'str'"]
  /\ fs w' "input--sample_rate_changed__48000_to_50400.wav" = None
  /\ output_path "./input.wav" 48000 50400
     = inr "./input--sample_rate_changed__48000_to_50400.wav"
  /\ stdout (change_sample_rate "./input.wav" 50400 (one_file "./input.wav" scenario_wav))
     = ["Sample rate changed from 48000 Hz to 50400 Hz and saved as ./input--sample_rate_changed__48000_to_50400.wav"].
Proof.
  cbv zeta. repeat split; vm_compute; reflexivity.
Qed.

(** C5 (the code departs from the claim).  An error of the run is caught
    and printed as one line [Error: <message>], but [main] then returns
    and the exit status is 0: for a file that does not exist (an I/O
    error) and for a file that is not a RIFF file (a parsing error).
    Only the two usage errors of [main] exit with status 1. *)
Theorem error_exit_status_zero :
  main ["change_tempo_and_pitch_via_sample_rate.py"; "dir/missing.wav"; "50400"]
       (one_file "dir/input.wav" sample_wav)
  = (0, {| fs := fs (one_file "dir/input.wav" sample_wav);
           stdout := ["Error: [Errno 2] No such file or directory: 'dir/missing.wav'"] |})
  /\ main ["change_tempo_and_pitch_via_sample_rate.py"; "dir/junk.wav"; "50400"]
          (one_file "dir/junk.wav" junk_file)
     = (0, {| fs := fs (one_file "dir/junk.wav" junk_file);
              stdout := ["Error: file does not start with RIFF id"] |})
  /\ fst (main ["change_tempo_and_pitch_via_sample_rate.py"; "dir/input.wav"; "fast"]
               (one_file "dir/input.wav" sample_wav)) = 1
  /\ fst (main ["change_tempo_and_pitch_via_sample_rate.py"; "dir/input.wav"]
               (one_file "dir/input.wav" sample_wav)) = 1.
Proof.
  repeat split; vm_compute; reflexivity.
Qed.

(** C6 (amended).  A run with a new sample rate that is zero or negative
    fails: the body of [change_sample_rate] raises an exception [e], the
    text [Error: <e>] is printed, and no header is written, so that no
    field is substituted: a file of the resulting file system is as it
    was or is empty.  The exception is the [wave.Error] for the rate
    (what the specification calls [InvalidSampleRate]) when the run gets
    as far as the rate: when the input opens as a WAV file with samples
    of at most 4 bytes, its path has a directory part, and the rate is
    above -2^32 (so that the name of the output file, which holds the
    rate, stays a name that [open] accepts).  [setframerate] then raises
    ['bad frame rate'], and [close()], run on leaving the [with] block,
    raises ['sampling rate not specified'] in its place. *)
Theorem nonpositive_rate_rejected w input_wav new_sample_rate :
  new_sample_rate <= 0 ->
  let w' := change_sample_rate input_wav new_sample_rate w in
  exists e,
    fst (change_sample_rate_try input_wav new_sample_rate w) = inl e
    /\ stdout w' = stdout w ++ [("Error: " ++ Py.str_of_exn e)%string]
    /\ (forall q, fs w' q = fs w q \/ fs w' q = Some [])
    /\ (forall bs r,
          fs w input_wav = Some bs ->
          Wave_read.initfp (opened bs) = inr r ->
          has_sep input_wav ->
          Wave_read._sampwidth r <= 4 ->
          -4294967296 < new_sample_rate ->
          e = Error "sampling rate not specified").
Proof.
  intros Hrate. cbv zeta.
  destruct (change_sample_rate_try_bad_rate w input_wav new_sample_rate Hrate)
    as (e & w1 & Htry & Hstdout & Hfs & He).
  exists e. unfold change_sample_rate. rewrite Htry.
  cbv [print modify]. cbn [fst snd fs stdout].
  rewrite Hstdout. split; [reflexivity|]. split; [reflexivity|].
  split; [exact Hfs|].
  intros bs r Hbs Hopen Hsep Hsw _. exact (He bs r Hbs Hopen Hsep Hsw).
Qed.

Lemma nonpositive_rate_rejected_witness :
  -5 <= 0
  /\ exists e,
       fst (change_sample_rate_try "dir/input.wav" (-5)
              (one_file "dir/input.wav" sample_wav)) = inl e
       /\ stdout (change_sample_rate "dir/input.wav" (-5)
                    (one_file "dir/input.wav" sample_wav))
          = stdout (one_file "dir/input.wav" sample_wav)
            ++ [("Error: " ++ Py.str_of_exn e)%string]
       /\ (forall q,
             fs (change_sample_rate "dir/input.wav" (-5)
                   (one_file "dir/input.wav" sample_wav)) q
             = fs (one_file "dir/input.wav" sample_wav) q
             \/ fs (change_sample_rate "dir/input.wav" (-5)
                      (one_file "dir/input.wav" sample_wav)) q = Some [])
       /\ (forall bs r,
             fs (one_file "dir/input.wav" sample_wav) "dir/input.wav" = Some bs ->
             Wave_read.initfp (opened bs) = inr r ->
             has_sep "dir/input.wav" ->
             Wave_read._sampwidth r <= 4 ->
             -4294967296 < -5 ->
             e = Error "sampling rate not specified").
Proof.
  split; [lia|].
  apply (nonpositive_rate_rejected (one_file "dir/input.wav" sample_wav)
           "dir/input.wav" (-5)).
  lia.
Defined.

(** C6 as stated fails: with a rate of zero or below, the run does not
    always fail with the error for the rate.  The rate is looked at when
    [setparams] is reached, after the input is opened, the output is
    named and the sample width is set: a file that does not exist, a
    bare file name and an input with 64-bit samples each fail with their
    own error, whatever the rate. *)
Lemma nonpositive_rate_other_errors :
  stdout (change_sample_rate "dir/missing.wav" 0 (one_file "dir/input.wav" sample_wav))
  = ["Error: [Errno 2] No such file or directory: 'dir/missing.wav'"]
  /\ stdout (change_sample_rate "input.wav" 0 (one_file "input.wav" sample_wav))
     = ["Error: unsupported operand type(s) for +: 'NoneType' and 'str'"]
  /\ read_params wide_wav = inr (1, 8, 48000, 1, "NONE", "not compressed")
  /\ stdout (change_sample_rate "dir/wide.wav" (-1) (one_file "dir/wide.wav" wide_wav))
     = ["Error: sample width not specified"].
Proof.
  split; [vm_compute; reflexivity|]. split; [vm_compute; reflexivity|].
  split; vm_compute; reflexivity.
Qed.

(** C7.  A run on an input file whose first four bytes are not [RIFF]
    is rejected when the file is opened, before the output file is: the
    file system is unchanged and one line [Error: <e>] is printed.  The
    exception [e] is [wave.Error('file does not start with RIFF id')]
    (what the specification calls [MalformedContainer]) for a file that
    holds the 8 bytes of a chunk header, and [EOFError] for a shorter
    file. *)
Theorem non_riff_rejected w input_wav new_sample_rate bs :
  fs w input_wav = Some bs ->
  firstn 4 bs <> b_RIFF ->
  let e := if (8 <=? List.length bs)%nat
           then Error "file does not start with RIFF id" else EOFError in
  change_sample_rate_try input_wav new_sample_rate w = (inl e, w)
  /\ fs (change_sample_rate input_wav new_sample_rate w) = fs w
  /\ stdout (change_sample_rate input_wav new_sample_rate w)
     = stdout w ++ [("Error: " ++ Py.str_of_exn e)%string].
Proof.
  intros Hfs Hne e.
  assert (Htry : change_sample_rate_try input_wav new_sample_rate w = (inl e, w)).
  { unfold change_sample_rate_try.
    unfold bind at 1. unfold open_rb. unfold bind at 1. unfold get at 1.
    rewrite Hfs. unfold lift at 1. fold (opened bs).
    rewrite (initfp_not_riff bs Hne). reflexivity. }
  split; [exact Htry|].
  unfold change_sample_rate. rewrite Htry. split; reflexivity.
Qed.

Lemma non_riff_rejected_witness :
  firstn 4 junk_file <> b_RIFF
  /\ change_sample_rate_try "dir/junk.wav" 50400 (one_file "dir/junk.wav" junk_file)
     = (inl (Error "file does not start with RIFF id"),
        one_file "dir/junk.wav" junk_file)
  /\ fs (change_sample_rate "dir/junk.wav" 50400 (one_file "dir/junk.wav" junk_file))
     = fs (one_file "dir/junk.wav" junk_file)
  /\ stdout (change_sample_rate "dir/junk.wav" 50400 (one_file "dir/junk.wav" junk_file))
     = stdout (one_file "dir/junk.wav" junk_file)
       ++ ["Error: file does not start with RIFF id"].
Proof.
  split; [discriminate|].
  apply (non_riff_rejected (one_file "dir/junk.wav" junk_file) "dir/junk.wav"
           50400 junk_file).
  - reflexivity.
  - discriminate.
Defined.

(** C8 (amended).  An input whose data chunk announces more bytes than
    the file holds is not rejected: [wave] reads the bytes that are
    there, and the run succeeds and writes an output file with these
    bytes as frames, and with the data size and the frame count of its
    header set to what was written.  This holds for a path with a
    directory part, samples of at most 4 bytes, a block align
    (channels x sample width) below 2^16, an announced size of the
    frames below 2^32 - 36, and a positive rate for which
    channels x rate x sample width is below 2^32: the conditions under
    which the header can be written. *)
Theorem truncated_input_copied w input_wav new_sample_rate bs r data :
  fs w input_wav = Some bs ->
  Wave_read.initfp (opened bs) = inr r ->
  frames_of r = inr data ->
  Z.of_nat (List.length data) < Wave_read._nframes r * Wave_read._framesize r ->
  has_sep input_wav ->
  Wave_read._sampwidth r <= 4 ->
  Wave_read._nchannels r * Wave_read._sampwidth r < 65536 ->
  36 + Wave_read._nframes r * Wave_read._framesize r < 4294967296 ->
  0 < new_sample_rate ->
  Wave_read._nchannels r * new_sample_rate * Wave_read._sampwidth r < 4294967296 ->
  exists out,
    output_path input_wav (Wave_read._framerate r) new_sample_rate = inr out
    /\ stdout (change_sample_rate input_wav new_sample_rate w)
       = stdout w ++ [success_line (Wave_read._framerate r) new_sample_rate out]
    /\ fs (change_sample_rate input_wav new_sample_rate w) out
       = Some (wav_header (Wave_read._nchannels r) (Wave_read._sampwidth r)
                 new_sample_rate (Z.of_nat (List.length data)) ++ data)
    /\ read_params
         (wav_header (Wave_read._nchannels r) (Wave_read._sampwidth r)
            new_sample_rate (Z.of_nat (List.length data)) ++ data)
       = inr (Wave_read._nchannels r, Wave_read._sampwidth r, new_sample_rate,
              Z.of_nat (List.length data)
              / (Wave_read._nchannels r * Wave_read._sampwidth r),
              "NONE", "not compressed").
Proof.
  intros Hfs Hopen Hdata Hshort Hsep Hwidth Halign Hsize Hrate Hbyte.
  destruct (output_path_has_sep input_wav (Wave_read._framerate r) new_sample_rate Hsep)
    as (out & Hout).
  destruct (change_sample_rate_try_ok w input_wav new_sample_rate bs r out
              Hfs Hopen Hout Hwidth Halign Hsize Hrate Hbyte)
    as (data' & w' & Hdata' & Htry & Hfs' & Hstdout).
  assert (data' = data) by congruence. subst data'.
  pose proof (initfp_ok _ _ Hopen) as ((Hn & Hs & _ & Hfsz & _) & _).
  exists out. unfold change_sample_rate. rewrite Htry.
  split; [exact Hout|]. split; [exact Hstdout|].
  split; [rewrite Hfs', String.eqb_refl; reflexivity|].
  apply read_written_file; lia.
Qed.

Lemma truncated_input_copied_witness :
  Wave_read.initfp (opened truncated_wav)
  = inr (written_reader truncated_wav 1 2 48000 8)
  /\ frames_of (written_reader truncated_wav 1 2 48000 8) = inr [x01; x02; x03]%byte
  /\ Z.of_nat (List.length [x01; x02; x03]%byte) < 4 * 2
  /\ exists out,
       output_path "dir/trunc.wav" 48000 50400 = inr out
       /\ stdout (change_sample_rate "dir/trunc.wav" 50400
                    (one_file "dir/trunc.wav" truncated_wav))
          = [] ++ [success_line 48000 50400 out]
       /\ fs (change_sample_rate "dir/trunc.wav" 50400
                (one_file "dir/trunc.wav" truncated_wav)) out
          = Some (wav_header 1 2 50400 3 ++ [x01; x02; x03]%byte)
       /\ read_params (wav_header 1 2 50400 3 ++ [x01; x02; x03]%byte)
          = inr (1, 2, 50400, 3 / (1 * 2), "NONE", "not compressed").
Proof.
  split; [vm_compute; reflexivity|]. split; [vm_compute; reflexivity|].
  split; [cbn; lia|].
  apply (truncated_input_copied (one_file "dir/trunc.wav" truncated_wav)
           "dir/trunc.wav" 50400 truncated_wav
           (written_reader truncated_wav 1 2 48000 8) [x01; x02; x03]%byte).
  - reflexivity.
  - vm_compute; reflexivity.
  - vm_compute; reflexivity.
  - cbn; lia.
  - sep_at 3%nat "/"%char.
  - cbn; lia.
  - cbn; lia.
  - cbn; lia.
  - lia.
  - cbn; lia.
Defined.

(** C8 as stated fails: the data chunk of [truncated_wav] announces 8
    bytes (4 frames) and the file holds 3; the run is not rejected but
    reports success and writes an output file. *)
Lemma truncated_input_accepted :
  let w' := change_sample_rate "dir/trunc.wav" 50400
              (one_file "dir/trunc.wav" truncated_wav) in
  read_params truncated_wav = inr (1, 2, 48000, 4, "NONE", "not compressed")
  /\ read_frames truncated_wav = inr [x01; x02; x03]%byte
  /\ Z.of_nat (List.length [x01; x02; x03]%byte) <> 4 * 1 * 2
  /\ stdout w'
     = ["Sample rate changed from 48000 Hz to 50400 Hz and saved as dir/trunc--sample_rate_changed__48000_to_50400.wav"]
  /\ fs w' "dir/trunc--sample_rate_changed__48000_to_50400.wav"
     = Some (wav_header 1 2 50400 3 ++ [x01; x02; x03]%byte).
Proof.
  cbv zeta. split; [vm_compute; reflexivity|]. split; [vm_compute; reflexivity|].
  split; [cbn; lia|]. split; vm_compute; reflexivity.
Qed.

(** * Further properties of the script *)

(** ** The shape of a run *)

(** Once the input is opened and the output is named, the run is the
    [with] block on the output file: its outcome is the outcome of the
    run, its file content is in the output file, and the success line is
    printed when it succeeds. *)
Lemma change_sample_rate_try_after_open w input_wav new_sample_rate bs r out :
  fs w input_wav = Some bs ->
  Wave_read.initfp (opened bs) = inr r ->
  output_path input_wav (Wave_read._framerate r) new_sample_rate = inr out ->
  change_sample_rate_try input_wav new_sample_rate w
  = match fst (written r new_sample_rate) with
    | inl e => (inl e, with_file out (snd (written r new_sample_rate)) w)
    | inr _ =>
        print (success_line (Wave_read._framerate r) new_sample_rate out)
          (with_file out (snd (written r new_sample_rate)) w)
    end.
Proof.
  intros Hfs Hopen Hout.
  destruct (output_path_eq _ _ _ _ Hout) as (path & Hpath & Eout).
  unfold change_sample_rate_try, Wave_read.getparams.
  unfold bind at 1. unfold open_rb. unfold bind at 1. unfold get at 1.
  rewrite Hfs. unfold lift at 1. unfold opened in Hopen. rewrite Hopen.
  cbv beta iota zeta. rewrite Hpath. cbv beta iota zeta.
  unfold bind at 1. unfold lift at 1. cbn [Py.add_str]. rewrite <- Eout.
  unfold bind at 1. unfold open_wb. unfold bind at 1.
  unfold store at 1. unfold modify at 1. unfold ret at 1.
  unfold bind at 1. unfold with_Wave_write.
  unfold written, copy_frames, with_file, opened.
  match goal with
  | |- context [bind ?m ?k (Wave_write.initfp ?f)] =>
      destruct (bind m k (Wave_write.initfp f)) as [res s]
  end.
  destruct (Wave_write.close s) as [closed s'].
  cbn [fst snd].
  destruct closed as [e|[]]; [reflexivity|].
  destruct res as [e|[]]; reflexivity.
Qed.

(** Before that, a run fails and leaves the world as it is. *)
Lemma change_sample_rate_try_before_open w input_wav new_sample_rate :
  (forall bs r out,
      fs w input_wav = Some bs ->
      Wave_read.initfp (opened bs) = inr r ->
      output_path input_wav (Wave_read._framerate r) new_sample_rate = inr out ->
      False) ->
  exists e, change_sample_rate_try input_wav new_sample_rate w = (inl e, w).
Proof.
  intros Hnot.
  unfold change_sample_rate_try, Wave_read.getparams.
  unfold bind at 1. unfold open_rb. unfold bind at 1. unfold get at 1.
  destruct (fs w input_wav) as [bs|] eqn:Hfs; [|eexists; reflexivity].
  unfold lift at 1. fold (opened bs).
  destruct (Wave_read.initfp (opened bs)) as [e|r] eqn:Hopen;
    [eexists; reflexivity|].
  cbv beta iota zeta.
  specialize (Hnot bs r). unfold output_path in Hnot.
  destruct (get_path_name input_wav) as [[path|] name].
  - exfalso. eapply Hnot; [reflexivity|exact Hopen|]. cbn. reflexivity.
  - eexists. reflexivity.
Qed.

(** The line a run prints at its end, for the outcome [res] of the
    [with] block. *)
Lemma change_sample_rate_cases w input_wav new_sample_rate :
  (exists e,
      change_sample_rate input_wav new_sample_rate w
      = snd (print ("Error: " ++ Py.str_of_exn e) w)
      /\ (forall bs r,
             fs w input_wav = Some bs ->
             Wave_read.initfp (opened bs) = inr r ->
             output_path input_wav (Wave_read._framerate r) new_sample_rate
             = inl e))
  \/ (exists bs r out,
         fs w input_wav = Some bs
         /\ Wave_read.initfp (opened bs) = inr r
         /\ output_path input_wav (Wave_read._framerate r) new_sample_rate = inr out
         /\ change_sample_rate input_wav new_sample_rate w
            = snd (print (run_line (fst (written r new_sample_rate))
                            (Wave_read._framerate r) new_sample_rate out)
                     (with_file out (snd (written r new_sample_rate)) w))).
Proof.
  destruct (fs w input_wav) as [bs|] eqn:Hfs.
  2:{ left. exists (FileNotFoundError input_wav). split; [|discriminate].
      unfold change_sample_rate, change_sample_rate_try.
      unfold bind at 1. unfold open_rb. unfold bind at 1. unfold get at 1.
      rewrite Hfs. reflexivity. }
  destruct (Wave_read.initfp (opened bs)) as [e|r] eqn:Hopen.
  { left. exists e. split; [|intros bs' r' E; inversion E; subst; congruence].
    unfold change_sample_rate, change_sample_rate_try.
    unfold bind at 1. unfold open_rb. unfold bind at 1. unfold get at 1.
    rewrite Hfs. unfold lift at 1. fold (opened bs). rewrite Hopen. reflexivity. }
  destruct (output_path input_wav (Wave_read._framerate r) new_sample_rate)
    as [e|out] eqn:Hout.
  { left. exists e. split.
    - unfold change_sample_rate, change_sample_rate_try, Wave_read.getparams.
      unfold bind at 1. unfold open_rb. unfold bind at 1. unfold get at 1.
      rewrite Hfs. unfold lift at 1. fold (opened bs). rewrite Hopen.
      cbv beta iota zeta. revert Hout. unfold output_path.
      destruct (get_path_name input_wav) as [[path|] name]; cbn [Py.add_str rbind].
      + discriminate.
      + intros E. inversion E; subst e. reflexivity.
    - intros bs' r' E1 E2. inversion E1; subst bs'.
      assert (r' = r) by congruence. subst r'. exact Hout. }
  right. exists bs, r, out. split; [reflexivity|]. split; [exact Hopen|].
  split; [exact Hout|].
  unfold change_sample_rate.
  rewrite (change_sample_rate_try_after_open _ _ _ _ _ _ Hfs Hopen Hout).
  unfold run_line. destruct (fst (written r new_sample_rate)) as [e|[]]; reflexivity.
Qed.

Lemma fs_print line w : fs (snd (print line w)) = fs w.
Proof. reflexivity. Qed.

Lemma stdout_print line w : stdout (snd (print line w)) = stdout w ++ [line].
Proof. reflexivity. Qed.

Lemma fs_with_file out data w q :
  fs (with_file out data w) q = if String.eqb q out then Some data else fs w q.
Proof.
  unfold with_file, store, modify. cbn [snd fs].
  destruct (String.eqb q out); reflexivity.
Qed.

Lemma stdout_with_file out data w : stdout (with_file out data w) = stdout w.
Proof. reflexivity. Qed.

(** ** What a run touches *)

Lemma change_sample_rate_keeps_input w input_wav new_sample_rate :
  fs (change_sample_rate input_wav new_sample_rate w) input_wav = fs w input_wav.
Proof.
  destruct (change_sample_rate_cases w input_wav new_sample_rate)
    as [(e & E & _)|(bs & r & out & Hfs & Hopen & Hout & E)]; rewrite E.
  - reflexivity.
  - rewrite fs_print, fs_with_file.
    destruct (String.eqb_spec input_wav out) as [Heq|]; [|reflexivity].
    exfalso. apply (output_path_differs _ _ _ _ Hout). congruence.
Qed.

(** X1.  A run never modifies its input file, whatever the input, the
    rate and the outcome: the output name always differs from the name
    of the input. *)
Theorem input_file_never_modified w input_wav new_sample_rate :
  fs (change_sample_rate input_wav new_sample_rate w) input_wav = fs w input_wav.
Proof. apply change_sample_rate_keeps_input. Qed.

(** X2.  The only file a run can create or change is the output file: a
    file whose content differs after the run is the one named by
    [output_path] for the rate read from the input. *)
Theorem only_output_file_changes w input_wav new_sample_rate q :
  fs (change_sample_rate input_wav new_sample_rate w) q <> fs w q ->
  exists bs r,
    fs w input_wav = Some bs
    /\ Wave_read.initfp (opened bs) = inr r
    /\ output_path input_wav (Wave_read._framerate r) new_sample_rate = inr q.
Proof.
  intros Hne.
  destruct (change_sample_rate_cases w input_wav new_sample_rate)
    as [(e & E & _)|(bs & r & out & Hfs & Hopen & Hout & E)]; rewrite E in Hne.
  - exfalso. apply Hne. reflexivity.
  - rewrite fs_print, fs_with_file in Hne.
    destruct (String.eqb_spec q out) as [Heq|]; [|exfalso; apply Hne; reflexivity].
    subst q. exists bs, r. auto.
Qed.

Lemma only_output_file_changes_witness :
  fs (change_sample_rate "dir/input.wav" 50400 (one_file "dir/input.wav" sample_wav))
     "dir/input--sample_rate_changed__48000_to_50400.wav"
  <> fs (one_file "dir/input.wav" sample_wav)
        "dir/input--sample_rate_changed__48000_to_50400.wav"
  /\ exists bs r,
       fs (one_file "dir/input.wav" sample_wav) "dir/input.wav" = Some bs
       /\ Wave_read.initfp (opened bs) = inr r
       /\ output_path "dir/input.wav" (Wave_read._framerate r) 50400
          = inr "dir/input--sample_rate_changed__48000_to_50400.wav".
Proof.
  assert (H : fs (change_sample_rate "dir/input.wav" 50400
                    (one_file "dir/input.wav" sample_wav))
                 "dir/input--sample_rate_changed__48000_to_50400.wav"
              <> fs (one_file "dir/input.wav" sample_wav)
                    "dir/input--sample_rate_changed__48000_to_50400.wav").
  { vm_compute. discriminate. }
  split; [exact H|].
  exact (only_output_file_changes _ _ _ _ H).
Defined.

(** X3.  Running the script a second time with the same arguments leaves
    the files as the first run left them. *)
Theorem second_run_changes_no_file w input_wav new_sample_rate q :
  fs (change_sample_rate input_wav new_sample_rate
        (change_sample_rate input_wav new_sample_rate w)) q
  = fs (change_sample_rate input_wav new_sample_rate w) q.
Proof.
  set (w1 := change_sample_rate input_wav new_sample_rate w).
  pose proof (change_sample_rate_keeps_input w input_wav new_sample_rate) as Hin.
  fold w1 in Hin.
  destruct (change_sample_rate_cases w1 input_wav new_sample_rate)
    as [(e & E & _)|(bs & r & out & Hfs & Hopen & Hout & E)]; rewrite E.
  - reflexivity.
  - rewrite fs_print, fs_with_file.
    destruct (String.eqb_spec q out) as [Heq|]; [|reflexivity].
    subst q. rewrite Hin in Hfs. subst w1.
    destruct (change_sample_rate_cases w input_wav new_sample_rate)
      as [(e' & E' & Hno)|(bs' & r' & out' & Hfs' & Hopen' & Hout' & E')].
    + specialize (Hno bs r Hfs Hopen). congruence.
    + rewrite E'. rewrite fs_print, fs_with_file.
      assert (bs' = bs) by congruence. subst bs'.
      assert (r' = r) by congruence. subst r'.
      assert (out' = out) by congruence. subst out'.
      rewrite String.eqb_refl. reflexivity.
Qed.

(** X4.  Every call of [main] calls [print] exactly once, with the usage
    text, the text for a rate that is not an integer, the success text
    or the text [Error: <e>] (one line each, unless the path or the
    message printed holds a line break of its own).  Its exit status is
    0 or 1; with status 1 no file is touched, and the input file named
    on the command line is never changed. *)
Theorem main_prints_once argv w :
  (exists text, stdout (snd (main argv w)) = stdout w ++ [text])
  /\ (fst (main argv w) = 0
      \/ fst (main argv w) = 1 /\ forall q, fs (snd (main argv w)) q = fs w q)
  /\ fs (snd (main argv w)) (nth 1 argv EmptyString) = fs w (nth 1 argv EmptyString).
Proof.
  unfold main.
  destruct (negb (Z.of_nat (List.length argv) =? 3)).
  { cbn [fst snd]. split; [eexists; reflexivity|]. split; [right; auto|reflexivity]. }
  destruct (Py.int (nth 2 argv EmptyString)) as [rate|].
  2:{ cbn [fst snd]. split; [eexists; reflexivity|]. split; [right; auto|reflexivity]. }
  cbn [fst snd]. split; [|split; [left; reflexivity|apply change_sample_rate_keeps_input]].
  destruct (change_sample_rate_cases w (nth 1 argv EmptyString) rate)
    as [(e & E & _)|(bs & r & out & Hfs & Hopen & Hout & E)]; rewrite E;
    eexists; reflexivity.
Qed.

(** ** The [with] block on the output file *)

Lemma initial_datalength_frames r data :
  reader_ok r -> frames_of r = inr data ->
  initial_datalength (Wave_read._nchannels r) (Wave_read._sampwidth r)
    (Wave_read._nframes r) (Z.of_nat (List.length data))
  = Wave_read._nframes r * (Wave_read._nchannels r * Wave_read._sampwidth r)
  /\ 0 <= Wave_read._nframes r
  /\ Z.of_nat (List.length data)
     <= Wave_read._nframes r * (Wave_read._nchannels r * Wave_read._sampwidth r).
Proof.
  intros Hok Hdata.
  destruct (frames_of_ok r Hok) as (data' & Hdata' & Hlen & Hzero).
  assert (data' = data) by congruence. subst data'.
  destruct Hok as ((Hn & Hs & _ & Hfsz & _) & _).
  rewrite Hfsz in Hlen.
  assert (Hnf : 0 <= Wave_read._nframes r) by nia.
  split; [|split; assumption].
  unfold initial_datalength.
  destruct (Z.eqb_spec (Wave_read._nframes r) 0) as [E|E].
  - rewrite (Hzero E), E. reflexivity.
  - ring.
Qed.

(** The block succeeds when the parameters are accepted and the fields
    of the header fit: the file is the header and the frames. *)
Lemma written_ok r new_sample_rate data :
  reader_ok r -> frames_of r = inr data ->
  Wave_read._sampwidth r <= 4 -> 0 < new_sample_rate ->
  header_fits (Wave_read._nchannels r) (Wave_read._sampwidth r) new_sample_rate
    (Wave_read._nframes r) ->
  written r new_sample_rate
  = (inr tt,
     wav_header (Wave_read._nchannels r) (Wave_read._sampwidth r) new_sample_rate
       (Z.of_nat (List.length data)) ++ data).
Proof.
  intros Hok Hdata Hsw Hrate (Halign & Hbyte & Hsize).
  destruct (initial_datalength_frames r data Hok Hdata) as (Hinit & Hnf & Hlen).
  destruct Hok as ((Hn & Hs & _ & Hfsz & Hct & Hcn) & _).
  destruct (writeframes_ok (Wave_read._nchannels r) (Wave_read._sampwidth r)
              new_sample_rate (Wave_read._nframes r) (Wave_read._compname r) data)
    as (s & Hwrite & Hfile & Hhead & Hdl & Hdw); try lia; try nia.
  unfold written, copy_frames, opened.
  rewrite Hct. unfold bind at 1. rewrite setparams_ok by lia.
  unfold bind at 1. fold (frames_of r). rewrite Hdata. unfold lift.
  rewrite Hwrite.
  rewrite (close_written s) by congruence.
  rewrite Hfile. reflexivity.
Qed.

(** [setparams] raises when the sample width is above 4 or the rate is
    not positive, and leaves an object on which [close()] raises for the
    first parameter that is not set: nothing is written. *)
Lemma setparams_close_bad f nch sw rate nf ct cn (k : M Wave_write.t unit) :
  1 <= nch -> 1 <= sw -> 4 < sw \/ rate <= 0 ->
  exists e s,
    (Wave_write.setparams (nch, sw, rate, nf, ct, cn) ;; k)%py
      (Wave_write.initfp f) = (inl e, s)
    /\ Wave_write._file s = f
    /\ Wave_write.close s
       = (inl (Error (if 4 <? sw then "sample width not specified"
                      else "sampling rate not specified")), s).
Proof.
  intros Hn Hs Hbad.
  unfold Wave_write.setparams, Wave_write.setnchannels, Wave_write.setsampwidth,
    Wave_write.setframerate, Wave_write.check_not_written, Wave_write.initfp,
    Wave_write.close, Wave_write._ensure_header_written.
  unfold bind, get, ret, raise, modify.
  cbn -[Z.ltb Z.leb Z.eqb].
  change (0 =? 0) with true. cbn -[Z.ltb Z.leb Z.eqb].
  destruct (Z.ltb_spec nch 1); [lia|].
  cbn -[Z.ltb Z.leb Z.eqb].
  destruct (Z.ltb_spec sw 1); [lia|].
  destruct (Z.ltb_spec 4 sw); cbn -[Z.ltb Z.leb Z.eqb].
  - do 2 eexists. split; [reflexivity|]. split; [reflexivity|].
    cbn -[Z.ltb Z.leb Z.eqb].
    destruct (Z.eqb_spec nch 0); [lia|]. reflexivity.
  - destruct (Z.leb_spec rate 0); [|lia]. cbn -[Z.ltb Z.leb Z.eqb].
    do 2 eexists. split; [reflexivity|]. split; [reflexivity|].
    cbn -[Z.ltb Z.leb Z.eqb].
    destruct (Z.eqb_spec nch 0); [lia|].
    destruct (Z.eqb_spec sw 0); [lia|]. reflexivity.
Qed.

Lemma written_bad_params r new_sample_rate :
  reader_ok r ->
  4 < Wave_read._sampwidth r \/ new_sample_rate <= 0 ->
  written r new_sample_rate
  = (inl (Error (if 4 <? Wave_read._sampwidth r
                 then "sample width not specified"
                 else "sampling rate not specified")), []).
Proof.
  intros ((Hn & Hs & _) & _) Hbad.
  unfold written, copy_frames, opened.
  match goal with
  | |- context [(Wave_write.setparams ?p ;; ?k)%py (Wave_write.initfp ?f)] =>
      destruct (setparams_close_bad f
                  (Wave_read._nchannels r) (Wave_read._sampwidth r) new_sample_rate
                  (Wave_read._nframes r) (Wave_read._comptype r) (Wave_read._compname r)
                  k ltac:(lia) ltac:(lia) Hbad)
        as (e & s & Hbody & Hfile & Hclose)
  end.
  rewrite Hbody, Hclose, Hfile. reflexivity.
Qed.

Lemma pack_arg_H_out_of_range v :
  65536 <= v ->
  struct.pack_arg (struct.Int struct.H v)
  = inl (struct_error "'H' format requires 0 <= number <= 65535").
Proof.
  intros H. unfold struct.pack_arg.
  change (2 ^ (8 * Z.of_nat (struct.size struct.H))) with 65536.
  destruct (Z.leb_spec 0 v); [|lia]. destruct (Z.ltb_spec v 65536); [lia|].
  reflexivity.
Qed.

(** The header is not packed when one of its fields does not fit: the
    first such field raises [struct.error]. *)
Lemma pack_header_too_large nch sw rate dl :
  1 <= nch < 65536 -> 1 <= sw <= 4 -> 0 < rate -> 0 <= dl ->
  ~ (nch * sw < 65536 /\ nch * rate * sw < 4294967296 /\ 36 + dl < 4294967296) ->
  exists msg,
    struct.pack
      [struct.Int struct.L (36 + dl);
       struct.S4 b_WAVE; struct.S4 b_fmt;
       struct.Int struct.L 16;
       struct.Int struct.H WAVE_FORMAT_PCM;
       struct.Int struct.H nch;
       struct.Int struct.L rate;
       struct.Int struct.L (nch * rate * sw);
       struct.Int struct.H (nch * sw);
       struct.Int struct.H (sw * 8);
       struct.S4 b_data]
    = inl (struct_error msg)
    /\ (nch * sw < 65536 ->
        msg = "'L' format requires 0 <= number <= 4294967295").
Proof.
  intros Hn Hs Hr Hd Hno. cbn [struct.pack].
  destruct (Z.lt_ge_cases (36 + dl) 4294967296) as [H1|H1].
  2:{ rewrite (pack_arg_L_out_of_range (36 + dl)) by lia.
      cbn [rbind]. eexists. split; reflexivity. }
  rewrite (pack_arg_L (36 + dl)), (pack_arg_L 16) by lia.
  rewrite (pack_arg_H WAVE_FORMAT_PCM), (pack_arg_H nch)
    by (unfold WAVE_FORMAT_PCM; lia).
  destruct (Z.lt_ge_cases rate 4294967296) as [H2|H2].
  2:{ rewrite (pack_arg_L_out_of_range rate) by lia.
      cbn [rbind struct.pack_arg]. eexists. split; reflexivity. }
  rewrite (pack_arg_L rate) by lia.
  destruct (Z.lt_ge_cases (nch * rate * sw) 4294967296) as [H3|H3].
  2:{ rewrite (pack_arg_L_out_of_range (nch * rate * sw)) by lia.
      cbn [rbind struct.pack_arg]. eexists. split; reflexivity. }
  rewrite (pack_arg_L (nch * rate * sw)) by nia.
  rewrite (pack_arg_H_out_of_range (nch * sw)) by lia.
  cbn [rbind struct.pack_arg]. eexists. split; [reflexivity|]. lia.
Qed.

(** [_write_header] on an object whose header cannot be packed: the
    four bytes [RIFF] are written, the frame count and the data length
    are set, and [struct.error] is raised before the header is marked
    as written. *)
Lemma write_header_too_large d nch sw rate nf dl0 flp dlp cn il msg :
  let nf' := if nf =? 0 then il / (nch * sw) else nf in
  struct.pack
    [struct.Int struct.L (36 + nf' * nch * sw);
     struct.S4 b_WAVE; struct.S4 b_fmt;
     struct.Int struct.L 16;
     struct.Int struct.H WAVE_FORMAT_PCM;
     struct.Int struct.H nch;
     struct.Int struct.L rate;
     struct.Int struct.L (nch * rate * sw);
     struct.Int struct.H (nch * sw);
     struct.Int struct.H (sw * 8);
     struct.S4 b_data]
  = inl (struct_error msg) ->
  Wave_write._write_header il
    (Wave_write.mk {| f_data := d; f_pos := Z.of_nat (List.length d) |}
       nch sw rate nf 0 0 dl0 false flp dlp "NONE" cn)
  = (inl (struct_error msg),
     Wave_write.mk
       {| f_data := d ++ b_RIFF; f_pos := Z.of_nat (List.length (d ++ b_RIFF)) |}
       nch sw rate nf' 0 0 (nf' * nch * sw) false
       (Z.of_nat (List.length (d ++ b_RIFF))) dlp "NONE" cn).
Proof.
  intros nf' Hpack. subst nf'.
  unfold Wave_write._write_header, Wave_write.write.
  unfold bind, get, ret, raise, modify, lift.
  cbn -[struct.pack file_write Z.mul Z.div Z.add].
  rewrite file_write_at_end.
  destruct (nf =? 0);
    cbn -[struct.pack file_write Z.mul Z.div Z.add List.length];
    rewrite Hpack; reflexivity.
Qed.

(** The block fails in [_write_header] when a field of the header does
    not fit: [writeframes] raises [struct.error] after the four bytes
    [RIFF] are written, and [close()], which tries to write the header
    again, raises it a second time after four more. *)
Lemma written_too_large r new_sample_rate data :
  reader_ok r -> frames_of r = inr data ->
  Wave_read._sampwidth r <= 4 -> 0 < new_sample_rate ->
  ~ header_fits (Wave_read._nchannels r) (Wave_read._sampwidth r) new_sample_rate
      (Wave_read._nframes r) ->
  exists msg,
    written r new_sample_rate = (inl (struct_error msg), b_RIFF ++ b_RIFF)
    /\ (Wave_read._nchannels r * Wave_read._sampwidth r < 65536 ->
        msg = "'L' format requires 0 <= number <= 4294967295").
Proof.
  intros Hok Hdata Hsw Hrate Hno.
  destruct (initial_datalength_frames r data Hok Hdata) as (Hinit & Hnf & Hlen).
  destruct Hok as ((Hn & Hs & _ & Hfsz & Hct & Hcn) & _).
  unfold header_fits in Hno. rewrite <- Hinit in Hno.
  set (nch := Wave_read._nchannels r) in *.
  set (sw := Wave_read._sampwidth r) in *.
  set (nf := Wave_read._nframes r) in *.
  set (len := Z.of_nat (List.length data)) in *.
  assert (Hdl0 : 0 <= initial_datalength nch sw nf len) by nia.
  destruct (pack_header_too_large nch sw new_sample_rate
              (initial_datalength nch sw nf len) Hn ltac:(lia) Hrate Hdl0 Hno)
    as (msg & Hpack & Hmsg).
  exists msg. split; [|exact Hmsg].
  unfold initial_datalength in Hpack.
  set (nf' := if nf =? 0 then len / (nch * sw) else nf) in *.
  assert (Hnf' : (if nf' =? 0 then 0 / (nch * sw) else nf') = nf').
  { destruct (Z.eqb_spec nf' 0) as [E|E]; [rewrite E; apply Z.div_0_l; lia|reflexivity]. }
  pose proof (write_header_too_large [] nch sw new_sample_rate nf 0 0 0
                (Wave_read._compname r) len msg Hpack) as H1.
  cbv zeta in H1. fold nf' in H1.
  pose proof (write_header_too_large b_RIFF nch sw new_sample_rate nf'
                (nf' * nch * sw) 4 0 (Wave_read._compname r) 0 msg) as H2.
  cbv zeta in H2. rewrite Hnf' in H2. specialize (H2 Hpack).
  unfold written, copy_frames, opened.
  rewrite Hct. unfold bind at 1. fold nch sw nf. rewrite setparams_ok by lia.
  unfold bind at 1. unfold frames_of in Hdata. fold nf in Hdata.
  rewrite Hdata. unfold lift.
  assert (Hbody :
    Wave_write.writeframes data
      (Wave_write.mk {| f_data := []; f_pos := 0 |} nch sw new_sample_rate nf 0 0 0
         false 0 0 "NONE" (Wave_read._compname r))
    = (inl (struct_error msg),
       Wave_write.mk {| f_data := b_RIFF; f_pos := 4 |} nch sw new_sample_rate nf'
         0 0 (nf' * nch * sw) false 4 0 "NONE" (Wave_read._compname r))).
  { unfold Wave_write.writeframes, Wave_write.writeframesraw,
      Wave_write._ensure_header_written.
    unfold bind at 1. unfold bind at 1. unfold bind at 1. unfold get at 1.
    cbn [Wave_write._headerwritten Wave_write._nchannels Wave_write._sampwidth
         Wave_write._framerate negb].
    replace (nch =? 0) with false by (symmetry; apply Z.eqb_neq; lia).
    replace (sw =? 0) with false by (symmetry; apply Z.eqb_neq; lia).
    replace (new_sample_rate =? 0) with false by (symmetry; apply Z.eqb_neq; lia).
    fold len. change 0 with (Z.of_nat (@List.length byte [])) at 1.
    rewrite H1. reflexivity. }
  rewrite Hbody.
  assert (Hclose :
    Wave_write.close
      (Wave_write.mk {| f_data := b_RIFF; f_pos := 4 |} nch sw new_sample_rate nf'
         0 0 (nf' * nch * sw) false 4 0 "NONE" (Wave_read._compname r))
    = (inl (struct_error msg),
       Wave_write.mk {| f_data := b_RIFF ++ b_RIFF; f_pos := 8 |} nch sw
         new_sample_rate nf' 0 0 (nf' * nch * sw) false 8 0 "NONE"
         (Wave_read._compname r))).
  { unfold Wave_write.close, Wave_write._ensure_header_written.
    unfold bind at 1. unfold bind at 1. unfold get at 1.
    cbn [Wave_write._headerwritten Wave_write._nchannels Wave_write._sampwidth
         Wave_write._framerate negb].
    replace (nch =? 0) with false by (symmetry; apply Z.eqb_neq; lia).
    replace (sw =? 0) with false by (symmetry; apply Z.eqb_neq; lia).
    replace (new_sample_rate =? 0) with false by (symmetry; apply Z.eqb_neq; lia).
    change 4 with (Z.of_nat (List.length b_RIFF)) at 1.
    rewrite H2. reflexivity. }
  rewrite Hclose. reflexivity.
Qed.

(** ** The name of the output file *)

Lemma append_inj_l a b c : (a ++ b)%string = (a ++ c)%string -> b = c.
Proof.
  induction a as [|x a IH]; cbn; intros E; [exact E|].
  inversion E. auto.
Qed.

Lemma append_inj_r a b c : (a ++ c)%string = (b ++ c)%string -> a = b.
Proof.
  revert b. induction a as [|x a IH]; intros [|y b] E.
  - reflexivity.
  - apply (f_equal String.length) in E. rewrite !length_append in E.
    cbn in E. lia.
  - apply (f_equal String.length) in E. rewrite !length_append in E.
    cbn in E. lia.
  - cbn in E. inversion E. f_equal. apply IH. assumption.
Qed.

(** [str] of an [int] tells the integers apart. *)
Lemma str_of_int_inj n m : Py.str_of_int n = Py.str_of_int m -> n = m.
Proof.
  unfold Py.str_of_int. intros E.
  assert (Hnz : forall z, Z.to_int z <> Decimal.Pos Decimal.Nil
                          /\ Z.to_int z <> Decimal.Neg Decimal.Nil).
  { intros [|p|p]; cbn; split; try discriminate;
      intros H; inversion H as [H'];
      exact (DecimalPos.Unsigned.to_uint_nonnil p H'). }
  apply (f_equal NilZero.int_of_string) in E.
  rewrite !NilZero.isi in E by apply Hnz.
  inversion E as [E']. apply DecimalZ.to_int_inj. exact E'.
Qed.

Lemma substring_append_right a b m :
  substring (String.length a) m (a ++ b)%string = substring 0 m b.
Proof. induction a as [|x a IH]; cbn; [reflexivity|exact IH]. Qed.

(** [get_path_name] on a string given by its parts: an optional
    directory part that ends with a separator, a name without separator,
    and four more characters without separator. *)
Lemma last_sep_at_parts d c rest :
  is_sep c = true ->
  (forall i ch, String.get i rest = Some ch -> is_sep ch = false) ->
  last_sep_at (d ++ String c rest) (Z.of_nat (String.length d)).
Proof.
  intros Hc Hrest. split; [lia|]. split.
  - intros _. exists c. rewrite Nat2Z.id.
    rewrite <- (Nat.add_0_r (String.length d)), get_append_right. auto.
  - intros i ch Hi Hget.
    replace i with (String.length d + S (i - String.length d - 1))%nat in Hget by lia.
    rewrite get_append_right in Hget. cbn in Hget. eauto.
Qed.

Lemma last_sep_at_none p :
  (forall i ch, String.get i p = Some ch -> is_sep ch = false) ->
  last_sep_at p (-1).
Proof.
  intros Hp. split; [lia|]. split; [lia|]. intros i ch _. apply Hp.
Qed.

Lemma get_path_name_parts d c name ext :
  is_sep c = true ->
  (forall i ch, String.get i (name ++ ext)%string = Some ch -> is_sep ch = false) ->
  String.length ext = 4%nat ->
  get_path_name (d ++ String c (name ++ ext))
  = (Some (d ++ String c EmptyString)%string, name).
Proof.
  intros Hc Hrest Hext.
  rewrite (get_path_name_eq _ _ (last_sep_at_parts d c _ Hc Hrest)).
  destruct (Z.leb_spec 0 (Z.of_nat (String.length d))); [|lia].
  unfold Py.len. rewrite !length_append. cbn [String.length].
  rewrite length_append, Hext.
  replace (Z.to_nat (Z.of_nat (String.length d) + 1))
    with (String.length (d ++ String c EmptyString)%string)
    by (rewrite length_append; cbn; lia).
  replace (d ++ String c (name ++ ext))%string
    with ((d ++ String c EmptyString) ++ (name ++ ext))%string
    by (rewrite <- append_assoc; reflexivity).
  rewrite substring_0_append, substring_append_right.
  replace (Z.to_nat _) with (String.length name) by lia.
  rewrite substring_0_append. reflexivity.
Qed.

Lemma get_path_name_bare name ext :
  (forall i ch, String.get i (name ++ ext)%string = Some ch -> is_sep ch = false) ->
  String.length ext = 4%nat ->
  get_path_name (name ++ ext) = (None, name).
Proof.
  intros Hrest Hext.
  rewrite (get_path_name_eq _ _ (last_sep_at_none _ Hrest)).
  change (0 <=? -1) with false. cbv iota.
  unfold Py.len. rewrite length_append, Hext.
  change (Z.to_nat (-1 + 1)) with 0%nat.
  replace (Z.to_nat _) with (String.length name) by lia.
  rewrite substring_0_append. reflexivity.
Qed.

(** X5.  The output file is named after the input: for an input path made
    of a directory part that ends with a separator, a name, and four
    last characters (whatever they are), the output path is the
    directory part, the name, the tag with the old and the new rate, and
    [.wav]. *)
Theorem output_path_of_parts d c name ext old_sample_rate new_sample_rate :
  is_sep c = true ->
  (forall i ch, String.get i (name ++ ext)%string = Some ch -> is_sep ch = false) ->
  String.length ext = 4%nat ->
  output_path (d ++ String c (name ++ ext)) old_sample_rate new_sample_rate
  = inr (d ++ String c EmptyString ++ name ++ "--sample_rate_changed__"
         ++ Py.str_of_int old_sample_rate ++ "_to_"
         ++ Py.str_of_int new_sample_rate ++ ".wav")%string.
Proof.
  intros Hc Hrest Hext. unfold output_path.
  rewrite (get_path_name_parts d c name ext Hc Hrest Hext).
  cbn [Py.add_str rbind]. unfold output_name. f_equal.
  rewrite <- !append_assoc. reflexivity.
Qed.

Lemma no_sep_string s :
  forallb (fun ch => negb (is_sep ch)) (list_ascii_of_string s) = true ->
  forall i ch, String.get i s = Some ch -> is_sep ch = false.
Proof.
  induction s as [|x s IH]; cbn [list_ascii_of_string forallb]; intros H i ch Hget.
  - destruct i; discriminate.
  - apply andb_true_iff in H. destruct H as [Hx Hs].
    destruct i as [|i]; cbn in Hget.
    + inversion Hget; subst. apply negb_true_iff. exact Hx.
    + eauto.
Qed.

Lemma output_path_of_parts_witness :
  output_path "music\take 1/track.WAV" 44100 48000
  = inr "music\take 1/track--sample_rate_changed__44100_to_48000.wav".
Proof.
  apply (output_path_of_parts "music\take 1" "/"%char "track" ".WAV" 44100 48000).
  - reflexivity.
  - apply no_sep_string. reflexivity.
  - reflexivity.
Defined.

(** X6.  Runs on the same input with different new rates write to
    different output files: the output path tells the new rates apart. *)
Theorem output_path_tells_rates_apart input_wav old_sample_rate rate1 rate2 out1 out2 :
  rate1 <> rate2 ->
  output_path input_wav old_sample_rate rate1 = inr out1 ->
  output_path input_wav old_sample_rate rate2 = inr out2 ->
  out1 <> out2.
Proof.
  intros Hne H1 H2 Heq. subst out2. apply Hne.
  destruct (output_path_eq _ _ _ _ H1) as (path1 & Hp1 & E1).
  destruct (output_path_eq _ _ _ _ H2) as (path2 & Hp2 & E2).
  assert (path2 = path1) by congruence. subst path2.
  rewrite E1 in E2. apply append_inj_r in E2. apply append_inj_l in E2.
  unfold output_name in E2.
  do 4 apply append_inj_l in E2.
  apply str_of_int_inj. exact E2.
Qed.

Lemma output_path_tells_rates_apart_witness :
  50400 <> 44100
  /\ "dir/input--sample_rate_changed__48000_to_50400.wav"
     <> "dir/input--sample_rate_changed__48000_to_44100.wav".
Proof.
  split; [lia|].
  apply (output_path_tells_rates_apart "dir/input.wav" 48000 50400 44100);
    [lia|reflexivity|reflexivity].
Defined.

(** X7.  [get_path_name] splits a path back into the parts it was made
    of: a directory part that ends with a separator (or none), a name
    without separator, and four last characters. *)
Theorem get_path_name_of_parts name ext :
  (forall i ch, String.get i (name ++ ext)%string = Some ch -> is_sep ch = false) ->
  String.length ext = 4%nat ->
  get_path_name (name ++ ext) = (None, name)
  /\ forall d c,
       is_sep c = true ->
       get_path_name (d ++ String c (name ++ ext))
       = (Some (d ++ String c EmptyString)%string, name).
Proof.
  intros Hrest Hext. split.
  - apply get_path_name_bare; assumption.
  - intros d c Hc. apply get_path_name_parts; assumption.
Qed.

Lemma get_path_name_of_parts_witness :
  get_path_name "take 1.aiff" = (None, "take 1.")
  /\ get_path_name "C:\Music\old/take 1.aiff" = (Some "C:\Music\old/", "take 1.").
Proof.
  assert (H : forall i ch, String.get i ("take 1." ++ "aiff")%string = Some ch ->
                           is_sep ch = false)
    by (apply no_sep_string; reflexivity).
  destruct (get_path_name_of_parts "take 1." "aiff" H eq_refl) as (H1 & H2).
  split; [exact H1|].
  exact (H2 "C:\Music\old" "/"%char eq_refl).
Defined.

(** ** Runs on an input that opens *)

Lemma get_append_left a b i :
  (i < String.length a)%nat -> String.get i (a ++ b)%string = String.get i a.
Proof.
  revert i. induction a as [|x a IH]; intros i H; cbn in H; [lia|].
  destruct i as [|i]; cbn; [reflexivity|]. apply IH. lia.
Qed.

(** The output path has a directory part when it exists. *)
Lemma output_path_keeps_sep input_wav old new out :
  output_path input_wav old new = inr out -> has_sep out.
Proof.
  intros Hout.
  destruct (output_path_eq _ _ _ _ Hout) as (path & Hpath & Eout).
  pose proof (end_of_path_last_sep input_wav) as L.
  pose proof (last_sep_at_lt_len _ _ L) as Hlt.
  rewrite (get_path_name_eq _ _ L) in Hpath.
  set (e := Z.max (Py.rfind input_wav "/"%char) (Py.rfind input_wav "\"%char)) in *.
  destruct (Z.leb_spec 0 e) as [He|He]; [|discriminate].
  cbn [snd] in Hpath. inversion Hpath as [Hp]. clear Hpath.
  destruct L as (_ & G & _). destruct (G He) as (c & Hc & Hsep).
  exists (Z.to_nat e), c. split; [|exact Hsep].
  assert (Hlen : String.length path = Z.to_nat (e + 1)).
  { rewrite <- Hp. apply length_substring. unfold Py.len in Hlt. lia. }
  rewrite Eout, <- append_assoc, get_append_left by lia.
  rewrite <- Hp, get_substring by lia. exact Hc.
Qed.

(** A run on an input that opens, named with a directory: the output
    file holds what the [with] block left, and one line is printed. *)
Lemma change_sample_rate_opened w input_wav new_sample_rate bs r :
  fs w input_wav = Some bs ->
  Wave_read.initfp (opened bs) = inr r ->
  has_sep input_wav ->
  exists out,
    output_path input_wav (Wave_read._framerate r) new_sample_rate = inr out
    /\ stdout (change_sample_rate input_wav new_sample_rate w)
       = stdout w ++ [run_line (fst (written r new_sample_rate))
                        (Wave_read._framerate r) new_sample_rate out]
    /\ forall q,
         fs (change_sample_rate input_wav new_sample_rate w) q
         = if String.eqb q out then Some (snd (written r new_sample_rate))
           else fs w q.
Proof.
  intros Hfs Hopen Hsep.
  destruct (output_path_has_sep input_wav (Wave_read._framerate r) new_sample_rate Hsep)
    as (out & Hout).
  exists out. split; [exact Hout|].
  destruct (change_sample_rate_cases w input_wav new_sample_rate)
    as [(e & E & Hno)|(bs' & r' & out' & Hfs' & Hopen' & Hout' & E)].
  - specialize (Hno bs r Hfs Hopen). congruence.
  - assert (bs' = bs) by congruence. subst bs'.
    assert (r' = r) by congruence. subst r'.
    assert (out' = out) by congruence. subst out'.
    rewrite E. split; [reflexivity|]. intros q.
    rewrite fs_print. apply fs_with_file.
Qed.

(** X8.  An input with samples of more than 4 bytes (64-bit samples, for
    one) is read by [wave] but cannot be written: for a rate between
    -2^32 and 2^32 the run fails with ['sample width not specified'],
    raised by [close()] after [setparams] refused the width, and leaves
    an empty output file.  (The bound on the rate is there for the name
    of the output file, which holds the rate: it stays a name that
    [open] accepts when the name of the input is one.) *)
Theorem wide_samples_rejected w input_wav new_sample_rate bs r :
  fs w input_wav = Some bs ->
  Wave_read.initfp (opened bs) = inr r ->
  has_sep input_wav ->
  4 < Wave_read._sampwidth r ->
  -4294967296 < new_sample_rate < 4294967296 ->
  exists out,
    output_path input_wav (Wave_read._framerate r) new_sample_rate = inr out
    /\ stdout (change_sample_rate input_wav new_sample_rate w)
       = stdout w ++ ["Error: sample width not specified"]
    /\ fs (change_sample_rate input_wav new_sample_rate w) out = Some [].
Proof.
  intros Hfs Hopen Hsep Hwide _.
  destruct (change_sample_rate_opened w input_wav new_sample_rate bs r Hfs Hopen Hsep)
    as (out & Hout & Hstdout & Hfiles).
  rewrite (written_bad_params r new_sample_rate (initfp_ok _ _ Hopen)) in *
    by (left; exact Hwide).
  destruct (Z.ltb_spec 4 (Wave_read._sampwidth r)); [|lia].
  exists out. split; [exact Hout|]. split; [exact Hstdout|].
  rewrite Hfiles, String.eqb_refl. reflexivity.
Qed.

Lemma wide_samples_rejected_witness :
  4 < 8 /\ -4294967296 < 50400 < 4294967296
  /\ exists out,
       output_path "dir/wide.wav" 48000 50400 = inr out
       /\ stdout (change_sample_rate "dir/wide.wav" 50400 (one_file "dir/wide.wav" wide_wav))
          = stdout (one_file "dir/wide.wav" wide_wav)
            ++ ["Error: sample width not specified"]
       /\ fs (change_sample_rate "dir/wide.wav" 50400 (one_file "dir/wide.wav" wide_wav))
             out = Some [].
Proof.
  split; [lia|]. split; [lia|].
  assert (Hopen : { r | Wave_read.initfp (opened wide_wav) = inr r
                        /\ Wave_read._sampwidth r = 8
                        /\ Wave_read._framerate r = 48000 }).
  { destruct (Wave_read.initfp (opened wide_wav)) as [e|r] eqn:E;
      vm_compute in E; [discriminate|].
    exists r. inversion E. repeat split; reflexivity. }
  destruct Hopen as (r & Hopen & Hsw & Hrate).
  rewrite <- Hrate.
  apply (wide_samples_rejected (one_file "dir/wide.wav" wide_wav) "dir/wide.wav"
           50400 wide_wav r).
  - reflexivity.
  - exact Hopen.
  - exists 3%nat, "/"%char. split; reflexivity.
  - rewrite Hsw. lia.
  - lia.
Defined.

(** X9.  When the rate is positive and below 2^32, the sample width is
    at most 4, and a field of the header does not fit its 16 or 32 bits
    (the byte rate channels x rate x width, for one), the run fails with
    [struct.error], and leaves an output file of the eight bytes
    [RIFFRIFF]: [RIFF] is written before the header is packed, once by
    [writeframes] and once by [close()].  (The upper bound on the rate
    is there for the name of the output file, as in X8.) *)
Theorem header_overflow_leaves_stub w input_wav new_sample_rate bs r :
  fs w input_wav = Some bs ->
  Wave_read.initfp (opened bs) = inr r ->
  has_sep input_wav ->
  Wave_read._sampwidth r <= 4 ->
  0 < new_sample_rate < 4294967296 ->
  ~ header_fits (Wave_read._nchannels r) (Wave_read._sampwidth r) new_sample_rate
      (Wave_read._nframes r) ->
  exists out msg,
    output_path input_wav (Wave_read._framerate r) new_sample_rate = inr out
    /\ stdout (change_sample_rate input_wav new_sample_rate w)
       = stdout w ++ [("Error: " ++ msg)%string]
    /\ fs (change_sample_rate input_wav new_sample_rate w) out
       = Some (b_RIFF ++ b_RIFF)
    /\ (Wave_read._nchannels r * Wave_read._sampwidth r < 65536 ->
        msg = "'L' format requires 0 <= number <= 4294967295").
Proof.
  intros Hfs Hopen Hsep Hsw (Hrate & _) Hno.
  destruct (change_sample_rate_opened w input_wav new_sample_rate bs r Hfs Hopen Hsep)
    as (out & Hout & Hstdout & Hfiles).
  pose proof (initfp_ok _ _ Hopen) as Hok.
  destruct (frames_of_ok r Hok) as (data & Hdata & _).
  destruct (written_too_large r new_sample_rate data Hok Hdata Hsw Hrate Hno)
    as (msg & Hwritten & Hmsg).
  rewrite Hwritten in *.
  exists out, msg. split; [exact Hout|]. split; [exact Hstdout|].
  split; [|exact Hmsg].
  rewrite Hfiles, String.eqb_refl. reflexivity.
Qed.

Lemma header_overflow_leaves_stub_witness :
  2 <= 4 /\ 0 < 1073741824 < 4294967296
  /\ ~ header_fits 2 2 1073741824 2
  /\ exists out msg,
       output_path "dir/stereo.wav" 44100 1073741824 = inr out
       /\ stdout (change_sample_rate "dir/stereo.wav" 1073741824
                    (one_file "dir/stereo.wav" stereo_wav))
          = stdout (one_file "dir/stereo.wav" stereo_wav) ++ [("Error: " ++ msg)%string]
       /\ fs (change_sample_rate "dir/stereo.wav" 1073741824
                (one_file "dir/stereo.wav" stereo_wav)) out
          = Some (b_RIFF ++ b_RIFF)
       /\ (2 * 2 < 65536 -> msg = "'L' format requires 0 <= number <= 4294967295").
Proof.
  assert (Hno : ~ header_fits 2 2 1073741824 2) by (unfold header_fits; lia).
  split; [lia|]. split; [lia|]. split; [exact Hno|].
  apply (header_overflow_leaves_stub (one_file "dir/stereo.wav" stereo_wav)
           "dir/stereo.wav" 1073741824 stereo_wav
           (written_reader stereo_wav 2 2 44100 8)).
  - reflexivity.
  - vm_compute. reflexivity.
  - exists 3%nat, "/"%char. split; reflexivity.
  - cbn. lia.
  - lia.
  - exact Hno.
Defined.

Lemma read_params_empty : read_params [] = inl EOFError.
Proof. vm_compute. reflexivity. Qed.

Lemma read_params_stub :
  read_params (b_RIFF ++ b_RIFF) = inl (Error "not a WAVE file").
Proof. vm_compute. reflexivity. Qed.

Lemma header_fits_dec nch sw rate nf :
  header_fits nch sw rate nf \/ ~ header_fits nch sw rate nf.
Proof. unfold header_fits. lia. Qed.

(** X10.  For an input that opens, named with a directory, and a rate
    between -2^32 and 2^32, the run succeeds exactly when the sample
    width is at most 4, the new rate is positive and the header fields
    fit.  It then writes the 44 bytes of the header followed by the
    frames read, and nothing else of the input; otherwise it prints an
    error and leaves an output file that [wave] cannot open.  (The
    bound on the rate is there for the name of the output file, as in
    X8.) *)
Theorem run_succeeds_iff w input_wav new_sample_rate bs r :
  fs w input_wav = Some bs ->
  Wave_read.initfp (opened bs) = inr r ->
  has_sep input_wav ->
  -4294967296 < new_sample_rate < 4294967296 ->
  let w' := change_sample_rate input_wav new_sample_rate w in
  let accepted :=
    Wave_read._sampwidth r <= 4 /\ 0 < new_sample_rate
    /\ header_fits (Wave_read._nchannels r) (Wave_read._sampwidth r)
         new_sample_rate (Wave_read._nframes r) in
  exists out data,
    output_path input_wav (Wave_read._framerate r) new_sample_rate = inr out
    /\ frames_of r = inr data
    /\ (stdout w' = stdout w ++ [success_line (Wave_read._framerate r) new_sample_rate out]
        <-> accepted)
    /\ (accepted ->
        fs w' out
        = Some (wav_header (Wave_read._nchannels r) (Wave_read._sampwidth r)
                  new_sample_rate (Z.of_nat (List.length data)) ++ data))
    /\ (~ accepted ->
        exists e out_bs,
          stdout w' = stdout w ++ [("Error: " ++ Py.str_of_exn e)%string]
          /\ fs w' out = Some out_bs
          /\ exists err, read_params out_bs = inl err).
Proof.
  intros Hfs Hopen Hsep _ w' accepted. subst w'.
  destruct (change_sample_rate_opened w input_wav new_sample_rate bs r Hfs Hopen Hsep)
    as (out & Hout & Hstdout & Hfiles).
  pose proof (initfp_ok _ _ Hopen) as Hok.
  destruct (frames_of_ok r Hok) as (data & Hdata & _).
  exists out, data. split; [exact Hout|]. split; [exact Hdata|].
  assert (Hline : forall e,
             stdout w ++ [("Error: " ++ Py.str_of_exn e)%string]
             <> stdout w ++ [success_line (Wave_read._framerate r) new_sample_rate out]).
  { intros e E. apply app_inv_head in E. inversion E. }
  assert (Hcases : accepted
                   \/ ~ accepted
                      /\ exists e out_bs,
                           written r new_sample_rate = (inl e, out_bs)
                           /\ exists err, read_params out_bs = inl err).
  { subst accepted.
    destruct (Z.le_gt_cases (Wave_read._sampwidth r) 4) as [Hsw|Hsw].
    2:{ right. split; [lia|]. do 2 eexists. split.
        - apply written_bad_params; [exact Hok|left; lia].
        - eexists. exact read_params_empty. }
    destruct (Z.lt_ge_cases 0 new_sample_rate) as [Hrate|Hrate].
    2:{ right. split; [lia|]. do 2 eexists. split.
        - apply written_bad_params; [exact Hok|right; lia].
        - eexists. exact read_params_empty. }
    destruct (header_fits_dec (Wave_read._nchannels r) (Wave_read._sampwidth r)
                new_sample_rate (Wave_read._nframes r)) as [Hfit|Hfit].
    - left. auto.
    - right. split; [tauto|].
      destruct (written_too_large r new_sample_rate data Hok Hdata Hsw Hrate Hfit)
        as (msg & Hwritten & _).
      do 2 eexists. split; [exact Hwritten|eexists; exact read_params_stub]. }
  destruct Hcases as [Hacc|(Hnot & e & out_bs & Hwritten & Hread)].
  - destruct Hacc as (Hsw & Hrate & Hfit).
    rewrite (written_ok r new_sample_rate data Hok Hdata Hsw Hrate Hfit) in *.
    cbn [fst snd run_line] in *.
    split; [split; [intros _; subst accepted; auto|intros _; exact Hstdout]|].
    split; [intros _; rewrite Hfiles, String.eqb_refl; reflexivity|].
    intros Hnot. exfalso. apply Hnot. subst accepted. auto.
  - rewrite Hwritten in *. cbn [fst snd run_line] in *.
    split; [split; [|intros Hacc; contradiction]|].
    + intros E. rewrite Hstdout in E. exfalso. exact (Hline e E).
    + split; [intros Hacc; contradiction|].
      intros _. exists e, out_bs. split; [exact Hstdout|].
      split; [|exact Hread].
      rewrite Hfiles, String.eqb_refl. reflexivity.
Qed.

Lemma run_succeeds_iff_witness :
  exists r,
    Wave_read.initfp (opened list_chunk_wav) = inr r
    /\ has_sep "dir/tagged.wav"
    /\ -4294967296 < 50400 < 4294967296
    /\ let w := one_file "dir/tagged.wav" list_chunk_wav in
       let w' := change_sample_rate "dir/tagged.wav" 50400 w in
       let accepted :=
         Wave_read._sampwidth r <= 4 /\ 0 < 50400
         /\ header_fits (Wave_read._nchannels r) (Wave_read._sampwidth r)
              50400 (Wave_read._nframes r) in
       exists out data,
         output_path "dir/tagged.wav" (Wave_read._framerate r) 50400 = inr out
         /\ frames_of r = inr data
         /\ (stdout w' = stdout w ++ [success_line (Wave_read._framerate r) 50400 out]
             <-> accepted)
         /\ (accepted ->
             fs w' out
             = Some (wav_header (Wave_read._nchannels r) (Wave_read._sampwidth r)
                       50400 (Z.of_nat (List.length data)) ++ data))
         /\ (~ accepted ->
             exists e out_bs,
               stdout w' = stdout w ++ [("Error: " ++ Py.str_of_exn e)%string]
               /\ fs w' out = Some out_bs
               /\ exists err, read_params out_bs = inl err).
Proof.
  destruct (Wave_read.initfp (opened list_chunk_wav)) as [e|r] eqn:Hopen;
    [vm_compute in Hopen; discriminate|].
  assert (Hsep : has_sep "dir/tagged.wav")
    by (exists 3%nat, "/"%char; split; reflexivity).
  assert (Hrate : -4294967296 < 50400 < 4294967296) by lia.
  exists r. split; [reflexivity|]. split; [exact Hsep|]. split; [exact Hrate|].
  exact (run_succeeds_iff (one_file "dir/tagged.wav" list_chunk_wav)
           "dir/tagged.wav" 50400 list_chunk_wav r eq_refl Hopen Hsep Hrate).
Defined.

(** The chunks of an input other than the format and the data are not
    copied: the output of the file with a [LIST] chunk is the output of
    the file without it. *)
Example list_chunk_dropped :
  read_params list_chunk_wav = read_params sample_wav
  /\ fs (change_sample_rate "dir/tagged.wav" 50400 (one_file "dir/tagged.wav" list_chunk_wav))
        "dir/tagged--sample_rate_changed__48000_to_50400.wav"
     = Some (wav_header 1 2 50400 8 ++ sample_frames).
Proof. split; vm_compute; reflexivity. Qed.

(** ** Runs that touch no file *)

Lemma no_sep_no_path p : ~ has_sep p -> fst (get_path_name p) = None.
Proof.
  intros Hn. pose proof (end_of_path_last_sep p) as L.
  rewrite (get_path_name_eq p _ L). cbn [fst].
  destruct (Z.leb_spec 0 (Z.max (Py.rfind p "/"%char) (Py.rfind p "\"%char)))
    as [He|]; [|reflexivity].
  exfalso. apply Hn. destruct L as (_ & G & _).
  destruct (G He) as (c & Hc & Hsep). exists (Z.to_nat (Z.max (Py.rfind p "/"%char) (Py.rfind p "\"%char))), c. auto.
Qed.

Lemma no_sep_output_path p old new :
  ~ has_sep p ->
  output_path p old new
  = inl (TypeError "unsupported operand type(s) for +: 'NoneType' and 'str'").
Proof.
  intros Hn. pose proof (no_sep_no_path p Hn) as Hp.
  unfold output_path. destruct (get_path_name p) as [path name].
  cbn [fst] in Hp. subst path. reflexivity.
Qed.

(** X11.  An input given by a bare file name, without a directory part,
    is never processed: whatever the file and the rate, the run prints
    an error and creates or changes no file.  For an input that [wave]
    opens the error is the [TypeError] of [None + str]. *)
Theorem bare_file_name_never_processed w input_wav new_sample_rate :
  ~ has_sep input_wav ->
  let w' := change_sample_rate input_wav new_sample_rate w in
  (forall q, fs w' q = fs w q)
  /\ exists e,
       stdout w' = stdout w ++ [("Error: " ++ Py.str_of_exn e)%string]
       /\ (forall bs r,
              fs w input_wav = Some bs ->
              Wave_read.initfp (opened bs) = inr r ->
              e = TypeError "unsupported operand type(s) for +: 'NoneType' and 'str'").
Proof.
  intros Hn w'. subst w'.
  destruct (change_sample_rate_cases w input_wav new_sample_rate)
    as [(e & E & Hno)|(bs & r & out & Hfs & Hopen & Hout & E)].
  - rewrite E. split; [reflexivity|]. exists e. split; [reflexivity|].
    intros bs r Hfs Hopen. specialize (Hno bs r Hfs Hopen).
    rewrite (no_sep_output_path _ _ _ Hn) in Hno. congruence.
  - rewrite (no_sep_output_path _ _ _ Hn) in Hout. discriminate.
Qed.

Lemma bare_file_name_never_processed_witness :
  ~ has_sep "stereo.wav"
  /\ let w' := change_sample_rate "stereo.wav" 22050 (one_file "stereo.wav" stereo_wav) in
     (forall q, fs w' q = fs (one_file "stereo.wav" stereo_wav) q)
     /\ exists e,
          stdout w' = stdout (one_file "stereo.wav" stereo_wav)
                      ++ [("Error: " ++ Py.str_of_exn e)%string]
          /\ (forall bs r,
                 fs (one_file "stereo.wav" stereo_wav) "stereo.wav" = Some bs ->
                 Wave_read.initfp (opened bs) = inr r ->
                 e = TypeError "unsupported operand type(s) for +: 'NoneType' and 'str'").
Proof.
  assert (Hn : ~ has_sep "stereo.wav").
  { intros (i & c & Hc & Hs).
    pose proof (no_sep_string "stereo.wav" eq_refl i c Hc). congruence. }
  split; [exact Hn|].
  exact (bare_file_name_never_processed (one_file "stereo.wav" stereo_wav)
           "stereo.wav" 22050 Hn).
Defined.

Lemma change_sample_rate_try_unreadable w input_wav new_sample_rate :
  (forall bs r, fs w input_wav = Some bs -> Wave_read.initfp (opened bs) <> inr r) ->
  exists e,
    change_sample_rate_try input_wav new_sample_rate w = (inl e, w)
    /\ (fs w input_wav = None -> e = FileNotFoundError input_wav)
    /\ (forall bs, fs w input_wav = Some bs -> Wave_read.initfp (opened bs) = inl e).
Proof.
  intros Hbad.
  unfold change_sample_rate_try.
  unfold bind at 1. unfold open_rb. unfold bind at 1. unfold get at 1.
  destruct (fs w input_wav) as [bs|] eqn:Hfs.
  - unfold lift at 1. fold (opened bs).
    destruct (Wave_read.initfp (opened bs)) as [e|r] eqn:Hopen.
    + exists e. split; [reflexivity|].
      split; [discriminate|]. intros bs' E. inversion E; subst bs'. exact Hopen.
    + exfalso. exact (Hbad bs r eq_refl Hopen).
  - exists (FileNotFoundError input_wav).
    split; [reflexivity|]. split; [reflexivity|discriminate].
Qed.

(** X12.  When the input cannot be opened as a WAV file (it does not
    exist, or [wave] refuses it), the run prints the error and creates
    or changes no file: the output file is opened after the input is
    read. *)
Theorem unreadable_input_creates_nothing w input_wav new_sample_rate :
  (forall bs r, fs w input_wav = Some bs -> Wave_read.initfp (opened bs) <> inr r) ->
  let w' := change_sample_rate input_wav new_sample_rate w in
  (forall q, fs w' q = fs w q)
  /\ exists e,
       stdout w' = stdout w ++ [("Error: " ++ Py.str_of_exn e)%string]
       /\ (fs w input_wav = None -> e = FileNotFoundError input_wav)
       /\ (forall bs, fs w input_wav = Some bs -> Wave_read.initfp (opened bs) = inl e).
Proof.
  intros Hbad w'. subst w'.
  destruct (change_sample_rate_try_unreadable w input_wav new_sample_rate Hbad)
    as (e & Htry & Hnone & Hsome).
  unfold change_sample_rate. rewrite Htry.
  split; [reflexivity|]. exists e. split; [reflexivity|]. split; assumption.
Qed.

Lemma unreadable_input_creates_nothing_witness :
  let w := one_file "dir/notes.wav" junk_file in
  let w' := change_sample_rate "dir/absent.wav" 50400 w in
  (forall q, fs w' q = fs w q)
  /\ exists e,
       stdout w' = stdout w ++ [("Error: " ++ Py.str_of_exn e)%string]
       /\ (fs w "dir/absent.wav" = None -> e = FileNotFoundError "dir/absent.wav")
       /\ (forall bs, fs w "dir/absent.wav" = Some bs ->
                      Wave_read.initfp (opened bs) = inl e).
Proof.
  apply (unreadable_input_creates_nothing (one_file "dir/notes.wav" junk_file)
           "dir/absent.wav" 50400).
  intros bs r Hfs. vm_compute in Hfs. discriminate Hfs.
Defined.

(** ** Changing the rate and changing it back *)

Lemma output_path_longer input_wav old new out :
  output_path input_wav old new = inr out ->
  (String.length input_wav < String.length out)%nat.
Proof.
  intros Hout.
  pose proof (end_of_path_last_sep input_wav) as L.
  pose proof (last_sep_at_lt_len _ _ L) as Hlt.
  revert Hout. unfold output_path. rewrite (get_path_name_eq _ _ L).
  set (e := Z.max (Py.rfind input_wav "/"%char) (Py.rfind input_wav "\"%char)) in *.
  destruct (Z.leb_spec 0 e) as [He|He]; [|discriminate].
  cbn [Py.add_str rbind]. intros E. inversion E; subst out; clear E.
  unfold output_name, Py.len in *. rewrite !length_append.
  rewrite !length_substring by lia.
  cbn [String.length]. lia.
Qed.

(** What [wave] reads from a file made of the header for [data] and
    [data], when [data] is a whole number of frames. *)
Lemma written_file_reads nch sw rate nf data :
  let len := Z.of_nat (List.length data) in
  1 <= nch -> 1 <= sw <= 4 -> 0 < rate ->
  nch * sw < 65536 -> nch * rate * sw < 4294967296 ->
  36 + len < 4294967296 ->
  len = nf * (nch * sw) ->
  let r := written_reader (wav_header nch sw rate len ++ data) nch sw rate len in
  Wave_read.initfp (opened (wav_header nch sw rate len ++ data)) = inr r
  /\ Wave_read._nframes r = nf
  /\ frames_of r = inr data.
Proof.
  intros len Hn Hs Hr Ha Hb Hl Hnf r.
  assert (Hpos : 0 < nch * sw) by nia.
  assert (Hdiv : len / (nch * sw) = nf) by (rewrite Hnf; apply Z.div_mul; lia).
  split; [|split].
  - unfold opened. exact (initfp_written nch sw rate data Hn Hs Hr Ha Hb Hl).
  - exact Hdiv.
  - unfold frames_of. subst r. cbn [Wave_read._nframes written_reader].
    pose proof (readframes_written (wav_header nch sw rate len ++ data) nch sw rate data
                  Hn ltac:(lia) eq_refl) as Hread.
    cbv zeta in Hread. fold len in Hread. rewrite Hread.
    rewrite Hdiv, <- Hnf. unfold len. rewrite Nat2Z.id, firstn_all. reflexivity.
Qed.

(** X13.  Changing the rate of a valid file and then changing the rate of
    the output back to the old rate gives a file from which [wave] reads
    what it reads from the original: the same parameters and the same
    frames.  The file is the 44-byte header and the frames, so it is the
    original byte for byte when the original has no other chunk; the
    original is still there. *)
Theorem rate_change_round_trip w input_wav new_sample_rate bs r data :
  fs w input_wav = Some bs ->
  valid_wav bs r data ->
  has_sep input_wav ->
  0 < new_sample_rate ->
  Wave_read._nchannels r * new_sample_rate * Wave_read._sampwidth r < 4294967296 ->
  0 < Wave_read._framerate r ->
  Wave_read._nchannels r * Wave_read._framerate r * Wave_read._sampwidth r
  < 4294967296 ->
  exists out back,
    output_path input_wav (Wave_read._framerate r) new_sample_rate = inr out
    /\ output_path out new_sample_rate (Wave_read._framerate r) = inr back
    /\ let w2 := change_sample_rate out (Wave_read._framerate r)
                   (change_sample_rate input_wav new_sample_rate w) in
       let back_bs :=
         wav_header (Wave_read._nchannels r) (Wave_read._sampwidth r)
           (Wave_read._framerate r) (Z.of_nat (List.length data)) ++ data in
       fs w2 back = Some back_bs
       /\ read_params back_bs = read_params bs
       /\ read_frames back_bs = read_frames bs
       /\ fs w2 input_wav = Some bs.
Proof.
  intros Hfs [Hreads Hframes Hcomplete Hwidth Halign] Hsep Hrate Hbyte Hold Hbyte0.
  pose proof (frames_of_size _ _ _ Hreads Hframes) as Hsize.
  pose proof (initfp_ok _ _ Hreads) as ((Hn & Hs & _ & Hfsz & Hct & Hcn) & _).
  set (nch := Wave_read._nchannels r) in *.
  set (sw := Wave_read._sampwidth r) in *.
  set (old := Wave_read._framerate r) in *.
  set (nf := Wave_read._nframes r) in *.
  set (len := Z.of_nat (List.length data)) in *.
  rewrite Hfsz in Hcomplete.
  destruct (output_path_has_sep input_wav old new_sample_rate Hsep) as (out & Hout).
  pose proof (output_path_keeps_sep _ _ _ _ Hout) as Hsep1.
  destruct (output_path_has_sep out new_sample_rate old Hsep1) as (back & Hback).
  exists out, back. split; [exact Hout|]. split; [exact Hback|].
  (* the first run *)
  destruct (change_sample_rate_try_ok w input_wav new_sample_rate bs r out
              Hfs Hreads Hout Hwidth Halign ltac:(fold nf; rewrite Hfsz; fold nch sw; lia)
              Hrate Hbyte)
    as (data1 & w1 & Hdata1 & Htry1 & Hfs1 & _).
  assert (data1 = data) by congruence. subst data1.
  fold nch sw len in Hfs1.
  assert (Hw1 : change_sample_rate input_wav new_sample_rate w = w1)
    by (unfold change_sample_rate; rewrite Htry1; reflexivity).
  rewrite Hw1.
  (* the file it wrote *)
  destruct (written_file_reads nch sw new_sample_rate nf data
              ltac:(lia) ltac:(lia) Hrate Halign Hbyte Hsize Hcomplete)
    as (Hreads1 & Hnf1 & Hframes1).
  fold len in Hreads1, Hnf1, Hframes1.
  set (out_bs := wav_header nch sw new_sample_rate len ++ data) in *.
  set (r1 := written_reader out_bs nch sw new_sample_rate len) in *.
  assert (Hfs_out : fs w1 out = Some out_bs)
    by (rewrite Hfs1, String.eqb_refl; reflexivity).
  (* the second run *)
  destruct (change_sample_rate_try_ok w1 out old out_bs r1 back
              Hfs_out Hreads1 Hback Hwidth Halign
              ltac:(rewrite Hnf1; cbn [r1 written_reader Wave_read._framesize
                                       Wave_read._nchannels Wave_read._sampwidth]; lia)
              Hold Hbyte0)
    as (data2 & w2 & Hdata2 & Htry2 & Hfs2 & _).
  assert (data2 = data) by congruence. subst data2.
  cbn [r1 written_reader Wave_read._nchannels Wave_read._sampwidth] in Hfs2.
  fold len in Hfs2.
  assert (Hw2 : change_sample_rate out old w1 = w2)
    by (unfold change_sample_rate; rewrite Htry2; reflexivity).
  cbv zeta. rewrite Hw2.
  split; [rewrite Hfs2, String.eqb_refl; reflexivity|].
  destruct (read_written_file nch sw old data) as (Hp & Hf); try lia.
  fold len in Hp, Hf.
  assert (Hdiv : len / (nch * sw) = nf)
    by (rewrite Hcomplete; apply Z.div_mul; nia).
  split; [|split].
  - rewrite Hp. unfold read_params. rewrite Hreads. cbn [rbind].
    unfold Wave_read.getparams. rewrite Hct, Hcn, Hdiv. reflexivity.
  - rewrite Hf. unfold read_frames. rewrite Hreads. cbn [rbind].
    rewrite Hframes, Hdiv, <- Hcomplete. unfold len.
    rewrite Nat2Z.id, firstn_all. reflexivity.
  - pose proof (output_path_longer _ _ _ _ Hout) as Hl1.
    pose proof (output_path_longer _ _ _ _ Hback) as Hl2.
    rewrite Hfs2.
    destruct (String.eqb_spec input_wav back) as [E|_];
      [rewrite E in Hl1; lia|].
    rewrite Hfs1.
    destruct (String.eqb_spec input_wav out) as [E|_];
      [rewrite E in Hl1; lia|].
    exact Hfs.
Qed.

Lemma rate_change_round_trip_witness :
  let r := written_reader stereo_wav 2 2 44100 8 in
  let w := one_file "dir/stereo.wav" stereo_wav in
  valid_wav stereo_wav r sample_frames
  /\ exists out back,
       output_path "dir/stereo.wav" (Wave_read._framerate r) 48000 = inr out
       /\ output_path out 48000 (Wave_read._framerate r) = inr back
       /\ let w2 := change_sample_rate out (Wave_read._framerate r)
                      (change_sample_rate "dir/stereo.wav" 48000 w) in
          let back_bs :=
            wav_header (Wave_read._nchannels r) (Wave_read._sampwidth r)
              (Wave_read._framerate r) (Z.of_nat (List.length sample_frames))
            ++ sample_frames in
          fs w2 back = Some back_bs
          /\ read_params back_bs = read_params stereo_wav
          /\ read_frames back_bs = read_frames stereo_wav
          /\ fs w2 "dir/stereo.wav" = Some stereo_wav.
Proof.
  intros r w.
  assert (Hvalid : valid_wav stereo_wav r sample_frames) by sample_valid.
  split; [exact Hvalid|].
  apply (rate_change_round_trip w "dir/stereo.wav" 48000 stereo_wav r sample_frames).
  - reflexivity.
  - exact Hvalid.
  - exists 3%nat, "/"%char. split; reflexivity.
  - lia.
  - cbn. lia.
  - cbn. lia.
  - cbn. lia.
Defined.

(** ** The command line *)

(** The value [int()] accumulates over the digits [d], from [acc]. *)
Lemma digits_string_of_uint d prev acc count :
  d <> Decimal.Nil ->
  Py.digits (NilEmpty.string_of_uint d) prev acc count
  = Some (uint_value d acc, count + Z.of_nat (Decimal.nb_digits d)).
Proof.
  intros Hd.
  assert (H : forall d prev acc count,
             d <> Decimal.Nil \/ prev = true ->
             Py.digits (NilEmpty.string_of_uint d) prev acc count
             = Some (uint_value d acc, count + Z.of_nat (Decimal.nb_digits d))).
  { clear. induction d as [|d IH|d IH|d IH|d IH|d IH|d IH|d IH|d IH|d IH|d IH];
      intros prev acc count Hp;
      [ destruct Hp as [Hp|Hp]; [congruence|subst prev];
        cbn; rewrite Z.add_0_r; reflexivity
      | cbn [NilEmpty.string_of_uint Py.digits uint_value Decimal.nb_digits];
        change (Py.digit_value _) with (Some 0) ||
        change (Py.digit_value _) with (Some 1) ||
        change (Py.digit_value _) with (Some 2) ||
        change (Py.digit_value _) with (Some 3) ||
        change (Py.digit_value _) with (Some 4) ||
        change (Py.digit_value _) with (Some 5) ||
        change (Py.digit_value _) with (Some 6) ||
        change (Py.digit_value _) with (Some 7) ||
        change (Py.digit_value _) with (Some 8) ||
        change (Py.digit_value _) with (Some 9);
        cbv iota; rewrite IH by (right; reflexivity);
        rewrite Nat2Z.inj_succ; f_equal; f_equal; lia .. ]. }
  apply H. left. exact Hd.
Qed.

Lemma uint_value_pos d acc :
  uint_value d (Z.pos acc) = Z.pos (Pos.of_uint_acc d acc).
Proof.
  revert acc.
  induction d as [|d IH|d IH|d IH|d IH|d IH|d IH|d IH|d IH|d IH|d IH];
    intros acc; cbn [uint_value Pos.of_uint_acc]; [reflexivity|..];
    rewrite <- IH; f_equal; lia.
Qed.

Lemma uint_value_0 d : uint_value d 0 = Z.of_N (Pos.of_uint d).
Proof.
  induction d as [|d IH|d IH|d IH|d IH|d IH|d IH|d IH|d IH|d IH|d IH];
    cbn [uint_value Pos.of_uint]; [reflexivity|exact IH|..];
    cbn [Z.mul Z.add Z.of_N]; apply uint_value_pos.
Qed.

Lemma length_string_of_uint d :
  String.length (NilEmpty.string_of_uint d) = Decimal.nb_digits d.
Proof. induction d; cbn; congruence. Qed.

(** The digits of a number hold no white space for [int()] to strip. *)
Lemma rstrip_string_of_uint d :
  Py.rstrip (NilEmpty.string_of_uint d) = NilEmpty.string_of_uint d.
Proof.
  induction d as [|d IH|d IH|d IH|d IH|d IH|d IH|d IH|d IH|d IH|d IH];
    [reflexivity|..];
    cbn [NilEmpty.string_of_uint Py.rstrip]; rewrite IH;
    destruct (NilEmpty.string_of_uint d); reflexivity.
Qed.

(** [int(str(n))] is [n], for an [n] whose decimal form is within the
    limit on the number of digits. *)
Lemma int_str_of_int n :
  (String.length (Py.str_of_int n) <= 4300)%nat ->
  Py.int (Py.str_of_int n) = Some n.
Proof.
  unfold Py.str_of_int. destruct n as [|p|p]; [reflexivity|..];
    cbn [Z.to_int NilZero.string_of_int]; unfold NilZero.string_of_uint;
    pose proof (DecimalPos.Unsigned.to_uint_nonnil p) as Hnil;
    pose proof (DecimalPos.Unsigned.of_to p) as Hval;
    pose proof (digits_string_of_uint (Pos.to_uint p) false 0 0 Hnil) as Hdigits;
    rewrite uint_value_0, Hval in Hdigits;
    pose proof (rstrip_string_of_uint (Pos.to_uint p)) as Hstrip;
    pose proof (length_string_of_uint (Pos.to_uint p)) as Hlen;
    destruct (Pos.to_uint p) as [|d|d|d|d|d|d|d|d|d|d]; try congruence;
    intros Hsize; unfold Py.int;
    cbn [NilEmpty.string_of_uint] in *;
    cbn [Py.lstrip];
    change (Py.isspace _) with false; cbv iota;
    try (cbn [Py.rstrip]; cbn [Py.rstrip] in Hstrip);
    try rewrite Hstrip;
    try (injection Hstrip as Hstrip; rewrite Hstrip);
    cbv beta iota zeta;
    rewrite Hdigits;
    cbn [String.length Decimal.nb_digits] in Hsize, Hlen;
    cbn [Decimal.nb_digits];
    match goal with
    | |- context [Z.ltb ?a ?b] => destruct (Z.ltb_spec a b); [lia|reflexivity]
    end.
Qed.

(** X14.  A rate written in decimal, as [str] prints an integer, is
    accepted by [main] and handed to [change_sample_rate] unchanged,
    negative numbers included; the exit status is then 0 whatever the
    run does. *)
Theorem main_accepts_decimal_rate prog input_wav n w :
  (String.length (Py.str_of_int n) <= 4300)%nat ->
  main [prog; input_wav; Py.str_of_int n] w = (0, change_sample_rate input_wav n w).
Proof.
  intros Hsize. unfold main.
  change (negb (Z.of_nat (List.length [prog; input_wav; Py.str_of_int n]) =? 3))
    with false.
  cbv iota. cbn [nth]. rewrite (int_str_of_int n Hsize). reflexivity.
Qed.

Lemma main_accepts_decimal_rate_witness :
  (String.length (Py.str_of_int (-50400)) <= 4300)%nat
  /\ main ["change_tempo_and_pitch_via_sample_rate.py"; "dir/input.wav"; "-50400"]
          (one_file "dir/input.wav" sample_wav)
     = (0, change_sample_rate "dir/input.wav" (-50400)
             (one_file "dir/input.wav" sample_wav)).
Proof.
  assert (H : (String.length (Py.str_of_int (-50400)) <= 4300)%nat)
    by (vm_compute; lia).
  split; [exact H|].
  exact (main_accepts_decimal_rate "change_tempo_and_pitch_via_sample_rate.py"
           "dir/input.wav" (-50400) (one_file "dir/input.wav" sample_wav) H).
Defined.

